(** * archive_bot: the page-eligibility and mutation pipeline

    A shallow embedding of [archive_bot.py] and the properties of its
    marker extractor, eligibility evaluator, checkpoint store, archival
    mutator and driver.

    Conventions of the embedding.
    - Python [str] values are [string]s; characters are the code points
      below 256.  Texts with other code points are outside the
      embedding, and so is the one way the script can make such a code
      point out of ASCII text: a [\u] escape above 00ff in the
      checkpoint record, which [json.loads] decodes and [json_loads]
      here rejects.
    - A function that can raise returns a [result]; a function that talks
      to the wiki is a state transformer over [world] (see [M]).
    - The libraries the script calls ([re], [json], [dateutil],
      [pywikibot], [requests]) are modelled only as far as the script uses
      them; what is outside that is a variable of the enclosing section. *)

From Stdlib Require Import ZArith Ascii String List Bool Lia.
From stdpp Require Import gmap strings.

Local Open Scope Z_scope.

(** ** Characters *)

Abbreviation newline := "010"%char (only parsing).
Abbreviation dquote := "034"%char (only parsing).
Abbreviation squote := "039"%char (only parsing).
Abbreviation backslash := "092"%char (only parsing).
Abbreviation lbrace := "{"%char (only parsing).
Abbreviation rbrace := "}"%char (only parsing).
Abbreviation pipe := "|"%char (only parsing).

Definition code (c : ascii) : N := N_of_ascii c.

(** [.] of [re] without DOTALL: every character but the line feed. *)
Definition not_newline (c : ascii) : bool := negb (Ascii.eqb c newline).

(** [\s] of [re] on [str] patterns: the characters for which
    [str.isspace] holds (code points below 256). *)
Definition is_space (c : ascii) : bool :=
  let n := code c in
  ((9 <=? n) && (n <=? 13) || (28 <=? n) && (n <=? 32)
   || (n =? 133) || (n =? 160))%N.

Definition is_digit (c : ascii) : bool :=
  let n := code c in ((48 <=? n) && (n <=? 57))%N.

(** ** Strings *)

Definition str1 (c : ascii) : string := String c EmptyString.

Fixpoint str_forallb (f : ascii -> bool) (s : string) : bool :=
  match s with
  | EmptyString => true
  | String c s' => f c && str_forallb f s'
  end.

Fixpoint str_mem (c : ascii) (s : string) : bool :=
  match s with
  | EmptyString => false
  | String d s' => Ascii.eqb c d || str_mem c s'
  end.

(** [s.startswith(p)] *)
Fixpoint str_prefix (p s : string) : bool :=
  match p with
  | EmptyString => true
  | String a p' =>
      match s with
      | String b s' => Ascii.eqb a b && str_prefix p' s'
      | EmptyString => false
      end
  end.

Fixpoint str_rev_onto (s acc : string) : string :=
  match s with
  | EmptyString => acc
  | String c s' => str_rev_onto s' (String c acc)
  end.

Definition str_rev (s : string) : string := str_rev_onto s EmptyString.

(** [s.lstrip(chars)] and [s.strip(chars)]: [chars] is a set of
    characters, not a prefix. *)
Fixpoint py_lstrip (chars s : string) : string :=
  match s with
  | EmptyString => EmptyString
  | String c s' => if str_mem c chars then py_lstrip chars s' else s
  end.

Definition py_strip (chars s : string) : string :=
  str_rev (py_lstrip chars (str_rev (py_lstrip chars s))).

(** [s] without its last [String.length rest] characters: the text a
    match consumed when it left [rest]. *)
Definition consumed (s rest : string) : string :=
  String.substring 0 (String.length s - String.length rest) s.

(** ** Regular expressions

    The fragment of [re] the script's patterns live in: single
    characters, one-character classes, greedy stars of a class and
    sequencing.  [rmatch] is a backtracking matcher in
    continuation-passing style: a star first tries the longest run and
    gives characters back one at a time, as [re] does. *)

Inductive regex : Type :=
| Eps
| Chr (c : ascii)
| Cls (f : ascii -> bool)
| Star (f : ascii -> bool)
| Seq (r1 r2 : regex).

Fixpoint lit (s : string) : regex :=
  match s with
  | EmptyString => Eps
  | String c s' => Seq (Chr c) (lit s')
  end.

Fixpoint star_cls (f : ascii -> bool) (k : string -> option string)
    (s : string) : option string :=
  match s with
  | String c s' =>
      if f c then
        match star_cls f k s' with
        | Some rest => Some rest
        | None => k s
        end
      else k s
  | EmptyString => k s
  end.

Fixpoint rmatch (r : regex) (k : string -> option string) (s : string)
    : option string :=
  match r with
  | Eps => k s
  | Chr c =>
      match s with
      | String d s' => if Ascii.eqb c d then k s' else None
      | EmptyString => None
      end
  | Cls f =>
      match s with
      | String d s' => if f d then k s' else None
      | EmptyString => None
      end
  | Star f => star_cls f k s
  | Seq r1 r2 => rmatch r1 (rmatch r2 k) s
  end.

(** A match anchored at the start of [s]; the result is what follows
    the match. *)
Definition match_at (r : regex) (s : string) : option string :=
  rmatch r Some s.

(** [re.search(r, s)] as a truth value. *)
Fixpoint re_search (r : regex) (s : string) : bool :=
  match match_at r s with
  | Some _ => true
  | None =>
      match s with
      | String _ s' => re_search r s'
      | EmptyString => false
      end
  end.

(** [re.findall(r, s)] for a pattern without groups: the non-overlapping
    matches, scanning left to right.  [skip] counts the characters of
    the last match that are still to be passed over. *)
Fixpoint findall_from (r : regex) (skip : nat) (s : string) : list string :=
  match s with
  | EmptyString =>
      match skip, match_at r EmptyString with
      | O, Some _ => [EmptyString]
      | _, _ => []
      end
  | String _ s' =>
      match skip with
      | S n => findall_from r n s'
      | O =>
          match match_at r s with
          | Some rest =>
              consumed s rest
                :: findall_from r (String.length s - String.length rest - 1) s'
          | None => findall_from r 0 s'
          end
      end
  end.

Definition re_findall (r : regex) (s : string) : list string :=
  findall_from r 0 s.

(** [re.sub(r, repl, s)] for a replacement without backslashes. *)
Fixpoint sub_from (r : regex) (repl : string) (skip : nat) (s : string)
    : string :=
  match s with
  | EmptyString =>
      match skip, match_at r EmptyString with
      | O, Some _ => repl
      | _, _ => EmptyString
      end
  | String c s' =>
      match skip with
      | S n => sub_from r repl n s'
      | O =>
          match match_at r s with
          | Some rest =>
              match (String.length s - String.length rest)%nat with
              | O => repl +:+ String c (sub_from r repl 0 s')
              | S n => repl +:+ sub_from r repl n s'
              end
          | None => String c (sub_from r repl 0 s')
          end
      end
  end.

Definition re_sub (r : regex) (repl s : string) : string :=
  sub_from r repl 0 s.

(** [s.replace(old, new)]: left to right, non-overlapping, which is
    [re.sub] with the literal pattern [old]. *)
Definition str_replace (old new s : string) : string :=
  re_sub (lit old) new s.

(** ** Marker extractor *)

(** [r"\{{2}.*\}{2}"] *)
Definition template_re : regex :=
  Seq (lit "{{") (Seq (Star not_newline) (lit "}}")).

(** [r"\{{2}\s*" + template_name + "\s*\|"], for a [template_name]
    whose characters are ordinary in a pattern (as those of
    "Archive recommendation", the only name the script passes). *)
Definition name_re (template_name : string) : regex :=
  Seq (lit "{{")
    (Seq (Star is_space)
       (Seq (lit template_name) (Seq (Star is_space) (Chr pipe)))).

(** [re.sub("\}{2}", "", ...)] *)
Definition close_re : regex := lit "}}".

Definition grab_template_info (template_name template : string) : string :=
  let front_prune := re_sub (name_re template_name) "" template in
  re_sub close_re "" front_prune.

Fixpoint grab_loop (template_name : string) (templates : list string)
    : list string :=
  match templates with
  | [] => []
  | template :: rest =>
      if re_search (name_re template_name) template
      then grab_template_info template_name template
             :: grab_loop template_name rest
      else grab_loop template_name rest
  end.

Definition grab_template_data (template_name text : string) : list string :=
  let templates := re_findall template_re text in
  grab_loop template_name templates.

Definition parse_template (template_name text : string) : list string :=
  let templates := re_findall template_re text in
  List.filter (fun template => re_search (name_re template_name) template)
    templates.

Definition flagged : string := "Archive recommendation".

(** ** Results and exceptions *)

Inductive exn : Type :=
| KeyError (key : string)
| IndexError
| TypeError
| NameError (name : string)
| JSONDecodeError
| ParserError
| ReError
| NoPageError
| ArticleExistsConflictError.

Inductive result (A : Type) : Type :=
| Ok (a : A)
| Raise (e : exn).
Arguments Ok {A} a.
Arguments Raise {A} e.

Definition rbind {A B : Type} (r : result A) (f : A -> result B) : result B :=
  match r with
  | Ok a => f a
  | Raise e => Raise e
  end.

(** ** Python values: what [json] decodes to and what the API returns *)

#[warnings="-register-all"]
Inductive pyval : Type :=
| PNone
| PBool (b : bool)
| PInt (n : Z)
| PFloat (literal : string)
| PStr (s : string)
| PList (l : list pyval)
| PDict (d : list (string * pyval)).

(** The value bound to [key] in a dict kept in insertion order; a later
    binding of the same key wins. *)
Fixpoint dict_get (key : string) (d : list (string * pyval)) : option pyval :=
  match d with
  | [] => None
  | (k, v) :: d' =>
      match dict_get key d' with
      | Some v' => Some v'
      | None => if String.eqb k key then Some v else None
      end
  end.

Fixpoint is_infix (needle s : string) : bool :=
  str_prefix needle s ||
  match s with
  | EmptyString => false
  | String _ s' => is_infix needle s'
  end.

(** [key in v] for a [str] key. *)
Definition py_in (key : string) (v : pyval) : result bool :=
  match v with
  | PDict d => Ok (bool_decide (is_Some (dict_get key d)))
  | PList l =>
      Ok (existsb (fun x => match x with
                            | PStr s => String.eqb s key
                            | _ => false
                            end) l)
  | PStr s => Ok (is_infix key s)
  | _ => Raise TypeError
  end.

(** [v[key]] for a [str] key. *)
Definition py_getitem (v : pyval) (key : string) : result pyval :=
  match v with
  | PDict d =>
      match dict_get key d with
      | Some x => Ok x
      | None => Raise (KeyError key)
      end
  | _ => Raise TypeError
  end.

(** [v[0]] *)
Definition py_first (v : pyval) : result pyval :=
  match v with
  | PList (x :: _) => Ok x
  | PList [] => Raise IndexError
  | PStr (String c _) => Ok (PStr (str1 c))
  | PStr EmptyString => Raise IndexError
  | PDict _ => Raise (KeyError "0")
  | _ => Raise TypeError
  end.

(** ** Dates *)

(** A [datetime]: microseconds since 0001-01-01T00:00:00 on its own
    clock, and the UTC offset, in seconds, when it carries a time
    zone. *)
Record datetime : Type := { instant : Z; tzinfo : option Z }.

Definition naive (t : Z) : datetime := {| instant := t; tzinfo := None |}.

Definition usec_per_day : Z := 86400000000.

(** [d - timedelta(days=n)] *)
Definition minus_days (d : datetime) (n : Z) : datetime :=
  {| instant := instant d - n * usec_per_day; tzinfo := tzinfo d |}.

(** [a < b]: comparing a naive with an aware datetime raises. *)
Definition dt_lt (a b : datetime) : result bool :=
  match tzinfo a, tzinfo b with
  | None, None => Ok (instant a <? instant b)
  | Some oa, Some ob =>
      Ok (instant a - oa * 1000000 <? instant b - ob * 1000000)
  | _, _ => Raise TypeError
  end.

(** The proleptic Gregorian date of day number [n], where day 1 is
    0001-01-01 ([date.fromordinal]). *)
Definition ord2ymd (n : Z) : Z * Z * Z :=
  let z := n - 1 + 306 in
  let era := z / 146097 in
  let doe := z - era * 146097 in
  let yoe := (doe - doe / 1460 + doe / 36524 - doe / 146096) / 365 in
  let doy := doe - (365 * yoe + yoe / 4 - yoe / 100) in
  let mp := (5 * doy + 2) / 153 in
  let d := doy - (153 * mp + 2) / 5 + 1 in
  let m := if mp <? 10 then mp + 3 else mp - 9 in
  let y := yoe + era * 400 + (if m <=? 2 then 1 else 0) in
  (y, m, d).

(** [date(y, m, d).toordinal()] *)
Definition ymd2ord (y m d : Z) : Z :=
  let y' := if m <=? 2 then y - 1 else y in
  let era := y' / 400 in
  let yoe := y' - era * 400 in
  let mp := if 2 <? m then m - 3 else m + 9 in
  let doy := (153 * mp + 2) / 5 + d - 1 in
  let doe := yoe * 365 + yoe / 4 - yoe / 100 + doy in
  era * 146097 + doe - 306 + 1.

Definition month_names : list string :=
  ["January"; "February"; "March"; "April"; "May"; "June"; "July";
   "August"; "September"; "October"; "November"; "December"].

Definition month_name (m : Z) : string :=
  nth (Z.to_nat (m - 1)) month_names "".

Definition digit_char (d : Z) : ascii := ascii_of_N (48 + Z.to_N d).

Fixpoint decimal_digits (fuel : nat) (n : Z) (acc : string) : string :=
  match fuel with
  | O => acc
  | S fuel' =>
      let acc' := String (digit_char (n mod 10)) acc in
      if n / 10 =? 0 then acc' else decimal_digits fuel' (n / 10) acc'
  end.

(** The decimal numeral of a natural number. *)
Definition decimal (n : Z) : string :=
  decimal_digits (S (Z.to_nat (Z.log2 n))) n EmptyString.

Definition two_digits (n : Z) : string :=
  String (digit_char (n / 10 mod 10)) (str1 (digit_char (n mod 10))).

(** ["{0:%B} {0:%d}, {0:%Y}".format(t)] in the C locale. *)
Definition format_date (t : datetime) : string :=
  let '(y, m, d) := ord2ymd (instant t / usec_per_day + 1) in
  month_name m +:+ " " +:+ two_digits d +:+ ", " +:+ decimal y.

(** ** [repr] of Python values *)

Definition hex_digit (n : N) : ascii :=
  nth (N.to_nat n) (list_ascii_of_string "0123456789abcdef") "0"%char.

(** A character [str.isprintable] rejects (code points below 256). *)
Definition unprintable (c : ascii) : bool :=
  let n := code c in
  ((n <? 32) || (127 <=? n) && (n <=? 160) || (n =? 173))%N.

Definition repr_char (quote c : ascii) : string :=
  if Ascii.eqb c quote || Ascii.eqb c backslash then String backslash (str1 c)
  else if Ascii.eqb c "009"%char then String backslash "t"
  else if Ascii.eqb c newline then String backslash "n"
  else if Ascii.eqb c "013"%char then String backslash "r"
  else if unprintable c then
    String backslash
      (String "x" (String (hex_digit (code c / 16))
                     (str1 (hex_digit (code c mod 16)))))
  else str1 c.

Fixpoint repr_chars (quote : ascii) (s : string) : string :=
  match s with
  | EmptyString => EmptyString
  | String c s' => repr_char quote c +:+ repr_chars quote s'
  end.

(** [repr(s)] of a [str]: single quotes, unless the text has a single
    quote and no double quote. *)
Definition py_repr_str (s : string) : string :=
  let quote := if str_mem squote s && negb (str_mem dquote s)
               then dquote else squote in
  String quote (repr_chars quote s +:+ str1 quote).

Definition py_repr_int (n : Z) : string :=
  if n <? 0 then "-" +:+ decimal (- n) else decimal n.

(** [repr(v)], which is also [str(v)] for a dict; [float_repr] prints a
    float from its literal. *)
Fixpoint py_repr (float_repr : string -> string) (v : pyval) : string :=
  match v with
  | PNone => "None"
  | PBool true => "True"
  | PBool false => "False"
  | PInt n => py_repr_int n
  | PFloat literal => float_repr literal
  | PStr s => py_repr_str s
  | PList l =>
      "[" +:+
      (fix items (l : list pyval) : string :=
         match l with
         | [] => ""
         | x :: l' =>
             py_repr float_repr x +:+
             match l' with
             | [] => ""
             | _ :: _ => ", " +:+ items l'
             end
         end) l +:+ "]"
  | PDict d =>
      "{" +:+
      (fix items (d : list (string * pyval)) : string :=
         match d with
         | [] => ""
         | (k, x) :: d' =>
             py_repr_str k +:+ ": " +:+ py_repr float_repr x +:+
             match d' with
             | [] => ""
             | _ :: _ => ", " +:+ items d'
             end
         end) d +:+ "}"
  end.

(** ** [json.loads] *)

Definition json_ws (c : ascii) : bool :=
  Ascii.eqb c " "%char || Ascii.eqb c "009"%char
  || Ascii.eqb c newline || Ascii.eqb c "013"%char.

Fixpoint skip_ws (s : string) : string :=
  match s with
  | EmptyString => EmptyString
  | String c s' => if json_ws c then skip_ws s' else s
  end.

Definition hex_val (c : ascii) : option N :=
  let n := code c in
  if ((48 <=? n) && (n <=? 57))%N then Some (n - 48)%N
  else if ((97 <=? n) && (n <=? 102))%N then Some (n - 87)%N
  else if ((65 <=? n) && (n <=? 70))%N then Some (n - 55)%N
  else None.

Definition hex4 (a b c d : ascii) : option N :=
  match hex_val a, hex_val b, hex_val c, hex_val d with
  | Some x, Some y, Some z, Some w => Some (((x * 16 + y) * 16 + z) * 16 + w)%N
  | _, _, _, _ => None
  end.

Definition unescape (e : ascii) : option ascii :=
  if Ascii.eqb e dquote then Some dquote
  else if Ascii.eqb e backslash then Some backslash
  else if Ascii.eqb e "/"%char then Some "/"%char
  else if Ascii.eqb e "b"%char then Some "008"%char
  else if Ascii.eqb e "f"%char then Some "012"%char
  else if Ascii.eqb e "n"%char then Some newline
  else if Ascii.eqb e "r"%char then Some "013"%char
  else if Ascii.eqb e "t"%char then Some "009"%char
  else None.

Definition cons_scanned (c : ascii) (r : option (string * string))
    : option (string * string) :=
  match r with
  | Some (body, rest) => Some (String c body, rest)
  | None => None
  end.

(** The body of a JSON string, from just after its opening quote: the
    decoded text and what follows the closing quote.  A [\u] escape
    that denotes a code point above 255 has no character here: where
    [json.loads] decodes it, this function gives no result, so on a
    record with such an escape [json_loads] differs from the library.
    The statements on the checkpoint are about records without
    backslash. *)
Fixpoint scan_string (s : string) : option (string * string) :=
  match s with
  | EmptyString => None
  | String c s' =>
      if Ascii.eqb c dquote then Some (EmptyString, s')
      else if Ascii.eqb c backslash then
        match s' with
        | EmptyString => None
        | String e s'' =>
            if Ascii.eqb e "u"%char then
              match s'' with
              | String h1 (String h2 (String h3 (String h4 t))) =>
                  match hex4 h1 h2 h3 h4 with
                  | Some n =>
                      if (n <? 256)%N
                      then cons_scanned (ascii_of_N n) (scan_string t)
                      else None
                  | None => None
                  end
              | _ => None
              end
            else
              match unescape e with
              | Some d => cons_scanned d (scan_string s'')
              | None => None
              end
        end
      else if (code c <? 32)%N then None
      else cons_scanned c (scan_string s')
  end.

Fixpoint take_digits (s : string) : string * string :=
  match s with
  | String c s' =>
      if is_digit c
      then let '(ds, rest) := take_digits s' in (String c ds, rest)
      else (EmptyString, s)
  | EmptyString => (EmptyString, EmptyString)
  end.

Fixpoint digits_value (ds : string) (acc : Z) : Z :=
  match ds with
  | EmptyString => acc
  | String c ds' => digits_value ds' (acc * 10 + Z.of_N (code c - 48))
  end.

(** The number at the start of [s], by the decoder's number pattern
    (optional minus, then 0 or a numeral without leading zero, an
    optional fraction, an optional exponent): an [int] without fraction
    and exponent, else a [float] kept as its literal. *)
Definition scan_number (s : string) : option (pyval * string) :=
  let '(sign, s1) :=
    match s with
    | String "-" t => ("-", t)
    | _ => (EmptyString, s)
    end in
  let '(ds, s2) := take_digits s1 in
  match ds with
  | EmptyString => None
  | String d ds' =>
      let '(int_part, s3) :=
        if Ascii.eqb d "0"%char then (str1 d, ds' +:+ s2) else (ds, s2) in
      let '(frac, s4) :=
        match s3 with
        | String "." t =>
            match take_digits t with
            | (EmptyString, _) => (EmptyString, s3)
            | (fs, rest) => ("." +:+ fs, rest)
            end
        | _ => (EmptyString, s3)
        end in
      let '(expo, s5) :=
        match s4 with
        | String e t =>
            if Ascii.eqb e "e"%char || Ascii.eqb e "E"%char then
              let '(esign, t') :=
                match t with
                | String "+" u => ("+", u)
                | String "-" u => ("-", u)
                | _ => (EmptyString, t)
                end in
              match take_digits t' with
              | (EmptyString, _) => (EmptyString, s4)
              | (es, rest) => (str1 e +:+ esign +:+ es, rest)
              end
            else (EmptyString, s4)
        | EmptyString => (EmptyString, s4)
        end in
      match frac, expo with
      | EmptyString, EmptyString =>
          let n := digits_value int_part 0 in
          Some (PInt (if String.eqb sign "-" then - n else n), s5)
      | _, _ => Some (PFloat (sign +:+ int_part +:+ frac +:+ expo), s5)
      end
  end.

Fixpoint str_drop (n : nat) (s : string) : string :=
  match n, s with
  | S n', String _ s' => str_drop n' s'
  | _, _ => s
  end.

Definition scan_keyword (kw : string) (v : pyval) (s : string)
    : option (pyval * string) :=
  if str_prefix kw s then Some (v, str_drop (String.length kw) s)
  else None.

(** One JSON value at the start of [s], as the decoder's [scan_once]:
    no white space is skipped before the value.  [scan_members] starts
    just after the opening quote of a key, [scan_elements] at an
    element.  The recursion is bounded by [fuel], which [json_loads]
    sets above the length of the text. *)
Fixpoint scan_value (fuel : nat) (s : string) : option (pyval * string) :=
  match fuel with
  | O => None
  | S fuel' =>
      match s with
      | EmptyString => None
      | String c s' =>
          if Ascii.eqb c dquote then
            match scan_string s' with
            | Some (body, rest) => Some (PStr body, rest)
            | None => None
            end
          else if Ascii.eqb c lbrace then
            match skip_ws s' with
            | EmptyString => None
            | String q rest =>
                if Ascii.eqb q rbrace then Some (PDict [], rest)
                else if Ascii.eqb q dquote then
                  match scan_members fuel' rest with
                  | Some (d, rest') => Some (PDict d, rest')
                  | None => None
                  end
                else None
            end
          else if Ascii.eqb c "["%char then
            match skip_ws s' with
            | String "]" rest => Some (PList [], rest)
            | t =>
                match scan_elements fuel' t with
                | Some (l, rest') => Some (PList l, rest')
                | None => None
                end
            end
          else if str_prefix "null" s then scan_keyword "null" PNone s
          else if str_prefix "true" s
          then scan_keyword "true" (PBool true) s
          else if str_prefix "false" s
          then scan_keyword "false" (PBool false) s
          else
            match scan_number s with
            | Some r => Some r
            | None =>
                if str_prefix "NaN" s
                then scan_keyword "NaN" (PFloat "nan") s
                else if str_prefix "Infinity" s
                then scan_keyword "Infinity" (PFloat "inf") s
                else scan_keyword "-Infinity" (PFloat "-inf") s
            end
      end
  end
with scan_members (fuel : nat) (s : string)
    : option (list (string * pyval) * string) :=
  match fuel with
  | O => None
  | S fuel' =>
      match scan_string s with
      | None => None
      | Some (key, s1) =>
          match skip_ws s1 with
          | String ":" s2 =>
              match scan_value fuel' (skip_ws s2) with
              | None => None
              | Some (v, s3) =>
                  match skip_ws s3 with
                  | String "}" rest => Some ([(key, v)], rest)
                  | String "," s4 =>
                      match skip_ws s4 with
                      | String q s5 =>
                          if Ascii.eqb q dquote then
                            match scan_members fuel' s5 with
                            | Some (d, rest) => Some ((key, v) :: d, rest)
                            | None => None
                            end
                          else None
                      | EmptyString => None
                      end
                  | _ => None
                  end
              end
          | _ => None
          end
      end
  end
with scan_elements (fuel : nat) (s : string)
    : option (list pyval * string) :=
  match fuel with
  | O => None
  | S fuel' =>
      match scan_value fuel' s with
      | None => None
      | Some (v, s1) =>
          match skip_ws s1 with
          | String "]" rest => Some ([v], rest)
          | String "," s2 =>
              match scan_elements fuel' (skip_ws s2) with
              | Some (l, rest) => Some (v :: l, rest)
              | None => None
              end
          | _ => None
          end
      end
  end.

(** [json.loads(s)]: one value between optional white space, and
    nothing after it. *)
Definition json_loads (s : string) : result pyval :=
  match scan_value (S (String.length s)) (skip_ws s) with
  | Some (v, rest) =>
      match skip_ws rest with
      | EmptyString => Ok v
      | String _ _ => Raise JSONDecodeError
      end
  | None => Raise JSONDecodeError
  end.

(** ** The environment of a run

    What the script takes from outside: the date parser of [dateutil],
    the clock, [re.sub] on patterns outside the modelled fragment, the
    printing and truth value of floats, the site configuration of
    [pywikibot] and the wiki's answers to API queries (a function of
    the request and of the pages stored at that moment).  [now] is
    the reading of [datetime.now()], in microseconds; the script reads
    the clock several times while it works on a page and the model
    takes them to agree. *)

Record env : Type := {
  parser_parse : string -> result datetime;
  now : Z;
  re_sub_other : string -> string -> string -> result string;
  float_repr : string -> string;
  float_nonzero : string -> bool;
  site_protocol : string;
  site_hostname : string;
  site_apipath : string;
  title_without_ns : string -> string;
  namespace_name : string -> string;
  session_get :
    string -> list (string * pyval) -> gmap string string -> pyval
}.

(** What a run leaves behind besides the pages: its printed lines, the
    API requests it sent, the pages it saved and moved. *)
Inductive event : Type :=
| Printed (msg : string)
| PrintedVal (header : string) (v : pyval)
| Requested (url : string) (params : list (string * pyval))
| Saved (title text : string)
| Moved (title new_title reason : string).

Record world : Type := {
  pages : gmap string string;
  output : list event
}.

(** A computation on the wiki: it may raise, and keeps the effects it
    had until then. *)
Definition M (A : Type) : Type := world -> result A * world.

Definition ret {A : Type} (a : A) : M A := fun w => (Ok a, w).

Definition bind {A B : Type} (m : M A) (f : A -> M B) : M B :=
  fun w =>
    match m w with
    | (Ok a, w') => f a w'
    | (Raise e, w') => (Raise e, w')
    end.

Definition lift {A : Type} (r : result A) : M A := fun w => (r, w).

Declare Scope wiki_scope.
Delimit Scope wiki_scope with wiki.
Notation "x <- m ;; k" := (bind m (fun x => k))
  (at level 100, m at next level, right associativity) : wiki_scope.
Notation "m ;;; k" := (bind m (fun _ => k))
  (at level 100, right associativity) : wiki_scope.
Local Open Scope wiki_scope.

Definition emit (e : event) : M unit :=
  fun w => (Ok tt, {| pages := pages w; output := output w ++ [e] |}).

Definition print (msg : string) : M unit := emit (Printed msg).

Definition print_val (header : string) (v : pyval) : M unit :=
  emit (PrintedVal header v).

Fixpoint for_each {A : Type} (l : list A) (body : A -> M unit) : M unit :=
  match l with
  | [] => ret tt
  | x :: l' => body x ;;; for_each l' body
  end.

(** *** The wiki client *)

(** [page.exists()] *)
Definition page_exists (title : string) : M bool :=
  fun w => (Ok (bool_decide (is_Some (pages w !! title))), w).

(** [page.get()] *)
Definition page_get (title : string) : M string :=
  fun w =>
    match pages w !! title with
    | Some text => (Ok text, w)
    | None => (Raise NoPageError, w)
    end.

(** [page.text] of a page whose text was not assigned yet: the stored
    text, or the empty string when the page does not exist. *)
Definition page_text (title : string) : M string :=
  fun w => (Ok (default EmptyString (pages w !! title)), w).

(** [page.text = text; page.save()] *)
Definition page_save (title text : string) : M unit :=
  fun w =>
    (Ok tt, {| pages := <[title := text]> (pages w);
               output := output w ++ [Saved title text] |}).

(** [page.move(new_title, reason)]: refused when the page is missing or
    the destination exists; otherwise the text moves and a redirect
    stays behind.  This is the move of the page itself.  As the script
    calls it, pywikibot also asks the wiki to move the talk page and
    the subpages along ([movetalk] and [movesubpages] are left at
    their defaults); those pages are not part of this model, which
    therefore says nothing about pages other than the one moved and
    its destination. *)
Definition page_move (title new_title reason : string) : M unit :=
  fun w =>
    match pages w !! title, pages w !! new_title with
    | None, _ => (Raise NoPageError, w)
    | Some _, Some _ => (Raise ArticleExistsConflictError, w)
    | Some text, None =>
        (Ok tt,
         {| pages := <[new_title := text]>
                       (<[title := "#REDIRECT [[" +:+ new_title +:+ "]]"]>
                          (pages w));
            output := output w ++ [Moved title new_title reason] |})
    end.

(** [session.get(url=url, params=params, verify=False).json()] *)
Definition request (E : env) (url : string) (params : list (string * pyval))
    : M pyval :=
  emit (Requested url params) ;;;
  fun w => (Ok (session_get E url params (pages w)), w).

(** The truth value of a Python value. *)
Definition truthy (E : env) (v : pyval) : bool :=
  match v with
  | PNone => false
  | PBool b => b
  | PInt n => negb (n =? 0)
  | PFloat literal => float_nonzero E literal
  | PStr s => negb (String.eqb s EmptyString)
  | PList l => match l with [] => false | _ :: _ => true end
  | PDict d => match d with [] => false | _ :: _ => true end
  end.

(** [str(v)] *)
Definition py_str (E : env) (v : pyval) : string :=
  match v with
  | PStr s => s
  | _ => py_repr (float_repr E) v
  end.

(** The items a [for] loop draws from [v]. *)
Definition py_iter (v : pyval) : result (list pyval) :=
  match v with
  | PList l => Ok l
  | PDict d => Ok (map (fun kv => PStr (fst kv)) d)
  | PStr s => Ok (map (fun c => PStr (str1 c)) (list_ascii_of_string s))
  | _ => Raise TypeError
  end.

(** A value used where the script needs a [str]. *)
Definition as_str (v : pyval) : result string :=
  match v with
  | PStr s => Ok s
  | _ => Raise TypeError
  end.

(** *** Patterns built from page text

    [re.compile] on the fragment [update_template] normally meets: a
    character that is not special stands for itself, [\|] is a pipe,
    [.] is any character but the line feed, and an opening brace is
    literal when no digit or comma follows it.  Any other pattern is
    left to [re_sub_other]. *)

Definition special : string := ".^$*+?[|()".

Fixpoint re_compile (p : string) : option regex :=
  match p with
  | EmptyString => Some Eps
  | String c p' =>
      if Ascii.eqb c backslash then
        match p' with
        | String "|" p'' => option_map (Seq (Chr pipe)) (re_compile p'')
        | _ => None
        end
      else if Ascii.eqb c "."%char
      then option_map (Seq (Cls not_newline)) (re_compile p')
      else if Ascii.eqb c lbrace then
        match p' with
        | String d _ =>
            if is_digit d || Ascii.eqb d ","%char then None
            else option_map (Seq (Chr c)) (re_compile p')
        | EmptyString => Some (Seq (Chr c) Eps)
        end
      else if str_mem c special then None
      else option_map (Seq (Chr c)) (re_compile p')
  end.

(** [re.sub(pattern, repl, s)] for a pattern given as text. *)
Definition re_sub_text (E : env) (pattern repl s : string) : result string :=
  match re_compile pattern with
  | Some r => Ok (re_sub r repl s)
  | None => re_sub_other E pattern repl s
  end.

(** ** The script *)

Definition REV_PAGE : string := "Powerpedia:ARCHIVE_BOT".
Definition PAGES_LIMIT : Z := 20.

Definition get_api_url (E : env) : string :=
  site_protocol E +:+ "://" +:+ site_hostname E +:+ site_apipath E.

Definition check_last_page (E : env) : M pyval :=
  present <- page_exists REV_PAGE ;;
  if negb present then
    print ("Revision page " +:+ str1 dquote +:+ REV_PAGE +:+ str1 dquote
           +:+ " not found...  Adding") ;;;
    page_save REV_PAGE "" ;;;
    ret (PStr "")
  else
    text <- page_get REV_PAGE ;;
    if String.eqb text "" then
      print ("No valid revision on this page found" +:+ str1 newline) ;;;
      ret (PStr "")
    else
      text' <- page_get REV_PAGE ;;
      let page_text := str_replace (str1 squote) (str1 dquote) text' in
      page_contents <- lift (json_loads page_text) ;;
      title <- lift (py_getitem page_contents "title") ;;
      if truthy E title then ret title
      else
        print ("No valid revision page found" +:+ str1 newline) ;;;
        ret (PStr "").

Definition get_params (continue_from : pyval) : list (string * pyval) :=
  [("action", PStr "query");
   ("cmtitle", PStr "Category:Articles flagged to be archived");
   ("list", PStr "categorymembers");
   ("format", PStr "json");
   ("cmcontinue", continue_from);
   ("cmlimit", PInt PAGES_LIMIT)].

(** The [params] dictionary of [get_revisions]. *)
Definition revision_params (page_title : string) : list (string * pyval) :=
  [("action", PStr "query");
   ("prop", PStr "revisions");
   ("titles", PStr page_title);
   ("rvprop", PStr "timestamp|user");
   ("rvslots", PStr "main");
   ("formatversion", PStr "2");
   ("format", PStr "json")].

Definition get_revisions (E : env) (page_title : string) : M pyval :=
  let params := revision_params page_title in
  data <- request E (get_api_url E) params ;;
  has_query <- lift (py_in "query" data) ;;
  has_pages <-
    (if has_query
     then lift (rbind (py_getitem data "query") (py_in "pages"))
     else ret false) ;;
  if negb has_pages then
    print "No valid page found..." ;;;
    ret (PStr "")
  else
    page <- lift (rbind (rbind (py_getitem data "query")
                           (fun q => py_getitem q "pages")) py_first) ;;
    missing <- lift (py_in "missing" page) ;;
    has_revisions <-
      (if missing then ret false else lift (py_in "revisions" page)) ;;
    if negb has_revisions then
      print ("No revision information found for page " +:+ page_title
             +:+ str1 newline) ;;;
      ret (PStr "")
    else
      rev_info <- lift (rbind (py_getitem page "revisions") py_first) ;;
      user <- lift (py_getitem rev_info "user") ;;
      time <- lift (py_getitem rev_info "timestamp") ;;
      ret (PDict [("user", user); ("time", time); ("title", PStr page_title)]).

(** [page.text = rev] stores [str(rev)]. *)
Definition update_last_page (E : env) (current_page : string) : M unit :=
  rev <- get_revisions E current_page ;;
  page_save REV_PAGE (py_str E rev).

Definition parse_date (E : env) (date_string : string) : result datetime :=
  let date := py_strip "date=" date_string in
  parser_parse E date.

Fixpoint old_page_loop (E : env) (dates : list string) : result bool :=
  match dates with
  | [] => Ok false
  | date :: rest =>
      rbind (parse_date E date) (fun date =>
      rbind (dt_lt date (minus_days (naive (now E)) 30)) (fun older =>
      if older then Ok true else old_page_loop E rest))
  end.

(** [old_page(page)], as a function of [page.text], the only thing it
    reads of the page. *)
Definition old_page (E : env) (text : string) : result bool :=
  let dates := grab_template_data flagged text in
  match dates with
  | [] => Ok false
  | _ :: _ => old_page_loop E dates
  end.

(** The replacement [update_template] builds; it holds no backslash,
    so [re.sub] inserts it as it is. *)
Definition archived_marker (E : env) : string :=
  "{{Archived|date=" +:+ format_date (naive (now E)) +:+ "}}".

Fixpoint update_template_loop (E : env) (templates : list string)
    (new_text : string) : result string :=
  match templates with
  | [] => Ok new_text
  | template :: rest =>
      let template' := str_replace "|" (String backslash "|") template in
      rbind (re_sub_text E template' (archived_marker E) new_text)
        (update_template_loop E rest)
  end.

(** [update_template(page)]: from [page.text] to the text it assigns
    to [page.text]. *)
Definition update_template (E : env) (text : string) : M string :=
  print "Updating page's template..." ;;;
  let templates := parse_template flagged text in
  lift (update_template_loop E templates text).

(** [update_category(page, old_cat, new_cat)], for the page [title]
    whose [page.text] is [text]. *)
Definition update_category (title text old_cat new_cat : string) : M unit :=
  print "Changing category..." ;;;
  page_save title (str_replace old_cat new_cat text).

(** [move_namespace(page, namespace)].  The [except] clause names
    [ArticleExistsConflictError], which the module never imports:
    when the body raises, looking the name up raises [NameError]
    before the handler can run. *)
Definition move_namespace (E : env) (title namespace : string) : M unit :=
  fun w =>
    let body :=
      print "Moving namespace..." ;;;
      let pagetitle := title_without_ns E title in
      let old_namesp := namespace_name E title in
      let new_page_title := namespace +:+ ":" +:+ pagetitle in
      page_move title new_page_title
        ("Move namespace from " +:+ old_namesp +:+ " to " +:+ namespace) in
    match body w with
    | (Ok u, w') => (Ok u, w')
    | (Raise _, w') => (Raise (NameError "ArticleExistsConflictError"), w')
    end.

Definition update_page (E : env) (page_dict : pyval) : M unit :=
  title <- lift (rbind (py_getitem page_dict "title") as_str) ;;
  text <- page_text title ;;
  old <- lift (old_page E text) ;;
  if old then
    text' <- update_template E text ;;
    update_category title text'
      "Articles flagged to be archived" "Articles Archived" ;;;
    move_namespace E title "Archive"
  else
    print ("Page " +:+ title +:+ " does not need to be archived...").

(** The body of the loop of [modify_pages]. *)
Definition per_page (E : env) (page : pyval) : M unit :=
  print_val "WORKING ON PAGE " page ;;;
  update_page E page.

Definition modify_pages (E : env) (url : string) (last_title : pyval)
    : M unit :=
  pages_json <- request E url (get_params last_title) ;;
  has_query <- lift (py_in "query" pages_json) ;;
  (if negb has_query
   then print_val "************INVALID JSON OBJECT************" pages_json
   else ret tt) ;;;
  query <- lift (py_getitem pages_json "query") ;;
  has_members <- lift (py_in "categorymembers" query) ;;
  (if negb has_members
   then print_val "************NO MEMBER FOUND IN CATEGORY************" query
   else ret tt) ;;;
  members <- lift (rbind (py_getitem query "categorymembers") py_iter) ;;
  for_each members (per_page E).

Definition main (E : env) : M unit :=
  let url := get_api_url E in
  last_title <- check_last_page E ;;
  (if truthy E last_title
   then print "last page found"
   else print "No last page found") ;;;
  modify_pages E url last_title ;;;
  print (str1 newline +:+ "No pages left to be tagged").

(** ** A small wiki to run the script on

    One instance of [env], for evaluating the script on concrete
    pages: a date reader for the one format the marker documents
    ("Month D, YYYY"), a server that lists a fixed category twenty or
    fewer members at a time and reports a continuation while members
    remain, and one revision per existing page. *)

Module Demo.

Fixpoint month_of (s : string) (names : list string) (m : Z)
    : option (Z * string) :=
  match names with
  | [] => None
  | name :: names' =>
      if str_prefix (name +:+ " ") s
      then Some (m, str_drop (S (String.length name)) s)
      else month_of s names' (m + 1)
  end.

Definition parse_mdy (s : string) : result datetime :=
  match month_of s month_names 1 with
  | None => Raise ParserError
  | Some (m, s1) =>
      match take_digits s1 with
      | (String d1 ds, String "," (String " " s2)) =>
          match take_digits s2 with
          | (String y1 ys, EmptyString) =>
              let d := digits_value (String d1 ds) 0 in
              let y := digits_value (String y1 ys) 0 in
              if (1 <=? d) && (d <=? 31) && (1 <=? y) && (y <=? 9999)
              then Ok (naive ((ymd2ord y m d - 1) * usec_per_day))
              else Raise ParserError
          | _ => Raise ParserError
          end
      | _ => Raise ParserError
      end
  end.

(** Noon of the given day. *)
Definition noon (y m d : Z) : Z :=
  (ymd2ord y m d - 1) * usec_per_day + usec_per_day / 2.

Definition member (title : string) : pyval :=
  PDict [("pageid", PInt 0); ("ns", PInt 0); ("title", PStr title)].

Fixpoint from_cursor (cursor : string) (l : list string) : list string :=
  match l with
  | [] => []
  | t :: l' => if String.eqb t cursor then l else from_cursor cursor l'
  end.

Definition list_members (members : list string) (cursor : pyval) (limit : Z)
    : pyval :=
  let start :=
    match cursor with
    | PStr (String c s) => from_cursor (String c s) members
    | _ => members
    end in
  let batch := take (Z.to_nat limit) start in
  let cont :=
    match drop (Z.to_nat limit) start with
    | [] => []
    | next :: _ => [("continue", PDict [("cmcontinue", PStr next)])]
    end in
  PDict (cont ++
         [("query", PDict [("categorymembers", PList (map member batch))])]).

Definition latest_revision (title : string) (store : gmap string string)
    : pyval :=
  let page :=
    match store !! title with
    | Some _ =>
        PDict [("title", PStr title);
               ("revisions",
                PList [PDict [("user", PStr "Admin");
                               ("timestamp", PStr "2023-03-01T10:00:00Z")]])]
    | None => PDict [("title", PStr title); ("missing", PBool true)]
    end in
  PDict [("query", PDict [("pages", PList [page])])].

Definition server (members : list string) (url : string)
    (params : list (string * pyval)) (store : gmap string string) : pyval :=
  match dict_get "list" params, dict_get "prop" params with
  | Some (PStr "categorymembers"), _ =>
      list_members members
        (default PNone (dict_get "cmcontinue" params))
        (match dict_get "cmlimit" params with
         | Some (PInt n) => n
         | _ => 10
         end)
  | _, Some (PStr "revisions") =>
      match dict_get "titles" params with
      | Some (PStr title) => latest_revision title store
      | _ => PDict []
      end
  | _, _ => PDict []
  end.

Fixpoint split_colon (s : string) : option (string * string) :=
  match s with
  | EmptyString => None
  | String c s' =>
      if Ascii.eqb c ":"%char then Some (EmptyString, s')
      else
        match split_colon s' with
        | Some (ns, t) => Some (String c ns, t)
        | None => None
        end
  end.

(** The wiki whose flagged category lists [members], on a day whose
    noon is the clock reading [today]. *)
Definition wiki (members : list string) (today : Z) : env :=
  {| parser_parse := parse_mdy;
     now := today;
     re_sub_other := fun _ _ _ => Raise ReError;
     float_repr := fun literal => literal;
     float_nonzero := fun _ => true;
     site_protocol := "https";
     site_hostname := "wiki.example.org";
     site_apipath := "/w/api.php";
     title_without_ns :=
       fun t => match split_colon t with Some (_, b) => b | None => t end;
     namespace_name :=
       fun t => match split_colon t with Some (ns, _) => ns | None => "" end;
     session_get := server members |}.

Definition nl : string := str1 newline.

Definition world_of (l : list (string * string)) : world :=
  {| pages := list_to_map l; output := [] |}.

End Demo.

(** ** Vocabulary of the statements *)

Definition open_free (s : string) : bool := negb (str_mem lbrace s).
Definition close_free (s : string) : bool := negb (str_mem rbrace s).
Definition one_line (s : string) : bool := negb (str_mem newline s).

(** White space that stays on the line. *)
Definition inline_space (s : string) : bool :=
  str_forallb (fun c => is_space c && not_newline c) s.

Definition name_char (c : ascii) : bool :=
  let n := code c in
  ((48 <=? n) && (n <=? 57) || (65 <=? n) && (n <=? 90)
   || (97 <=? n) && (n <=? 122) || (n =? 32))%N.

(** A template name made of letters, digits and blanks that starts
    with a letter or digit: every character is ordinary in a pattern. *)
Definition ordinary_name (name : string) : bool :=
  match name with
  | EmptyString => false
  | String c _ => negb (is_space c) && str_forallb name_char name
  end.

(** [s] without the white space it starts with. *)
Fixpoint skip_space (s : string) : string :=
  match s with
  | EmptyString => EmptyString
  | String c s' => if is_space c then skip_space s' else s
  end.

(** What follows [p] at the start of [s]. *)
Fixpoint after_prefix (p s : string) : option string :=
  match p, s with
  | EmptyString, _ => Some s
  | String a p', String b s' =>
      if Ascii.eqb a b then after_prefix p' s' else None
  | String _ _, EmptyString => None
  end.

(** [body] is written as the inside of an invocation of [name]:
    white space, the name, white space, a pipe. *)
Definition invocation_form (name body : string) : bool :=
  match after_prefix name (skip_space body) with
  | Some rest => str_prefix "|" (skip_space rest)
  | None => false
  end.

(** An invocation of [name] opens at the start of [s]. *)
Definition opens (name s : string) : bool :=
  match after_prefix "{{" s with
  | Some body => invocation_form name body
  | None => false
  end.

(** Whether some line of [s] holds the opening of an invocation of
    [name] with a closing double brace after it; [opened] tells that
    the line read so far already holds the opening. *)
Fixpoint marker_pair (name : string) (opened : bool) (s : string) : bool :=
  match s with
  | EmptyString => false
  | String c s' =>
      if Ascii.eqb c newline then marker_pair name false s'
      else (opened && str_prefix "}}" s)
           || marker_pair name (opened || opens name s) s'
  end.

Definition has_closed_marker (name text : string) : bool :=
  marker_pair name false text.

(** A brace-delimited construct of a page: an invocation of the
    template looked for, or another construct. *)
Inductive construct : Type :=
| Marker (lead trail args : string)
| Other (body : string).

Definition invocation (name lead trail args : string) : string :=
  "{{" +:+ lead +:+ name +:+ trail +:+ "|" +:+ args +:+ "}}".

Definition construct_text (name : string) (c : construct) : string :=
  match c with
  | Marker lead trail args => invocation name lead trail args
  | Other body => "{{" +:+ body +:+ "}}"
  end.

Definition construct_ok (name : string) (c : construct) : bool :=
  match c with
  | Marker lead trail args =>
      inline_space lead && inline_space trail
      && open_free args && close_free args && one_line args
  | Other body =>
      close_free body && one_line body
      && negb (re_search (name_re name) ("{{" +:+ body +:+ "}}"))
  end.

(** The constructs of a page, each with the text that follows it up
    to the next construct or the end of the page. *)
Fixpoint page_items (name : string) (items : list (construct * string))
    : string :=
  match items with
  | [] => ""
  | (c, after) :: items' =>
      construct_text name c +:+ after +:+ page_items name items'
  end.

(** The page that starts with [before] and goes on with [items]. *)
Definition page_of (name before : string)
    (items : list (construct * string)) : string :=
  before +:+ page_items name items.

(** Every construct is well formed, the text after it has no brace,
    and a line feed stands between two constructs. *)
Fixpoint items_ok (name : string) (items : list (construct * string))
    : bool :=
  match items with
  | [] => true
  | (c, after) :: items' =>
      construct_ok name c && open_free after && close_free after
      && match items' with [] => true | _ :: _ => negb (one_line after) end
      && items_ok name items'
  end.

(** A construct written plainly: an invocation with white space of
    the line around the name and arguments without brace or line
    feed, or another construct that holds no brace and no line feed
    and is not written as an invocation of [name]. *)
Definition plain (name : string) (c : construct) : bool :=
  match c with
  | Marker lead trail args =>
      inline_space lead && inline_space trail
      && open_free args && close_free args && one_line args
  | Other body =>
      open_free body && close_free body && one_line body
      && negb (invocation_form name body)
  end.

(** Every construct is plain, the text after it has no brace, and a
    line feed stands between two constructs. *)
Fixpoint one_per_line (name : string) (items : list (construct * string))
    : bool :=
  match items with
  | [] => true
  | (c, after) :: items' =>
      plain name c && open_free after && close_free after
      && match items' with [] => true | _ :: _ => negb (one_line after) end
      && one_per_line name items'
  end.

Fixpoint fragments (items : list (construct * string)) : list string :=
  match items with
  | [] => []
  | (Marker _ _ args, _) :: items' => args :: fragments items'
  | (Other _, _) :: items' => fragments items'
  end.

(** A character of a marker that, once the pipes are escaped, is read
    by [re] as itself or, for the dot, as a class that holds it. *)
Definition pattern_safe (c : ascii) : bool :=
  negb (str_mem c "^$*+?[()\{").

Definition atom (c : ascii) : regex :=
  if Ascii.eqb c "."%char then Cls not_newline else Chr c.

(** The pattern [re] reads in a text of safe characters, followed by
    [r]. *)
Fixpoint pat (s : string) (r : regex) : regex :=
  match s with
  | EmptyString => r
  | String c s' => Seq (atom c) (pat s' r)
  end.

(** A marker whose arguments are safe in a pattern, or another
    construct that holds no brace. *)
Definition rewritable (item : construct * string) : bool :=
  match item.1 with
  | Marker _ _ args => str_forallb pattern_safe args
  | Other body => open_free body
  end.

(** The pattern character [c] matches the character [d]. *)
Definition atom_reads (c d : ascii) : bool :=
  if Ascii.eqb c "."%char then not_newline d else Ascii.eqb c d.

(** The pattern [re] reads in the safe text [s] matches the whole of
    [t]. *)
Fixpoint pat_reads (s t : string) : bool :=
  match s, t with
  | EmptyString, EmptyString => true
  | String c s', String d t' => atom_reads c d && pat_reads s' t'
  | _, _ => false
  end.

(** What stands between the braces of an invocation. *)
Definition inside (name lead trail args : string) : string :=
  lead +:+ name +:+ trail +:+ "|" +:+ args.

(** The characters [format_date] writes. *)
Definition date_char (c : ascii) : bool :=
  name_char c || Ascii.eqb c ","%char.

(** A character that, after an opening brace, would start a repeat
    count in a pattern. *)
Definition count_start (c : ascii) : bool :=
  is_digit c || Ascii.eqb c ","%char.

(** [v] is empty or starts with a character outside the class. *)
Definition stops (f : ascii -> bool) (v : string) : bool :=
  match v with
  | EmptyString => true
  | String c _ => negb (f c)
  end.

(** The fragment's date is read as a datetime without time zone. *)
Definition dated (E : env) (fragment : string) : bool :=
  match parse_date E fragment with
  | Ok d => match tzinfo d with None => true | Some _ => false end
  | Raise _ => false
  end.

(** The fragment's date is strictly earlier than thirty days before
    the clock reading. *)
Definition old_enough (E : env) (fragment : string) : bool :=
  match parse_date E fragment with
  | Ok d => instant d <? now E - 30 * usec_per_day
  | Raise _ => false
  end.

(** The fragment's date is read as a datetime without time zone and
    is not that old. *)
Definition recent (E : env) (fragment : string) : bool :=
  dated E fragment && negb (old_enough E fragment).

(** A character that [strip('date=')] removes from the ends of a
    fragment. *)
Definition date_label_char (c : ascii) : bool := str_mem c "date=".

(** A date text that neither starts nor ends with a character that
    [strip('date=')] removes. *)
Definition clean_date (d : string) : bool :=
  stops date_label_char d && stops date_label_char (str_rev d).

(** The argument text of a marker that gives the date [d]. *)
Definition date_arg (d : string) : string := "date=" +:+ d.

(** The parser reads the text [d] as a datetime without time zone
    that is strictly earlier than thirty days before the clock
    reading. *)
Definition reads_old (E : env) (d : string) : bool :=
  match parser_parse E d with
  | Ok t =>
      match tzinfo t with
      | None => instant t <? now E - 30 * usec_per_day
      | Some _ => false
      end
  | Raise _ => false
  end.

(** The parser reads the text [d] as a datetime without time zone
    that is not that old. *)
Definition reads_recent (E : env) (d : string) : bool :=
  match parser_parse E d with
  | Ok t =>
      match tzinfo t with
      | None => negb (instant t <? now E - 30 * usec_per_day)
      | Some _ => false
      end
  | Raise _ => false
  end.

(** The API requests among the events of a run, in order. *)
Definition requests_of (out : list event)
    : list (string * list (string * pyval)) :=
  flat_map (fun e => match e with
                     | Requested url params => [(url, params)]
                     | _ => []
                     end) out.

(** The category members handed to the per-page step, in order. *)
Definition worked_on (out : list event) : list pyval :=
  flat_map (fun e => match e with
                     | PrintedVal header v =>
                         if String.eqb header "WORKING ON PAGE "
                         then [v] else []
                     | _ => []
                     end) out.

(** The world once [e] is recorded. *)
Definition logged (w : world) (e : event) : world :=
  {| pages := pages w; output := output w ++ [e] |}.

(** [page] is a category member with the given title. *)
Definition titled (title : string) (page : pyval) : bool :=
  match py_getitem page "title" with
  | Ok (PStr t) => String.eqb t title
  | _ => false
  end.

(** The members of the category listing [response], when it has the
    expected shape. *)
Definition members_of (response : pyval) : result (list pyval) :=
  rbind (rbind (py_getitem response "query")
           (fun q => py_getitem q "categorymembers")) py_iter.

(** The listing names the page [title]. *)
Definition lists (response : pyval) (title : string) : bool :=
  match members_of response with
  | Ok members => existsb (titled title) members
  | Raise _ => false
  end.

(** The checkpoint record [get_revisions] builds. *)
Definition checkpoint (user time : pyval) (title : string) : pyval :=
  PDict [("user", user); ("time", time); ("title", PStr title)].

(** A character that [repr] writes as itself between single quotes
    and that a JSON string holds as itself. *)
Definition plain_char (c : ascii) : bool :=
  negb (Ascii.eqb c squote || Ascii.eqb c dquote || Ascii.eqb c backslash)
  && negb (unprintable c).

(** The text of a checkpoint record with string fields, once its
    single quotes are double quotes. *)
Definition record_json (user time title : string) : string :=
  let q := str1 dquote in
  "{" +:+ q +:+ "user" +:+ q +:+ ": " +:+ q +:+ user +:+ q +:+ ", "
  +:+ q +:+ "time" +:+ q +:+ ": " +:+ q +:+ time +:+ q +:+ ", "
  +:+ q +:+ "title" +:+ q +:+ ": " +:+ q +:+ title +:+ q +:+ "}".

(** The language of a pattern. *)
Inductive matches : regex -> string -> Prop :=
| matches_eps : matches Eps ""
| matches_chr c : matches (Chr c) (str1 c)
| matches_cls f c : f c = true -> matches (Cls f) (str1 c)
| matches_star f s : str_forallb f s = true -> matches (Star f) s
| matches_seq r1 r2 s1 s2 :
    matches r1 s1 -> matches r2 s2 -> matches (Seq r1 r2) (s1 +:+ s2).

(** A pattern that starts with an opening brace finds nothing in a
    text without one. *)
Definition starts_open (r : regex) : Prop :=
  forall (c : ascii) (s : string),
    Ascii.eqb lbrace c = false -> match_at r (String c s) = None.

(** The pattern [update_template] makes of a marker whose inside
    [mid] is safe. *)
Definition marker_re (mid : string) : regex :=
  Seq (Chr lbrace) (Seq (Chr lbrace) (pat (mid +:+ "}}") Eps)).

(** What stands between the braces of the marker [update_template]
    writes. *)
Definition archived_body (E : env) : string :=
  "Archived|date=" +:+ format_date (naive (now E)).

(** The item once its marker is rewritten. *)
Definition archive (E : env) (item : construct * string)
    : construct * string :=
  match item.1 with
  | Marker _ _ _ => (Other (archived_body E), item.2)
  | Other _ => item
  end.

(** What stands between the braces of a construct. *)
Definition construct_body (name : string) (c : construct) : string :=
  match c with
  | Marker lead trail args => inside name lead trail args
  | Other body => body
  end.

(** The item once the pattern made of a marker with the inside [mid]
    is applied. *)
Definition swap (E : env) (mid : string) (item : construct * string)
    : construct * string :=
  match item.1 with
  | Marker lead trail args =>
      if pat_reads mid (inside flagged lead trail args)
      then (Other (archived_body E), item.2) else item
  | Other _ => item
  end.

(** [m] relates by [I] the world it starts in to the world it ends
    in, whether it returns or raises. *)
Definition keeps (I : world -> world -> Prop) {A : Type} (m : M A) : Prop :=
  forall w, I w (m w).2.

(** Two worlds whose logs read the same through [proj]. *)
Definition same_log {X : Type} (proj : list event -> list X)
    (w w' : world) : Prop :=
  proj (output w') = proj (output w).

(** Two worlds with the same checkpoint page. *)
Definition same_checkpoint (w w' : world) : Prop :=
  pages w' !! REV_PAGE = pages w !! REV_PAGE.

(** ** Vocabulary of the further properties *)

(** The titles of the members of the category listing [response]. *)
Definition member_titles (response : pyval) : list string :=
  match members_of response with
  | Ok members =>
      flat_map (fun page => match py_getitem page "title" with
                            | Ok (PStr t) => [t]
                            | _ => []
                            end) members
  | Raise _ => []
  end.

(** The event [e] is no call that writes, or it is a save of a page
    among [titles], or a move of such a page to its title in the
    Archive namespace. *)
Definition member_write (E : env) (titles : list string) (e : event) : bool :=
  match e with
  | Saved t _ => existsb (String.eqb t) titles
  | Moved t dest _ =>
      existsb (String.eqb t) titles
      && String.eqb dest ("Archive:" +:+ title_without_ns E t)
  | _ => true
  end.

(** The event [e] is the save that creates the empty checkpoint page. *)
Definition checkpoint_creation (e : event) : bool :=
  match e with
  | Saved t text => String.eqb t REV_PAGE && String.eqb text ""
  | _ => false
  end.

(** The titles in the category listing that a run started in [w]
    receives. *)
Definition listing_titles (E : env) (w : world) : list string :=
  match check_last_page E w with
  | (Ok last_title, w1) =>
      member_titles
        (session_get E (get_api_url E) (get_params last_title) (pages w1))
  | (Raise _, _) => []
  end.

(** The log of [w'] is the log of [w] followed by events that satisfy
    [P]. *)
Definition appends (P : event -> bool) (w w' : world) : Prop :=
  exists new, output w' = output w ++ new /\ forallb P new = true.

(** The proper suffixes of [s], the longest first. *)
Fixpoint tails (s : string) : list string :=
  match s with
  | EmptyString => []
  | String _ s' => s' :: tails s'
  end.

(** No proper suffix of [p] but the empty one starts [p]: two
    occurrences of [p] in a text do not overlap. *)
Definition border_free (p : string) : bool :=
  forallb (fun x => match x with
                    | EmptyString => true
                    | String _ _ => negb (str_prefix x p)
                    end) (tails p).

(** ** Pages and runs to evaluate *)

Module Cases.

Import Demo.

Definition old_marker : string :=
  "{{Archive recommendation|date=January 1, 2023}}".
Definition recent_marker : string :=
  "{{Archive recommendation|date=February 20, 2023}}".
Definition bad_marker : string := "{{Archive recommendation|date=soon}}".
Definition category_tag : string :=
  "[[Category:Articles flagged to be archived]]".

(** The wiki on 1 March 2023, with Foo and Bar flagged. *)
Definition march : env := wiki ["Foo"; "Bar"] (noon 2023 3 1).

(** The same wiki on 15 January 2023. *)
Definition january : env := wiki ["Foo"; "Bar"] (noon 2023 1 15).

Definition foo_text : string :=
  "Intro. " +:+ old_marker +:+ nl +:+ category_tag.
Definition bar_text : string := "Text. " +:+ old_marker.

(** Foo is flagged and old enough, and Archive:Foo is taken. *)
Definition taken : world :=
  world_of [("Foo", foo_text); ("Bar", bar_text); ("Archive:Foo", "kept")].

(** Foo carries a date the parser rejects; Bar is old enough. *)
Definition unreadable : world :=
  world_of [("Foo", "Intro. " +:+ bad_marker); ("Bar", bar_text)].

Definition stored_record : string :=
  "{'user': 'Admin', 'time': '2023-02-01T08:00:00Z', 'title': 'Foo'}".

(** Foo and Bar are old enough and a checkpoint record is stored. *)
Definition resumed : world :=
  world_of [("Foo", foo_text); ("Bar", bar_text); (REV_PAGE, stored_record)].



(** Two markers on one line. *)
Definition shared_line : string :=
  invocation flagged "" "" "date=January 1, 2023" +:+ " "
  +:+ invocation flagged "" "" "date=May 5, 2023".

(** A marker on a line of its own and again, behind another marker,
    on the next line. *)
Definition repeated : string :=
  old_marker +:+ nl +:+ "See "
  +:+ invocation flagged "" "" "date=March 3, 2023" +:+ " and " +:+ old_marker.

(** A marker broken by a line feed, below another construct. *)
Definition broken : string :=
  "{{Infobox|kind=note}}" +:+ nl
  +:+ "{{Archive recommendation|" +:+ nl +:+ "date=January 1, 2023}}".

(** A marker that closes on the next line and holds a construct that
    closes on the first. *)
Definition nested : string :=
  "{{Archive recommendation|date=January 1, 2023|by={{u|Ann}}" +:+ nl
  +:+ "}}".

(** A page with a recent marker, another construct and two old
    markers, each on a line of its own. *)
Definition dated_items : list (construct * string) :=
  [(Marker "" "" "date=February 20, 2023", nl);
   (Other "Infobox|kind=note", nl +:+ "Text ");
   (Marker " " " " "date=January 1, 2023", nl);
   (Marker "" "" "date=soon", " (end)")].

(** A page with three constructs, each on a line of its own. *)
Definition tidy_items : list (construct * string) :=
  [(Marker "" "" "date=January 1, 2023", nl +:+ "More text ");
   (Other "Infobox|kind=note", " (see above)" +:+ nl +:+ nl);
   (Marker " " "  " "date=May 5, 2023|by=Ann", "." +:+ nl +:+ "The end.")].

(** A page that holds the same marker twice, another marker and
    another construct, each on a line of its own. *)
Definition flagged_twice : list (construct * string) :=
  [(Marker "" "" "date=January 1, 2023", nl +:+ "See also: ");
   (Other "Infobox|kind=note", nl);
   (Marker "" "" "date=January 1, 2023", nl +:+ "and ");
   (Marker " " "" "date=Mar. 3, 2023|by=Ann", " (end)")].

(** The wiki [E] with a server that gives the same answer to every
    query. *)
Definition answering (E : env) (answer : pyval) : env :=
  {| parser_parse := parser_parse E;
     now := now E;
     re_sub_other := re_sub_other E;
     float_repr := float_repr E;
     float_nonzero := float_nonzero E;
     site_protocol := site_protocol E;
     site_hostname := site_hostname E;
     site_apipath := site_apipath E;
     title_without_ns := title_without_ns E;
     namespace_name := namespace_name E;
     session_get := fun _ _ _ => answer |}.

(** The wiki of 1 March 2023 with a date parser that reads every
    date as one in the UTC zone. *)
Definition zoned : env :=
  {| parser_parse :=
       fun s =>
         match parse_mdy s with
         | Ok d => Ok {| instant := instant d; tzinfo := Some 0 |}
         | Raise e => Raise e
         end;
     now := now march;
     re_sub_other := re_sub_other march;
     float_repr := float_repr march;
     float_nonzero := float_nonzero march;
     site_protocol := site_protocol march;
     site_hostname := site_hostname march;
     site_apipath := site_apipath march;
     title_without_ns := title_without_ns march;
     namespace_name := namespace_name march;
     session_get := session_get march |}.

(** Foo is old enough; there is neither checkpoint page nor archive. *)
Definition fresh : world := world_of [("Foo", foo_text); ("Bar", bar_text)].

End Cases.

(** * Properties *)

Local Arguments String.append !_ _.
Local Arguments Ascii.eqb : simpl nomatch.

(** ** Strings *)

Lemma str_app_nil_r (s : string) : s +:+ "" = s.
Proof. induction s as [|c s IH]; simpl; [reflexivity | now rewrite IH]. Qed.

Lemma str_app_assoc (a b c : string) : (a +:+ b) +:+ c = a +:+ (b +:+ c).
Proof. induction a as [|x a IH]; simpl; [reflexivity | now rewrite IH]. Qed.

Lemma str_length_app (a b : string) :
  String.length (a +:+ b) = (String.length a + String.length b)%nat.
Proof. induction a as [|x a IH]; simpl; [reflexivity | now rewrite IH]. Qed.

Lemma substring_prefix (m rest : string) :
  String.substring 0 (String.length m) (m +:+ rest) = m.
Proof.
  induction m as [|x m IH]; simpl.
  - destruct rest; reflexivity.
  - now rewrite IH.
Qed.

Lemma consumed_app (m rest : string) : consumed (m +:+ rest) rest = m.
Proof.
  unfold consumed. rewrite str_length_app.
  replace (String.length m + String.length rest - String.length rest)%nat
    with (String.length m) by lia.
  apply substring_prefix.
Qed.

Lemma str_app_inv_tail (a b w : string) : a +:+ w = b +:+ w -> a = b.
Proof.
  revert b. induction a as [|x a IH]; intros [|y b] H; simpl in H.
  - reflexivity.
  - apply (f_equal String.length) in H. simpl in H.
    rewrite str_length_app in H. lia.
  - apply (f_equal String.length) in H. simpl in H.
    rewrite str_length_app in H. lia.
  - injection H as -> H. f_equal. now apply IH.
Qed.

Lemma str_forallb_app (f : ascii -> bool) (a b : string) :
  str_forallb f (a +:+ b) = str_forallb f a && str_forallb f b.
Proof.
  induction a as [|x a IH]; simpl; [reflexivity |].
  now rewrite IH, andb_assoc.
Qed.

Lemma str_forallb_impl (f g : ascii -> bool) (s : string) :
  (forall c, f c = true -> g c = true) ->
  str_forallb f s = true -> str_forallb g s = true.
Proof.
  intros Hfg. induction s as [|x s IH]; simpl; [reflexivity |].
  intros [Hx Hs]%andb_true_iff. rewrite (Hfg _ Hx). now apply IH.
Qed.

Lemma str_mem_app (c : ascii) (a b : string) :
  str_mem c (a +:+ b) = str_mem c a || str_mem c b.
Proof.
  induction a as [|x a IH]; simpl; [reflexivity |].
  now rewrite IH, orb_assoc.
Qed.

Lemma str_mem_forallb (c : ascii) (s : string) :
  str_mem c s = negb (str_forallb (fun d => negb (Ascii.eqb c d)) s).
Proof.
  induction s as [|x s IH]; simpl; [reflexivity |].
  rewrite IH. now destruct (Ascii.eqb c x).
Qed.

(** ** The matcher is sound for the language of its pattern *)

Lemma star_cls_sound (f : ascii -> bool) (k : string -> option string)
    (s rest : string) :
  star_cls f k s = Some rest ->
  exists u v, s = u +:+ v /\ str_forallb f u = true /\ k v = Some rest.
Proof.
  induction s as [|c s IH]; simpl; intros H.
  - exists "", "". auto.
  - destruct (f c) eqn:Hc.
    + destruct (star_cls f k s) as [r|] eqn:Hs.
      * destruct (IH H) as (u & v & -> & Hu & Hk).
        exists (String c u), v. simpl. rewrite Hc, Hu. auto.
      * exists "", (String c s). auto.
    + exists "", (String c s). auto.
Qed.

Lemma rmatch_sound (r : regex) :
  forall (k : string -> option string) (s rest : string),
    rmatch r k s = Some rest ->
    exists m v, s = m +:+ v /\ matches r m /\ k v = Some rest.
Proof.
  induction r as [|c|f|f|r1 IH1 r2 IH2]; intros k s rest H; simpl in H.
  - exists "", s. split; [reflexivity | split; [constructor | assumption]].
  - destruct s as [|d s]; [discriminate |].
    destruct (Ascii.eqb_spec c d) as [<-|]; [|discriminate].
    exists (str1 c), s.
    split; [reflexivity | split; [constructor | assumption]].
  - destruct s as [|d s]; [discriminate |].
    destruct (f d) eqn:Hd; [|discriminate].
    exists (str1 d), s.
    split; [reflexivity | split; [now constructor | assumption]].
  - destruct (star_cls_sound _ _ _ _ H) as (u & v & -> & Hu & Hk).
    exists u, v. split; [reflexivity | split; [now constructor | assumption]].
  - destruct (IH1 _ _ _ H) as (m1 & v1 & -> & Hm1 & H1).
    destruct (IH2 _ _ _ H1) as (m2 & v2 & -> & Hm2 & H2).
    exists (m1 +:+ m2), v2. rewrite str_app_assoc.
    split; [reflexivity | split; [now constructor | assumption]].
Qed.

Lemma match_at_sound (r : regex) (s rest : string) :
  match_at r s = Some rest -> exists m, s = m +:+ rest /\ matches r m.
Proof.
  intros H. destruct (rmatch_sound _ _ _ _ H) as (m & v & -> & Hm & Hv).
  injection Hv as ->. eauto.
Qed.

Lemma matches_lit (t m : string) : matches (lit t) m -> m = t.
Proof.
  revert m. induction t as [|c t IH]; simpl; intros m H.
  - now inversion H.
  - inversion H as [| | | |? ? s1 s2 H1 H2]; subst.
    inversion H1; subst. simpl. f_equal. now apply IH.
Qed.

(** Every match of [re.findall] is a piece of the text, matched where
    it stands. *)
Lemma findall_sound (r : regex) (t : string) :
  forall (s : string) (n : nat),
    In t (findall_from r n s) ->
    exists u w, s = u +:+ t +:+ w /\ match_at r (t +:+ w) = Some w.
Proof.
  induction s as [|c s IH]; intros n H; simpl in H.
  - destruct n; [|contradiction].
    destruct (match_at r "") as [rest|] eqn:Hm; [|contradiction].
    destruct H as [<-|[]]. exists "", "". split; [reflexivity |].
    simpl. destruct (match_at_sound _ _ _ Hm) as (m & Hs & _).
    destruct m; [|discriminate]. simpl in Hs. now subst.
  - destruct n as [|n].
    + destruct (match_at r (String c s)) as [rest|] eqn:Hm.
      * destruct H as [<-|H].
        -- destruct (match_at_sound _ _ _ Hm) as (m & Hs & _).
           rewrite Hs, consumed_app. exists "", rest. simpl.
           split; [reflexivity | now rewrite <- Hs].
        -- destruct (IH _ H) as (u & w & -> & Hw).
           exists (String c u), w. auto.
      * destruct (IH _ H) as (u & w & -> & Hw).
        exists (String c u), w. auto.
    + destruct (IH _ H) as (u & w & -> & Hw).
      exists (String c u), w. auto.
Qed.

(** ** Invocations lie on one line *)

Lemma not_newline_mem (s : string) :
  str_forallb not_newline s = negb (str_mem newline s).
Proof.
  rewrite str_mem_forallb, negb_involutive.
  induction s as [|c s IH]; simpl; [reflexivity |].
  rewrite IH. unfold not_newline. now rewrite Ascii.eqb_sym.
Qed.

Lemma template_match_shape (s rest : string) :
  match_at template_re s = Some rest ->
  exists body, s = "{{" +:+ body +:+ "}}" +:+ rest
               /\ str_forallb not_newline body = true.
Proof.
  intros H. destruct (match_at_sound _ _ _ H) as (m & -> & Hm).
  unfold template_re in Hm.
  inversion Hm as [| | | |? ? m1 m23 H1 H23]; subst.
  inversion H23 as [| | | |? ? m2 m3 H2 H3]; subst.
  apply (matches_lit "{{") in H1. apply (matches_lit "}}") in H3. subst.
  inversion H2; subst. exists m2.
  split; [|assumption]. simpl. now rewrite !str_app_assoc.
Qed.

Lemma findall_template_shape (text t : string) :
  In t (re_findall template_re text) ->
  exists u body w,
    text = u +:+ t +:+ w /\ t = "{{" +:+ body +:+ "}}"
    /\ str_mem newline body = false.
Proof.
  intros H. destruct (findall_sound _ _ _ _ H) as (u & w & -> & Hm).
  destruct (template_match_shape _ _ Hm) as (body & Ht & Hb).
  exists u, body, w. split; [reflexivity |].
  rewrite not_newline_mem, negb_true_iff in Hb. split; [|assumption].
  rewrite <- (str_app_assoc body "}}" w), <- (str_app_assoc "{{") in Ht.
  now apply str_app_inv_tail in Ht.
Qed.

(** ** Scanning *)

Lemma findall_skip_consumed (r : regex) (v : string) :
  forall u : string,
    findall_from r (String.length u) (u +:+ v) = findall_from r 0 v.
Proof.
  induction u as [|c u IH]; simpl; [reflexivity | apply IH].
Qed.

Lemma findall_step (r : regex) (c : ascii) (m rest : string) :
  match_at r (String c m +:+ rest) = Some rest ->
  findall_from r 0 (String c m +:+ rest)
  = String c m :: findall_from r 0 rest.
Proof.
  intros H. change (String c m +:+ rest) with (String c (m +:+ rest)) in *.
  cbn [findall_from]. rewrite H.
  change (String c (m +:+ rest)) with (String c m +:+ rest).
  rewrite consumed_app. f_equal.
  rewrite str_length_app.
  replace (String.length (String c m) + String.length rest
           - String.length rest - 1)%nat with (String.length m)
    by (simpl; lia).
  apply findall_skip_consumed.
Qed.

Lemma sub_skip_consumed (r : regex) (repl v : string) :
  forall u : string,
    sub_from r repl (String.length u) (u +:+ v) = sub_from r repl 0 v.
Proof.
  induction u as [|c u IH]; simpl; [reflexivity | apply IH].
Qed.

Lemma sub_step (r : regex) (repl : string) (c : ascii) (m rest : string) :
  match_at r (String c m +:+ rest) = Some rest ->
  sub_from r repl 0 (String c m +:+ rest) = repl +:+ sub_from r repl 0 rest.
Proof.
  intros H. change (String c m +:+ rest) with (String c (m +:+ rest)) in *.
  cbn [sub_from]. rewrite H.
  replace (String.length (String c (m +:+ rest)) - String.length rest)%nat
    with (S (String.length m))
    by (simpl; rewrite str_length_app; lia).
  now rewrite sub_skip_consumed.
Qed.

Lemma template_re_starts_open : starts_open template_re.
Proof. intros c s H. unfold match_at. simpl. now rewrite H. Qed.

Lemma name_re_starts_open (name : string) : starts_open (name_re name).
Proof. intros c s H. unfold match_at. simpl. now rewrite H. Qed.

Lemma open_free_cons (c : ascii) (s : string) :
  open_free (String c s) = true ->
  Ascii.eqb lbrace c = false /\ open_free s = true.
Proof.
  unfold open_free. simpl. rewrite negb_orb, andb_true_iff, !negb_true_iff.
  auto.
Qed.

Lemma findall_open_free (r : regex) (s : string) :
  starts_open r ->
  forall pre : string,
    open_free pre = true ->
    findall_from r 0 (pre +:+ s) = findall_from r 0 s.
Proof.
  intros Hr. induction pre as [|c pre IH]; intros Hp; [reflexivity |].
  apply open_free_cons in Hp as [Hc Hp].
  change (String c pre +:+ s) with (String c (pre +:+ s)).
  cbn [findall_from]. rewrite (Hr _ _ Hc). now apply IH.
Qed.

Lemma findall_open_free_end (r : regex) :
  starts_open r -> match_at r "" = None ->
  forall s : string, open_free s = true -> findall_from r 0 s = [].
Proof.
  intros Hr He. induction s as [|c s IH]; intros Hs; simpl.
  - now rewrite He.
  - apply open_free_cons in Hs as [Hc Hs]. rewrite (Hr _ _ Hc). now apply IH.
Qed.

Lemma sub_open_free (r : regex) (repl s : string) :
  starts_open r ->
  forall pre : string,
    open_free pre = true ->
    sub_from r repl 0 (pre +:+ s) = pre +:+ sub_from r repl 0 s.
Proof.
  intros Hr. induction pre as [|c pre IH]; intros Hp; [reflexivity |].
  apply open_free_cons in Hp as [Hc Hp].
  change (String c pre +:+ s) with (String c (pre +:+ s)).
  cbn [sub_from]. rewrite (Hr _ _ Hc). simpl. f_equal. now apply IH.
Qed.

Lemma sub_open_free_end (r : regex) (repl : string) :
  starts_open r -> match_at r "" = None ->
  forall s : string, open_free s = true -> sub_from r repl 0 s = s.
Proof.
  intros Hr He. induction s as [|c s IH]; intros Hs; simpl.
  - now rewrite He.
  - apply open_free_cons in Hs as [Hc Hs]. rewrite (Hr _ _ Hc).
    f_equal. now apply IH.
Qed.

Lemma search_open_free (r : regex) :
  starts_open r -> match_at r "" = None ->
  forall s : string, open_free s = true -> re_search r s = false.
Proof.
  intros Hr He. induction s as [|c s IH]; intros Hs; simpl.
  - now rewrite He.
  - apply open_free_cons in Hs as [Hc Hs]. rewrite (Hr _ _ Hc). now apply IH.
Qed.

(** ** Greedy stars *)

Lemma star_cls_stop (f : ascii -> bool) (k : string -> option string)
    (v rest : string) :
  stops f v = true -> k v = Some rest ->
  forall u : string,
    str_forallb f u = true -> star_cls f k (u +:+ v) = Some rest.
Proof.
  intros Hv Hk. induction u as [|c u IH]; simpl; intros Hu.
  - destruct v as [|d v]; simpl in *; [assumption |].
    apply negb_true_iff in Hv. now rewrite Hv.
  - apply andb_true_iff in Hu as [Hc Hu]. now rewrite Hc, IH.
Qed.

Lemma rmatch_lit (k : string -> option string) (s : string) :
  forall t : string, rmatch (lit t) k (t +:+ s) = k s.
Proof.
  induction t as [|c t IH]; simpl; [reflexivity |].
  now rewrite Ascii.eqb_refl.
Qed.

Lemma close_free_cons (c : ascii) (s : string) :
  close_free (String c s) = true ->
  Ascii.eqb rbrace c = false /\ close_free s = true.
Proof.
  unfold close_free. simpl. rewrite negb_orb, andb_true_iff, !negb_true_iff.
  auto.
Qed.

Lemma one_line_cons (c : ascii) (s : string) :
  one_line (String c s) = true ->
  not_newline c = true /\ one_line s = true.
Proof.
  unfold one_line, not_newline. simpl.
  rewrite negb_orb, andb_true_iff, (Ascii.eqb_sym c). auto.
Qed.

Lemma close_free_app (a b : string) :
  close_free (a +:+ b) = close_free a && close_free b.
Proof. unfold close_free. now rewrite str_mem_app, negb_orb. Qed.

Lemma open_free_app (a b : string) :
  open_free (a +:+ b) = open_free a && open_free b.
Proof. unfold open_free. now rewrite str_mem_app, negb_orb. Qed.

Lemma one_line_app (a b : string) :
  one_line (a +:+ b) = one_line a && one_line b.
Proof. unfold one_line. now rewrite str_mem_app, negb_orb. Qed.

Lemma rmatch_seq (r1 r2 : regex) (k : string -> option string) (s : string) :
  rmatch (Seq r1 r2) k s = rmatch r1 (rmatch r2 k) s.
Proof. reflexivity. Qed.

Lemma rmatch_star (f : ascii -> bool) (k : string -> option string)
    (s : string) :
  rmatch (Star f) k s = star_cls f k s.
Proof. reflexivity. Qed.

Lemma rmatch_lit_miss (k : string -> option string) (c d : ascii)
    (t s : string) :
  Ascii.eqb c d = false -> rmatch (lit (String c t)) k (String d s) = None.
Proof. intros H. simpl. now rewrite H. Qed.

(** After the last closing pair of a line no closing pair is found. *)
Lemma close_miss_after (after rest : string) :
  close_free after = true -> stops not_newline rest = true ->
  rmatch (lit "}}") Some (String rbrace (after +:+ rest)) = None.
Proof.
  intros Ha Hr. destruct after as [|c after]; simpl.
  - destruct rest as [|d rest]; [reflexivity |]. simpl in Hr.
    unfold not_newline in Hr. rewrite negb_involutive in Hr.
    apply Ascii.eqb_eq in Hr as ->. reflexivity.
  - apply close_free_cons in Ha as [-> _]. reflexivity.
Qed.

Lemma star_close_none (rest : string) :
  stops not_newline rest = true ->
  forall after : string,
    close_free after = true -> one_line after = true ->
    star_cls not_newline (rmatch (lit "}}") Some) (after +:+ rest) = None.
Proof.
  intros Hr. induction after as [|c after IH]; intros Hc Hl.
  - simpl "+:+". destruct rest as [|d rest]; [reflexivity |].
    simpl in Hr. apply negb_true_iff in Hr. cbn [star_cls]. rewrite Hr.
    apply rmatch_lit_miss.
    unfold not_newline in Hr. rewrite negb_false_iff in Hr.
    apply Ascii.eqb_eq in Hr as ->. reflexivity.
  - apply close_free_cons in Hc as [Hc Hc'].
    apply one_line_cons in Hl as [Hl Hl'].
    change (String c after +:+ rest) with (String c (after +:+ rest)).
    cbn [star_cls]. rewrite Hl, (IH Hc' Hl').
    now apply rmatch_lit_miss.
Qed.

Lemma star_close_last (after rest : string) :
  close_free after = true -> one_line after = true ->
  stops not_newline rest = true ->
  forall body : string,
    close_free body = true -> one_line body = true ->
    star_cls not_newline (rmatch (lit "}}") Some)
      (body +:+ "}}" +:+ after +:+ rest)
    = Some (after +:+ rest).
Proof.
  intros Ha Hal Hr. induction body as [|c body IH]; intros Hb Hbl.
  - change ("" +:+ "}}" +:+ after +:+ rest)
      with (String rbrace (String rbrace (after +:+ rest))).
    cbn [star_cls]. change (not_newline rbrace) with true. cbv iota.
    rewrite (star_close_none rest Hr after Ha Hal).
    rewrite (close_miss_after after rest Ha Hr).
    apply (rmatch_lit Some (after +:+ rest) "}}").
  - apply close_free_cons in Hb as [Hc Hb].
    apply one_line_cons in Hbl as [Hl Hbl].
    change (String c body +:+ "}}" +:+ after +:+ rest)
      with (String c (body +:+ "}}" +:+ after +:+ rest)).
    cbn [star_cls]. now rewrite Hl, IH.
Qed.

(** The greedy [.*] of the template pattern runs to the end of the
    line and comes back to the last closing pair. *)
Lemma template_match (body after rest : string) :
  close_free body = true -> one_line body = true ->
  close_free after = true -> one_line after = true ->
  stops not_newline rest = true ->
  match_at template_re ("{{" +:+ body +:+ "}}" +:+ after +:+ rest)
  = Some (after +:+ rest).
Proof.
  intros Hb Hbl Ha Hal Hr. unfold match_at, template_re.
  rewrite rmatch_seq, rmatch_lit, rmatch_seq, rmatch_star.
  now apply star_close_last.
Qed.

Lemma inline_space_is_space (s : string) :
  inline_space s = true -> str_forallb is_space s = true.
Proof.
  apply str_forallb_impl. now intros c [H _]%andb_true_iff.
Qed.

Lemma name_match (name lead trail rest : string) :
  ordinary_name name = true ->
  inline_space lead = true -> inline_space trail = true ->
  match_at (name_re name)
    ("{{" +:+ lead +:+ name +:+ trail +:+ "|" +:+ rest)
  = Some rest.
Proof.
  intros Hn Hl Ht. unfold match_at, name_re.
  rewrite rmatch_seq, rmatch_lit, rmatch_seq, rmatch_star.
  apply star_cls_stop; [| |now apply inline_space_is_space].
  - destruct name as [|c name]; [discriminate |].
    apply andb_true_iff in Hn as [Hn _]. exact Hn.
  - rewrite rmatch_seq, rmatch_lit, rmatch_seq, rmatch_star.
    apply star_cls_stop; [reflexivity | | now apply inline_space_is_space].
    simpl. reflexivity.
Qed.

(** ** One construct per line *)

Lemma class_excludes (f : ascii -> bool) (c : ascii) (s : string) :
  f c = false -> str_forallb f s = true -> str_mem c s = false.
Proof.
  intros Hc. induction s as [|d s IH]; simpl; [reflexivity |].
  intros [Hd Hs]%andb_true_iff. rewrite (IH Hs), orb_false_r.
  destruct (Ascii.eqb_spec c d) as [->|]; [congruence | reflexivity].
Qed.

Lemma inline_space_free (s : string) :
  inline_space s = true ->
  open_free s = true /\ close_free s = true /\ one_line s = true.
Proof.
  intros H. unfold open_free, close_free, one_line, inline_space in *.
  rewrite (class_excludes _ lbrace s eq_refl H).
  rewrite (class_excludes _ rbrace s eq_refl H).
  rewrite (class_excludes _ newline s eq_refl H). auto.
Qed.

Lemma ordinary_name_free (name : string) :
  ordinary_name name = true ->
  open_free name = true /\ close_free name = true /\ one_line name = true.
Proof.
  destruct name as [|c name]; [discriminate |].
  intros [_ H]%andb_true_iff. unfold open_free, close_free, one_line.
  rewrite (class_excludes name_char lbrace _ eq_refl H).
  rewrite (class_excludes name_char rbrace _ eq_refl H).
  rewrite (class_excludes name_char newline _ eq_refl H). auto.
Qed.

Lemma find_line (before body after rest : string) :
  open_free before = true ->
  close_free body = true -> one_line body = true ->
  open_free after = true -> close_free after = true ->
  one_line after = true -> stops not_newline rest = true ->
  findall_from template_re 0
    (before +:+ "{{" +:+ body +:+ "}}" +:+ after +:+ rest)
  = ("{{" +:+ body +:+ "}}") :: findall_from template_re 0 rest.
Proof.
  intros Hb Hc Hl Hao Hac Hal Hr.
  rewrite (findall_open_free _ _ template_re_starts_open _ Hb).
  pose proof (template_match body after rest Hc Hl Hac Hal Hr) as Hm.
  replace ("{{" +:+ body +:+ "}}" +:+ after +:+ rest)
    with (String lbrace (String lbrace (body +:+ "}}")) +:+ after +:+ rest)
    in * by (simpl; now rewrite !str_app_assoc).
  rewrite (findall_step _ _ _ _ Hm).
  now rewrite (findall_open_free _ _ template_re_starts_open _ Hao).
Qed.

Lemma line_split (s : string) :
  exists a r, s = a +:+ r /\ one_line a = true
              /\ stops not_newline r = true.
Proof.
  induction s as [|c s (a & r & -> & Ha & Hr)].
  - exists "", "". auto.
  - destruct (not_newline c) eqn:Hc.
    + exists (String c a), r. repeat split; [|assumption].
      unfold one_line in *. simpl. unfold not_newline in Hc.
      rewrite Ascii.eqb_sym. apply negb_true_iff in Hc, Ha.
      now rewrite Hc, Ha.
    + exists "", (String c (a +:+ r)). simpl. now rewrite Hc.
Qed.

Lemma sub_close (a : string) :
  close_free a = true -> re_sub close_re "" (a +:+ "}}") = a.
Proof.
  unfold re_sub, close_re. induction a as [|c a IH]; intros Ha.
  - reflexivity.
  - apply close_free_cons in Ha as [Hc Ha].
    change (String c a +:+ "}}") with (String c (a +:+ "}}")).
    cbn [sub_from]. unfold match_at at 1.
    rewrite (rmatch_lit_miss Some _ _ _ _ Hc). f_equal. now apply IH.
Qed.

Lemma marker_info (name lead trail args : string) :
  ordinary_name name = true ->
  inline_space lead = true -> inline_space trail = true ->
  open_free args = true -> close_free args = true ->
  grab_template_info name (invocation name lead trail args) = args.
Proof.
  intros Hn Hl Ht Hao Hac. unfold grab_template_info, re_sub.
  pose proof (name_match name lead trail (args +:+ "}}") Hn Hl Ht) as Hm.
  unfold invocation.
  replace ("{{" +:+ lead +:+ name +:+ trail +:+ "|" +:+ args +:+ "}}")
    with (String lbrace (String lbrace (lead +:+ name +:+ trail +:+ "|"))
          +:+ args +:+ "}}") in *
    by (simpl; now rewrite !str_app_assoc).
  rewrite (sub_step _ _ _ _ _ Hm). simpl "+:+" at 1.
  rewrite (sub_open_free_end _ "" (name_re_starts_open name) eq_refl).
  - now apply sub_close.
  - rewrite open_free_app, Hao. reflexivity.
Qed.

Lemma re_search_hit (r : regex) (s rest : string) :
  match_at r s = Some rest -> re_search r s = true.
Proof. intros H. destruct s; simpl; now rewrite H. Qed.

Lemma marker_search (name lead trail args : string) :
  ordinary_name name = true ->
  inline_space lead = true -> inline_space trail = true ->
  re_search (name_re name) (invocation name lead trail args) = true.
Proof.
  intros Hn Hl Ht.
  pose proof (name_match name lead trail (args +:+ "}}") Hn Hl Ht) as Hm.
  exact (re_search_hit _ _ _ Hm).
Qed.

Lemma marker_body_free (name lead trail args : string) :
  ordinary_name name = true ->
  inline_space lead = true -> inline_space trail = true ->
  close_free args = true -> one_line args = true ->
  close_free (lead +:+ name +:+ trail +:+ "|" +:+ args) = true
  /\ one_line (lead +:+ name +:+ trail +:+ "|" +:+ args) = true.
Proof.
  intros Hn Hl Ht Hc Ho.
  destruct (inline_space_free _ Hl) as (_ & Hl1 & Hl2).
  destruct (inline_space_free _ Ht) as (_ & Ht1 & Ht2).
  destruct (ordinary_name_free _ Hn) as (_ & Hn1 & Hn2).
  rewrite !close_free_app, !one_line_app, Hl1, Hl2, Ht1, Ht2, Hn1, Hn2, Hc, Ho.
  auto.
Qed.

Lemma marker_ok (name lead trail args : string) :
  construct_ok name (Marker lead trail args) = true ->
  inline_space lead = true /\ inline_space trail = true
  /\ open_free args = true /\ close_free args = true
  /\ one_line args = true.
Proof.
  cbn [construct_ok]. intros H.
  apply andb_true_iff in H as [H H5]. apply andb_true_iff in H as [H H4].
  apply andb_true_iff in H as [H H3]. apply andb_true_iff in H as [H1 H2].
  auto.
Qed.

Lemma other_ok (name body : string) :
  construct_ok name (Other body) = true ->
  close_free body = true /\ one_line body = true
  /\ re_search (name_re name) ("{{" +:+ body +:+ "}}") = false.
Proof.
  cbn [construct_ok]. intros H.
  apply andb_true_iff in H as [H H3]. apply andb_true_iff in H as [H1 H2].
  apply negb_true_iff in H3. auto.
Qed.

Lemma construct_inside (name : string) (c : construct) :
  ordinary_name name = true -> construct_ok name c = true ->
  exists body,
    construct_text name c = "{{" +:+ body +:+ "}}"
    /\ close_free body = true /\ one_line body = true.
Proof.
  intros Hn Hc. destruct c as [lead trail args|body].
  - apply marker_ok in Hc as (Hl & Ht & _ & Hac & Hal).
    exists (lead +:+ name +:+ trail +:+ "|" +:+ args).
    split; [unfold construct_text, invocation; now rewrite !str_app_assoc |].
    now apply marker_body_free.
  - apply other_ok in Hc as (Hbc & Hbl & _). exists body. auto.
Qed.

(** The text between two constructs goes on to the next line. *)
Lemma next_line (name : string) (after : string)
    (items : list (construct * string)) :
  match items with [] => true | _ :: _ => negb (one_line after) end = true ->
  exists a r,
    after = a +:+ r /\ one_line a = true
    /\ stops not_newline (r +:+ page_items name items) = true.
Proof.
  intros Hsep. destruct (line_split after) as (a & r & -> & Ha & Hr).
  exists a, r. repeat split; [assumption |].
  destruct r as [|d r]; [|exact Hr].
  destruct items; [reflexivity |].
  rewrite str_app_nil_r, Ha in Hsep. discriminate.
Qed.

Lemma find_items (name : string) :
  ordinary_name name = true ->
  forall (items : list (construct * string)) (before : string),
    items_ok name items = true -> open_free before = true ->
    findall_from template_re 0 (before +:+ page_items name items)
    = map (fun item => construct_text name item.1) items.
Proof.
  intros Hn. induction items as [|[c after] items IH]; intros before Hok Hb.
  - simpl. rewrite str_app_nil_r.
    now apply (findall_open_free_end _ template_re_starts_open eq_refl).
  - cbn [items_ok] in Hok.
    apply andb_true_iff in Hok as [Hok Hrest].
    apply andb_true_iff in Hok as [Hok Hsep].
    apply andb_true_iff in Hok as [Hok Hac].
    apply andb_true_iff in Hok as [Hc Hao].
    destruct (construct_inside name c Hn Hc) as (body & Ht & Hbc & Hbl).
    destruct (next_line name after items Hsep) as (a & r & -> & Ha & Hr).
    rewrite open_free_app, andb_true_iff in Hao. destruct Hao as [Hao Hro].
    rewrite close_free_app, andb_true_iff in Hac. destruct Hac as [Hac _].
    cbn [page_items map fst]. rewrite Ht.
    pose proof (find_line before body a (r +:+ page_items name items)
                  Hb Hbc Hbl Hao Hac Ha Hr) as Hf.
    rewrite !str_app_assoc in *. rewrite Hf. f_equal. now apply IH.
Qed.

Lemma grab_items (name : string) :
  ordinary_name name = true ->
  forall items : list (construct * string),
    items_ok name items = true ->
    grab_loop name (map (fun item => construct_text name item.1) items)
    = fragments items.
Proof.
  intros Hn. induction items as [|[c after] items IH]; intros Hok;
    [reflexivity |].
  cbn [items_ok] in Hok.
  apply andb_true_iff in Hok as [Hok Hrest].
  apply andb_true_iff in Hok as [Hok _].
  apply andb_true_iff in Hok as [Hok _].
  apply andb_true_iff in Hok as [Hc _].
  cbn [map fst grab_loop fragments]. rewrite (IH Hrest).
  destruct c as [lead trail args|body]; cbn [construct_text].
  - apply marker_ok in Hc as (Hl & Ht & Hao & Hac & _).
    rewrite marker_search, marker_info by assumption. reflexivity.
  - apply other_ok in Hc as (_ & _ & Hs). now rewrite Hs.
Qed.


(** ** Constructs that are not written as an invocation *)

Lemma re_search_sound (r : regex) :
  forall s : string,
    re_search r s = true ->
    exists u m w, s = u +:+ m +:+ w /\ matches r m.
Proof.
  induction s as [|c s IH]; cbn [re_search]; intros H.
  - destruct (match_at r "") as [rest|] eqn:Hm; [|discriminate].
    destruct (match_at_sound _ _ _ Hm) as (m & Hs & Hmm).
    exists "", m, rest. auto.
  - destruct (match_at r (String c s)) as [rest|] eqn:Hm.
    + destruct (match_at_sound _ _ _ Hm) as (m & Hs & Hmm).
      exists "", m, rest. auto.
    + destruct (IH H) as (u & m & w & -> & Hmm).
      exists (String c u), m, w. auto.
Qed.

(** What the pattern of a name matches: the opening braces, white
    space, the name, white space, a pipe. *)
Lemma name_re_matches (name m : string) :
  matches (name_re name) m ->
  exists lead trail,
    m = "{{" +:+ lead +:+ name +:+ trail +:+ "|"
    /\ str_forallb is_space lead = true
    /\ str_forallb is_space trail = true.
Proof.
  unfold name_re. intros H.
  inversion H as [| | | |? ? s1 m1 Ha H1]; subst.
  inversion H1 as [| | | |? ? s2 m2 Hb H2]; subst.
  inversion H2 as [| | | |? ? s3 m3 Hc H3]; subst.
  inversion H3 as [| | | |? ? s4 m4 Hd H4]; subst.
  inversion H4; subst. inversion Hb; subst. inversion Hd; subst.
  apply (matches_lit "{{") in Ha. apply (matches_lit name) in Hc.
  subst. exists s2, s4. auto.
Qed.

Lemma skip_space_app (s : string) :
  forall lead : string,
    str_forallb is_space lead = true -> skip_space (lead +:+ s) = skip_space s.
Proof.
  induction lead as [|c lead IH]; [reflexivity |]. cbn [str_forallb].
  intros [Hc Hl]%andb_true_iff.
  change (String c lead +:+ s) with (String c (lead +:+ s)).
  cbn [skip_space]. rewrite Hc. now apply IH.
Qed.

Lemma skip_space_stops (s : string) :
  stops is_space s = true -> skip_space s = s.
Proof.
  destruct s as [|c s]; [reflexivity |]. simpl.
  intros H%negb_true_iff. now rewrite H.
Qed.

Lemma after_prefix_app (s : string) :
  forall p : string, after_prefix p (p +:+ s) = Some s.
Proof.
  induction p as [|c p IH]; [reflexivity |].
  change (String c p +:+ s) with (String c (p +:+ s)).
  cbn [after_prefix]. now rewrite Ascii.eqb_refl.
Qed.

Lemma ordinary_name_stops (name rest : string) :
  ordinary_name name = true -> stops is_space (name +:+ rest) = true.
Proof.
  destruct name as [|c name]; [discriminate |].
  now intros [H _]%andb_true_iff.
Qed.

Lemma invocation_form_hit (name lead trail rest : string) :
  ordinary_name name = true ->
  str_forallb is_space lead = true -> str_forallb is_space trail = true ->
  invocation_form name (lead +:+ name +:+ trail +:+ "|" +:+ rest) = true.
Proof.
  intros Hn Hl Ht. unfold invocation_form.
  rewrite (skip_space_app _ lead Hl).
  rewrite (skip_space_stops _ (ordinary_name_stops name _ Hn)).
  now rewrite after_prefix_app, (skip_space_app _ trail Ht).
Qed.

Lemma opens_invocation (name lead trail rest : string) :
  ordinary_name name = true ->
  str_forallb is_space lead = true -> str_forallb is_space trail = true ->
  opens name ("{{" +:+ lead +:+ name +:+ trail +:+ "|" +:+ rest) = true.
Proof.
  intros Hn Hl Ht. unfold opens.
  rewrite (after_prefix_app _ "{{"). now apply invocation_form_hit.
Qed.

(** A text without closing brace that starts a text with a closing
    pair ends before that pair. *)
Lemma prefix_before_close (rest : string) :
  forall p body : string,
    close_free p = true -> p +:+ rest = body +:+ "}}" ->
    exists b, body = p +:+ b.
Proof.
  induction p as [|c p IH]; intros body Hp H; [now exists body |].
  apply close_free_cons in Hp as [Hc Hp].
  destruct body as [|d body].
  - simpl in H. injection H as -> _. discriminate.
  - change (String c p +:+ rest) with (String c (p +:+ rest)) in H.
    change (String d body +:+ "}}") with (String d (body +:+ "}}")) in H.
    injection H as -> H. destruct (IH body Hp H) as (b & ->). now exists b.
Qed.

Lemma space_close_free (s : string) :
  str_forallb is_space s = true -> close_free s = true.
Proof.
  intros H. unfold close_free.
  now rewrite (class_excludes is_space rbrace s eq_refl H).
Qed.

(** The opening of an invocation holds no closing brace. *)
Lemma opening_close_free (name lead trail : string) :
  ordinary_name name = true ->
  str_forallb is_space lead = true -> str_forallb is_space trail = true ->
  close_free (lead +:+ name +:+ trail +:+ "|") = true.
Proof.
  intros Hn Hl Ht. destruct (ordinary_name_free _ Hn) as (_ & Hc & _).
  now rewrite !close_free_app, (space_close_free _ Hl),
    (space_close_free _ Ht), Hc.
Qed.

(** A construct without brace inside that is not written as an
    invocation of the name is not one for the extractor. *)
Lemma other_not_found (name body : string) :
  ordinary_name name = true ->
  open_free body = true -> close_free body = true ->
  invocation_form name body = false ->
  re_search (name_re name) ("{{" +:+ body +:+ "}}") = false.
Proof.
  intros Hn Ho Hc Hf.
  change ("{{" +:+ body +:+ "}}")
    with (String lbrace (String lbrace (body +:+ "}}"))).
  cbn [re_search].
  destruct (match_at (name_re name)
              (String lbrace (String lbrace (body +:+ "}}"))))
    as [rest|] eqn:Hm.
  - exfalso. destruct (match_at_sound _ _ _ Hm) as (m & Hs & Hmm).
    destruct (name_re_matches _ _ Hmm) as (lead & trail & -> & Hl & Ht).
    rewrite !str_app_assoc in Hs. simpl in Hs. injection Hs as Hs.
    rewrite <- !str_app_assoc in Hs.
    destruct (prefix_before_close rest _ body
                (opening_close_free name lead trail Hn Hl Ht))
      as (b & ->).
    { rewrite !str_app_assoc. now rewrite !str_app_assoc in Hs. }
    rewrite !str_app_assoc in Hf.
    now rewrite (invocation_form_hit name lead trail b Hn Hl Ht) in Hf.
  - assert (H2 : match_at (name_re name) (String lbrace (body +:+ "}}"))
                 = None).
    { unfold match_at, name_re. destruct body as [|d body]; [reflexivity |].
      apply open_free_cons in Ho as [Hd _].
      change (String d body +:+ "}}") with (String d (body +:+ "}}")).
      cbn [rmatch lit]. now rewrite Hd. }
    rewrite H2.
    apply (search_open_free _ (name_re_starts_open name) eq_refl).
    now rewrite open_free_app, Ho.
Qed.

Lemma plain_ok (name : string) (c : construct) :
  ordinary_name name = true ->
  plain name c = true -> construct_ok name c = true.
Proof.
  intros Hn. destruct c as [lead trail args|body]; cbn [plain construct_ok];
    [auto |].
  intros H. apply andb_true_iff in H as [H H4].
  apply andb_true_iff in H as [H H3]. apply andb_true_iff in H as [H1 H2].
  apply negb_true_iff in H4.
  now rewrite H2, H3, (other_not_found name body Hn H1 H2 H4).
Qed.

Lemma one_per_line_ok (name : string) :
  ordinary_name name = true ->
  forall items : list (construct * string),
    one_per_line name items = true -> items_ok name items = true.
Proof.
  intros Hn. induction items as [|[c after] items IH]; [reflexivity |].
  cbn [one_per_line items_ok]. intros H.
  apply andb_true_iff in H as [H Hrest].
  apply andb_true_iff in H as [H Hsep].
  apply andb_true_iff in H as [H Hac].
  apply andb_true_iff in H as [Hc Hao].
  now rewrite (plain_ok name c Hn Hc), Hao, Hac, Hsep, (IH Hrest).
Qed.

(** On a page with one plain construct per line the matches are the
    constructs and the fragments are the arguments of the invocations. *)
Lemma grab_one_per_line (name before : string)
    (items : list (construct * string)) :
  ordinary_name name = true ->
  open_free before = true ->
  one_per_line name items = true ->
  grab_template_data name (page_of name before items) = fragments items.
Proof.
  intros Hn Hb Hok. apply (one_per_line_ok name Hn) in Hok.
  unfold grab_template_data, re_findall, page_of.
  rewrite (find_items name Hn items before Hok Hb).
  now apply grab_items.
Qed.

(** C7 (amended): on a page where every brace-delimited construct has
    a line of its own and holds no brace inside, the extractor returns
    the argument text of each invocation of the template, unchanged,
    in document order, and nothing for the constructs that are not
    written as an invocation of the template. *)
Theorem extraction_one_construct_per_line (name before : string)
    (items : list (construct * string)) :
  ordinary_name name = true ->
  open_free before = true ->
  one_per_line name items = true ->
  grab_template_data name (page_of name before items) = fragments items.
Proof. apply grab_one_per_line. Qed.

(** ** Markers and line breaks *)

(** Replacing matches by nothing only deletes characters. *)
Lemma sub_empty_forallb (r : regex) (f : ascii -> bool) (s : string) :
  forall n : nat,
    str_forallb f s = true -> str_forallb f (sub_from r "" n s) = true.
Proof.
  induction s as [|c s IH]; intros n Hs; simpl.
  - destruct n, (match_at r ""); reflexivity.
  - simpl in Hs. apply andb_true_iff in Hs as [Hc Hs].
    destruct n as [|n]; [|now apply IH].
    destruct (match_at r (String c s)) as [rest|].
    + destruct (_ - _)%nat; simpl; [rewrite Hc|]; now apply IH.
    + simpl. rewrite Hc. now apply IH.
Qed.

Lemma grab_template_info_forallb (f : ascii -> bool) (name t : string) :
  str_forallb f t = true -> str_forallb f (grab_template_info name t) = true.
Proof.
  intros H. unfold grab_template_info, re_sub.
  now do 2 apply sub_empty_forallb.
Qed.

Lemma grab_loop_hit (name f : string) (templates : list string) :
  In f (grab_loop name templates) ->
  exists t,
    In t templates /\ re_search (name_re name) t = true
    /\ f = grab_template_info name t.
Proof.
  induction templates as [|t ts IH]; simpl; [contradiction |].
  destruct (re_search (name_re name) t) eqn:Hs.
  - intros [<-|H]; [eauto |]. destruct (IH H) as (t' & ? & ? & ?). eauto 6.
  - intros H. destruct (IH H) as (t' & ? & ? & ?). eauto 6.
Qed.

Lemma grab_loop_none (name : string) (templates : list string) :
  (forall t, In t templates -> re_search (name_re name) t = false) ->
  grab_loop name templates = [].
Proof.
  induction templates as [|t ts IH]; intros H; [reflexivity |].
  cbn [grab_loop]. rewrite (H t (or_introl eq_refl)).
  apply IH. intros t' Ht'. apply H. now right.
Qed.

Lemma marker_pair_close (name w : string) :
  forall v : string,
    one_line v = true -> marker_pair name true (v +:+ "}}" +:+ w) = true.
Proof.
  induction v as [|c v IH]; intros Hv; [reflexivity |].
  apply one_line_cons in Hv as [Hc Hv].
  change (String c v +:+ "}}" +:+ w) with (String c (v +:+ "}}" +:+ w)).
  cbn [marker_pair]. unfold not_newline in Hc. apply negb_true_iff in Hc.
  rewrite Hc. cbn [orb]. rewrite (IH Hv). apply orb_true_r.
Qed.

Lemma marker_pair_mono (name : string) :
  forall (s : string) (opened : bool),
    marker_pair name false s = true -> marker_pair name opened s = true.
Proof.
  induction s as [|c s IH]; intros opened H; [discriminate |].
  destruct opened; [|exact H]. cbn [marker_pair] in *.
  destruct (Ascii.eqb c newline); [exact H |].
  cbn [andb orb] in *. apply orb_true_iff. right.
  destruct (opens name (String c s)); [exact H | now apply IH].
Qed.

Lemma marker_pair_skip (name x : string) :
  marker_pair name false x = true ->
  forall (u : string) (opened : bool),
    marker_pair name opened (u +:+ x) = true.
Proof.
  intros Hx. induction u as [|c u IH]; intros opened.
  - now apply marker_pair_mono.
  - change (String c u +:+ x) with (String c (u +:+ x)).
    cbn [marker_pair]. destruct (Ascii.eqb c newline); [apply IH |].
    rewrite IH. apply orb_true_r.
Qed.

(** An opening of the name with a closing pair after it on its line
    is seen. *)
Lemma closed_marker_found (name u lead trail rest w : string) :
  ordinary_name name = true ->
  inline_space lead = true -> inline_space trail = true ->
  one_line rest = true ->
  has_closed_marker name
    (u +:+ "{{" +:+ lead +:+ name +:+ trail +:+ "|" +:+ rest +:+ "}}" +:+ w)
  = true.
Proof.
  intros Hn Hl Ht Hr. unfold has_closed_marker.
  apply marker_pair_skip.
  pose proof (opens_invocation name lead trail (rest +:+ "}}" +:+ w) Hn
                (inline_space_is_space _ Hl) (inline_space_is_space _ Ht))
    as Ho.
  change ("{{" +:+ lead +:+ name +:+ trail +:+ "|" +:+ rest +:+ "}}" +:+ w)
    with (String lbrace
            (String lbrace
               (lead +:+ name +:+ trail +:+ "|" +:+ rest +:+ "}}" +:+ w)))
    in *.
  cbn [marker_pair]. change (Ascii.eqb lbrace newline) with false.
  cbv iota. rewrite Ho. cbn [andb orb].
  destruct (inline_space_free _ Hl) as (_ & _ & Hl1).
  destruct (inline_space_free _ Ht) as (_ & _ & Ht1).
  destruct (ordinary_name_free _ Hn) as (_ & _ & Hn1).
  pose proof (marker_pair_close name w
                (String lbrace (lead +:+ name +:+ trail +:+ "|" +:+ rest)))
    as Hc.
  change (String lbrace (lead +:+ name +:+ trail +:+ "|" +:+ rest)
          +:+ "}}" +:+ w)
    with (String lbrace
            ((lead +:+ name +:+ trail +:+ "|" +:+ rest) +:+ "}}" +:+ w))
    in Hc.
  rewrite !str_app_assoc in Hc. apply Hc.
  change (String lbrace (lead +:+ name +:+ trail +:+ "|" +:+ rest))
    with ("{" +:+ lead +:+ name +:+ trail +:+ "|" +:+ rest).
  now rewrite !one_line_app, Hl1, Hn1, Ht1, Hr.
Qed.

(** What follows a character other than the closing brace in a text
    that ends with a closing pair ends with that pair. *)
Lemma ends_with_close (c : ascii) (w : string) :
  Ascii.eqb rbrace c = false ->
  forall x y : string,
    x +:+ String c w = y +:+ "}}" -> exists rest, w = rest +:+ "}}".
Proof.
  intros Hc. induction x as [|d x IH]; intros y H.
  - simpl in H. destruct y as [|e y]; simpl in H.
    + injection H as -> _. discriminate.
    + injection H as _ H. now exists y.
  - change (String d x +:+ String c w) with (String d (x +:+ String c w)) in H.
    destruct y as [|e y]; simpl in H.
    + injection H as _ H. destruct x as [|d' x]; simpl in H.
      * injection H as -> _. discriminate.
      * injection H as _ H. destruct x; discriminate.
    + injection H as _ H. now apply (IH y).
Qed.

Lemma space_on_line (s : string) :
  str_forallb is_space s = true -> one_line s = true ->
  inline_space s = true.
Proof.
  unfold inline_space. induction s as [|c s IH]; [reflexivity |].
  cbn [str_forallb]. intros [Hc Hs]%andb_true_iff Hl.
  apply one_line_cons in Hl as [Hn Hl]. now rewrite Hc, Hn, IH.
Qed.

(** A match in which the extractor finds the name holds, on its one
    line, an opening of the name and ends with a closing pair. *)
Lemma search_invocation (name body : string) :
  one_line body = true ->
  re_search (name_re name) ("{{" +:+ body +:+ "}}") = true ->
  exists a lead trail rest,
    "{{" +:+ body +:+ "}}"
    = a +:+ "{{" +:+ lead +:+ name +:+ trail +:+ "|" +:+ rest +:+ "}}"
    /\ inline_space lead = true /\ inline_space trail = true
    /\ one_line rest = true.
Proof.
  intros Hb Hs.
  destruct (re_search_sound _ _ Hs) as (u & m & w & Heq & Hm).
  destruct (name_re_matches _ _ Hm) as (lead & trail & -> & Hl & Ht).
  destruct (ends_with_close pipe w eq_refl
              (u +:+ "{{" +:+ lead +:+ name +:+ trail) ("{{" +:+ body))
    as (rest & ->).
  { rewrite !str_app_assoc. rewrite !str_app_assoc in Heq.
    symmetry. exact Heq. }
  assert (Hline : one_line ("{{" +:+ body +:+ "}}") = true)
    by now rewrite !one_line_app, Hb.
  rewrite Heq, !str_app_assoc, !one_line_app in Hline.
  repeat (apply andb_true_iff in Hline as [? Hline]).
  exists u, lead, trail, rest.
  split; [now rewrite Heq, !str_app_assoc |].
  repeat split; try assumption; apply space_on_line;
    repeat match goal with
           | H : _ && _ = true |- _ => apply andb_true_iff in H as [? ?]
           end; assumption.
Qed.

Lemma old_page_no_fragment (E : env) (text : string) :
  grab_template_data flagged text = [] -> old_page E text = Ok false.
Proof. intros H. unfold old_page. now rewrite H. Qed.

(** Every fragment comes from an opening of the name that has a
    closing pair after it on its line. *)
Lemma fragment_of_closed_marker (name text f : string) :
  ordinary_name name = true ->
  In f (grab_template_data name text) ->
  exists u a lead trail rest w,
    text
    = u +:+ (a +:+ "{{" +:+ lead +:+ name +:+ trail +:+ "|" +:+ rest +:+ "}}")
      +:+ w
    /\ one_line a = true /\ inline_space lead = true
    /\ inline_space trail = true /\ one_line rest = true
    /\ f = grab_template_info name
             (a +:+ "{{" +:+ lead +:+ name +:+ trail +:+ "|" +:+ rest
              +:+ "}}").
Proof.
  intros Hn Hf. apply grab_loop_hit in Hf as (t & Ht & Hs & ->).
  apply findall_template_shape in Ht as (u & body & w & -> & -> & Hb).
  assert (Hl : one_line body = true)
    by (unfold one_line; now rewrite Hb).
  destruct (search_invocation name body Hl Hs)
    as (a & lead & trail & rest & Heq & Hlead & Htrail & Hrest).
  assert (Ha : one_line a = true).
  { assert (H : one_line ("{{" +:+ body +:+ "}}") = true)
      by now rewrite !one_line_app, Hl.
    rewrite Heq, one_line_app in H. now apply andb_true_iff in H as [H _]. }
  exists u, a, lead, trail, rest, w. rewrite Heq. auto 10.
Qed.

(** C10 (amended): the extractor returns a fragment only for an
    opening of the template ("{{", white space, the name, white
    space, a pipe) that has a closing pair after it on its line.
    Every match of [re.findall] is a piece of one line between double
    braces; every fragment comes from such a piece that holds the
    opening and holds no line feed; a page none of whose lines holds
    an opening of the template with a closing pair after it yields no
    fragment, and such a page is not eligible. *)
Theorem marker_needs_closing_pair_on_its_line (E : env) (name text : string) :
  ordinary_name name = true ->
  (forall t, In t (re_findall template_re text) ->
     exists u body w,
       text = u +:+ t +:+ w /\ t = "{{" +:+ body +:+ "}}"
       /\ str_mem newline body = false)
  /\ (forall f, In f (grab_template_data name text) ->
        str_mem newline f = false
        /\ exists u a lead trail rest w,
             text
             = u +:+ (a +:+ "{{" +:+ lead +:+ name +:+ trail +:+ "|"
                      +:+ rest +:+ "}}") +:+ w
             /\ one_line a = true /\ inline_space lead = true
             /\ inline_space trail = true /\ one_line rest = true
             /\ f = grab_template_info name
                      (a +:+ "{{" +:+ lead +:+ name +:+ trail +:+ "|"
                       +:+ rest +:+ "}}"))
  /\ (has_closed_marker name text = false ->
        grab_template_data name text = [])
  /\ (has_closed_marker flagged text = false -> old_page E text = Ok false).
Proof.
  intros Hn.
  assert (Hnone : forall n, ordinary_name n = true ->
            has_closed_marker n text = false ->
            grab_template_data n text = []).
  { intros n Hn' Hno.
    destruct (grab_template_data n text) as [|f fs] eqn:Hg;
      [reflexivity | exfalso].
    destruct (fragment_of_closed_marker n text f Hn')
      as (u & a & lead & trail & rest & w & Heq & _ & Hl & Ht & Hr & _).
    { rewrite Hg. now left. }
    rewrite Heq, <- !str_app_assoc in Hno.
    rewrite (str_app_assoc _ "{{"), !str_app_assoc in Hno.
    rewrite <- (str_app_assoc u a) in Hno.
    now rewrite (closed_marker_found n (u +:+ a) lead trail rest w
                   Hn' Hl Ht Hr) in Hno. }
  split; [apply findall_template_shape | split; [|split]].
  - intros f Hf. split; [|now apply fragment_of_closed_marker].
    apply grab_loop_hit in Hf as (t & Ht & _ & ->).
    apply findall_template_shape in Ht as (_ & body & _ & _ & -> & Hb).
    apply negb_true_iff. rewrite <- not_newline_mem.
    apply grab_template_info_forallb.
    rewrite !str_forallb_app, (not_newline_mem body), Hb. reflexivity.
  - now apply Hnone.
  - intros H. apply old_page_no_fragment. now apply Hnone.
Qed.

(** ** Rewriting the marker *)

Lemma escape_cons (c : ascii) (s : string) :
  str_replace "|" (String backslash "|") (String c s)
  = (if Ascii.eqb pipe c then String backslash "|" else str1 c)
    +:+ str_replace "|" (String backslash "|") s.
Proof.
  unfold str_replace, re_sub. cbn [sub_from]. unfold match_at. simpl rmatch.
  destruct (Ascii.eqb pipe c); [|reflexivity].
  replace (String.length (String c s) - String.length s)%nat with 1%nat
    by (simpl; lia).
  reflexivity.
Qed.

Lemma compile_escape (p : string) :
  forall s : string,
    str_forallb pattern_safe s = true ->
    re_compile (str_replace "|" (String backslash "|") s +:+ p)
    = option_map (pat s) (re_compile p).
Proof.
  induction s as [|c s IH]; intros Hs.
  - simpl. now destruct (re_compile p).
  - cbn [str_forallb] in Hs. apply andb_true_iff in Hs as [Hc Hs].
    rewrite escape_cons, str_app_assoc.
    destruct (Ascii.eqb_spec pipe c) as [<-|Hp].
    + simpl. rewrite (IH Hs). now destruct (re_compile p).
    + unfold pattern_safe in Hc. simpl in Hc.
      rewrite !negb_orb, !andb_true_iff, !negb_true_iff in Hc.
      destruct Hc as (H1 & H2 & H3 & H4 & H5 & H6 & H7 & H8 & H9 & H10 & _).
      simpl "+:+". cbn [re_compile]. unfold special. cbn [str_mem].
      rewrite H1, H2, H3, H4, H5, H6, H7, H8, H9, H10.
      apply Ascii.eqb_neq in Hp. rewrite Ascii.eqb_sym in Hp. rewrite Hp.
      simpl. rewrite (IH Hs). unfold atom.
      destruct (Ascii.eqb c "."); now destruct (re_compile p).
Qed.

Lemma compile_open (X : string) :
  stops count_start X = true ->
  re_compile (String lbrace X)
  = option_map (Seq (Chr lbrace)) (re_compile X).
Proof.
  intros H. destruct X as [|d X]; [reflexivity |].
  simpl in H. apply negb_true_iff in H. unfold count_start in H.
  cbn [re_compile]. simpl Ascii.eqb. cbv iota. now rewrite H.
Qed.

Lemma compile_marker (mid : string) :
  str_forallb pattern_safe mid = true ->
  stops count_start mid = true ->
  re_compile
    (str_replace "|" (String backslash "|") ("{{" +:+ mid +:+ "}}"))
  = Some (marker_re mid).
Proof.
  intros Hs Hh.
  change ("{{" +:+ mid +:+ "}}")
    with (String lbrace (String lbrace (mid +:+ "}}"))).
  rewrite !escape_cons.
  change (re_compile
            (String lbrace
               (String lbrace
                  (str_replace "|" (String backslash "|") (mid +:+ "}}"))))
          = Some (marker_re mid)).
  assert (Hmid :
    re_compile (str_replace "|" (String backslash "|") (mid +:+ "}}"))
    = Some (pat (mid +:+ "}}") Eps)).
  { rewrite <- (str_app_nil_r (str_replace _ _ _)).
    rewrite compile_escape; [reflexivity |].
    rewrite str_forallb_app, Hs. reflexivity. }
  assert (Hhead :
    stops count_start
      (str_replace "|" (String backslash "|") (mid +:+ "}}")) = true).
  { destruct mid as [|c mid]; [reflexivity |].
    change (String c mid +:+ "}}") with (String c (mid +:+ "}}")).
    rewrite escape_cons. simpl in Hh.
    destruct (Ascii.eqb pipe c); [reflexivity | exact Hh]. }
  rewrite compile_open by reflexivity.
  rewrite compile_open by assumption.
  now rewrite Hmid.
Qed.

Lemma marker_re_starts_open (mid : string) : starts_open (marker_re mid).
Proof. intros c s H. unfold match_at. simpl. now rewrite H. Qed.

(** ** The replacement marker *)

Lemma digit_char_mod (n : Z) : date_char (digit_char (n mod 10)) = true.
Proof.
  assert (H : 0 <= n mod 10 < 10) by (apply Z.mod_pos_bound; lia).
  remember (n mod 10) as r eqn:Hr'. clear Hr'.
  assert (Hr : r = 0 \/ r = 1 \/ r = 2 \/ r = 3 \/ r = 4 \/ r = 5
               \/ r = 6 \/ r = 7 \/ r = 8 \/ r = 9) by lia.
  clear H. repeat (destruct Hr as [Hr|Hr]; [now subst |]). now subst.
Qed.

Lemma decimal_digits_chars (fuel : nat) :
  forall (n : Z) (acc : string),
    str_forallb date_char acc = true ->
    str_forallb date_char (decimal_digits fuel n acc) = true.
Proof.
  induction fuel as [|fuel IH]; intros n acc Hacc; simpl; [assumption |].
  destruct (n / 10 =? 0); [|apply IH];
    cbn [str_forallb]; rewrite digit_char_mod; exact Hacc.
Qed.

Lemma month_name_chars (m : Z) : str_forallb date_char (month_name m) = true.
Proof.
  unfold month_name.
  destruct (Z.to_nat (m - 1)) as [|[|[|[|[|[|[|[|[|[|[|[|[|?]]]]]]]]]]]]];
    reflexivity.
Qed.

Lemma format_date_chars (t : datetime) :
  str_forallb date_char (format_date t) = true.
Proof.
  unfold format_date. destruct (ord2ymd _) as [[y m] d].
  rewrite !str_forallb_app, month_name_chars. unfold two_digits, decimal.
  rewrite decimal_digits_chars by reflexivity.
  simpl. now rewrite !digit_char_mod.
Qed.

Lemma archived_marker_inside (E : env) :
  archived_marker E = "{{" +:+ archived_body E +:+ "}}"
  /\ open_free (archived_body E) = true
  /\ close_free (archived_body E) = true
  /\ one_line (archived_body E) = true
  /\ re_search (name_re flagged) (archived_marker E) = false.
Proof.
  pose proof (format_date_chars (naive (now E))) as Hd.
  set (D := format_date (naive (now E))) in *.
  assert (Ho : open_free D = true)
    by (unfold open_free; now rewrite (class_excludes date_char lbrace D)).
  assert (Hc : close_free D = true)
    by (unfold close_free; now rewrite (class_excludes date_char rbrace D)).
  assert (Hl : one_line D = true)
    by (unfold one_line; now rewrite (class_excludes date_char newline D)).
  unfold archived_marker, archived_body. fold D.
  split; [reflexivity |].
  rewrite open_free_app, close_free_app, one_line_app, Ho, Hc, Hl.
  repeat split.
  change ("{{Archived|date=" +:+ D +:+ "}}")
    with (String lbrace (String lbrace ("Archived|date=" +:+ D +:+ "}}"))).
  cbn [re_search].
  change (match_at (name_re flagged)
            (String lbrace (String lbrace ("Archived|date=" +:+ D +:+ "}}"))))
    with (@None string).
  change (match_at (name_re flagged)
            (String lbrace ("Archived|date=" +:+ D +:+ "}}")))
    with (@None string).
  cbv iota.
  apply (search_open_free _ (name_re_starts_open flagged) eq_refl).
  rewrite !open_free_app, Ho. reflexivity.
Qed.

Lemma space_is_safe (c : ascii) :
  is_space c && not_newline c = true -> pattern_safe c = true.
Proof.
  destruct c as [[] [] [] [] [] [] [] []]; vm_compute; auto.
Qed.

Lemma update_template_eq (E : env) (text : string) (w : world) :
  update_template E text w
  = (update_template_loop E (parse_template flagged text) text,
     {| pages := pages w;
        output := output w ++ [Printed "Updating page's template..."] |}).
Proof. reflexivity. Qed.

Lemma flagged_inside (lead trail args : string) :
  inline_space lead = true -> inline_space trail = true ->
  str_forallb pattern_safe args = true ->
  str_forallb pattern_safe (lead +:+ flagged +:+ trail +:+ "|" +:+ args) = true
  /\ stops count_start (lead +:+ flagged +:+ trail +:+ "|" +:+ args) = true.
Proof.
  intros Hl Ht Ha. split.
  - rewrite !str_forallb_app, Ha.
    rewrite (str_forallb_impl _ _ lead space_is_safe Hl).
    rewrite (str_forallb_impl _ _ trail space_is_safe Ht). reflexivity.
  - destruct lead as [|c lead]; [reflexivity |]. simpl.
    cbn [inline_space str_forallb] in Hl.
    apply andb_true_iff in Hl as [Hc _]. revert Hc.
    destruct c as [[] [] [] [] [] [] [] []]; vm_compute; auto.
Qed.

(** ** The pattern of a marker on a page *)

Lemma rmatch_atom (c d : ascii) (k : string -> option string) (s : string) :
  rmatch (atom c) k (String d s) = if atom_reads c d then k s else None.
Proof. unfold atom, atom_reads. now destruct (Ascii.eqb c "."). Qed.

Lemma rmatch_atom_end (c : ascii) (k : string -> option string) :
  rmatch (atom c) k "" = None.
Proof. unfold atom. now destruct (Ascii.eqb c "."). Qed.

Lemma pat_close (s : string) : pat (s +:+ "}}") Eps = pat s (lit "}}").
Proof.
  induction s as [|c s IH]; [reflexivity |]. cbn [pat]. now rewrite <- IH.
Qed.

(** No character of a one-line pattern matches a line feed. *)
Lemma atom_reads_newline (c d : ascii) :
  not_newline c = true -> not_newline d = false ->
  atom_reads c d = false.
Proof.
  intros Hc Hd. unfold atom_reads, not_newline in *.
  apply negb_false_iff, Ascii.eqb_eq in Hd. subst d.
  apply negb_true_iff in Hc.
  now destruct (Ascii.eqb c ".").
Qed.

(** Where a line goes on without closing brace, no closing pair
    starts. *)
Lemma close_miss_line (k : string -> option string) (t a r : string) :
  close_free a = true -> stops not_newline r = true ->
  rmatch (lit (String rbrace t)) k (a +:+ r) = None.
Proof.
  intros Ha Hr. destruct a as [|c a].
  - destruct r as [|d r]; [reflexivity |].
    simpl in Hr. apply negb_true_iff in Hr. unfold not_newline in Hr.
    apply negb_false_iff, Ascii.eqb_eq in Hr. subst d. reflexivity.
  - apply close_free_cons in Ha as [Hc _].
    now apply rmatch_lit_miss.
Qed.

(** A one-line pattern that ends with a closing pair finds nothing in
    the rest of a line that holds no closing brace. *)
Lemma pat_line_miss (k : string -> option string) (r : string) :
  stops not_newline r = true ->
  forall s a : string,
    one_line s = true -> close_free a = true ->
    rmatch (pat s (lit "}}")) k (a +:+ r) = None.
Proof.
  intros Hr. induction s as [|m s IH]; intros a Hs Ha.
  - now apply close_miss_line.
  - apply one_line_cons in Hs as [Hm Hs]. cbn [pat]. rewrite rmatch_seq.
    destruct a as [|c a].
    + destruct r as [|d r]; [apply rmatch_atom_end |].
      simpl in Hr. apply negb_true_iff in Hr.
      change ("" +:+ String d r) with (String d r).
      now rewrite rmatch_atom, (atom_reads_newline m d Hm Hr).
    + apply close_free_cons in Ha as [_ Ha].
      change (String c a +:+ r) with (String c (a +:+ r)).
      rewrite rmatch_atom. destruct (atom_reads m c); [|reflexivity].
      now apply IH.
Qed.

(** The pattern of a marker, matched against a construct that is
    followed by the rest of its line: it matches when it reads the
    inside of the construct, and not otherwise. *)
Lemma pat_construct (k : string -> option string) (a r : string) :
  close_free a = true -> stops not_newline r = true ->
  forall mid body : string,
    close_free mid = true -> one_line mid = true ->
    close_free body = true ->
    rmatch (pat mid (lit "}}")) k (body +:+ "}}" +:+ a +:+ r)
    = if pat_reads mid body then k (a +:+ r) else None.
Proof.
  intros Ha Hr. induction mid as [|m mid IH]; intros body Hmc Hml Hb.
  - destruct body as [|c body]; [reflexivity |].
    apply close_free_cons in Hb as [Hc _].
    now apply rmatch_lit_miss.
  - apply close_free_cons in Hmc as [Hm Hmc].
    apply one_line_cons in Hml as [Hn Hml].
    cbn [pat]. rewrite rmatch_seq. destruct body as [|c body].
    + change ("" +:+ "}}" +:+ a +:+ r)
        with (String rbrace (String rbrace (a +:+ r))).
      rewrite rmatch_atom. cbn [pat_reads].
      destruct (atom_reads m rbrace); [|reflexivity].
      destruct mid as [|m' mid].
      * exact (close_miss_line k "" a r Ha Hr).
      * apply close_free_cons in Hmc as [Hm' Hmc].
        apply one_line_cons in Hml as [Hn' Hml].
        cbn [pat]. rewrite rmatch_seq, rmatch_atom.
        destruct (atom_reads m' rbrace); [|reflexivity].
        now apply pat_line_miss.
    + apply close_free_cons in Hb as [_ Hb].
      change (String c body +:+ "}}" +:+ a +:+ r)
        with (String c (body +:+ "}}" +:+ a +:+ r)).
      rewrite rmatch_atom. cbn [pat_reads].
      destruct (atom_reads m c); [|reflexivity].
      now apply IH.
Qed.

Lemma marker_re_construct (mid body a r : string) :
  close_free mid = true -> one_line mid = true ->
  close_free body = true ->
  close_free a = true -> stops not_newline r = true ->
  match_at (marker_re mid) ("{{" +:+ body +:+ "}}" +:+ a +:+ r)
  = if pat_reads mid body then Some (a +:+ r) else None.
Proof.
  intros Hmc Hml Hb Ha Hr. unfold match_at, marker_re.
  rewrite pat_close.
  change ("{{" +:+ body +:+ "}}" +:+ a +:+ r)
    with (String lbrace (String lbrace (body +:+ "}}" +:+ a +:+ r))).
  cbn [rmatch]. simpl Ascii.eqb. cbv iota.
  now apply pat_construct.
Qed.

Lemma pat_reads_refl (s : string) : pat_reads s s = true.
Proof.
  induction s as [|c s IH]; [reflexivity |].
  cbn [pat_reads]. rewrite IH, andb_true_r. unfold atom_reads.
  destruct (Ascii.eqb_spec c "."); [now subst | apply Ascii.eqb_refl].
Qed.

(** What a pattern reads starts with the pattern's literal start. *)
Lemma pat_reads_prefix (s : string) :
  forall p t : string,
    str_mem "."%char p = false ->
    pat_reads (p +:+ s) t = true -> exists t', t = p +:+ t'.
Proof.
  induction p as [|c p IH]; intros t Hp H; [now exists t |].
  simpl in Hp. apply orb_false_iff in Hp as [Hc Hp].
  destruct t as [|d t]; [discriminate |].
  change (String c p +:+ s) with (String c (p +:+ s)) in H.
  cbn [pat_reads] in H. apply andb_true_iff in H as [Hd H].
  unfold atom_reads in Hd. rewrite Ascii.eqb_sym, Hc in Hd.
  apply Ascii.eqb_eq in Hd. subst d.
  destruct (IH t Hp H) as (t' & ->). now exists t'.
Qed.

(** The pattern of a marker, applied where a construct starts: the
    construct is replaced when the pattern reads its inside and
    passed over otherwise; the scan goes on after the line. *)
Lemma sub_construct (repl mid body a r : string) :
  close_free mid = true -> one_line mid = true ->
  open_free body = true -> close_free body = true ->
  open_free a = true -> close_free a = true ->
  stops not_newline r = true ->
  sub_from (marker_re mid) repl 0 ("{{" +:+ body +:+ "}}" +:+ a +:+ r)
  = (if pat_reads mid body then repl else "{{" +:+ body +:+ "}}")
    +:+ a +:+ sub_from (marker_re mid) repl 0 r.
Proof.
  intros Hmc Hml Hbo Hbc Hao Hac Hr.
  pose proof (marker_re_construct mid body a r Hmc Hml Hbc Hac Hr) as Hm.
  destruct (pat_reads mid body).
  - replace ("{{" +:+ body +:+ "}}" +:+ a +:+ r)
      with (String lbrace (String lbrace (body +:+ "}}")) +:+ (a +:+ r)) in *
      by (simpl; now rewrite !str_app_assoc).
    rewrite (sub_step _ _ _ _ _ Hm).
    now rewrite (sub_open_free _ _ _ (marker_re_starts_open mid) a Hao).
  - assert (H1 : match_at (marker_re mid)
                   (String lbrace (body +:+ "}}" +:+ a +:+ r)) = None).
    { unfold match_at, marker_re. cbn [rmatch]. simpl Ascii.eqb. cbv iota.
      destruct body as [|d body]; [reflexivity |].
      apply open_free_cons in Hbo as [Hd _]. simpl. now rewrite Hd. }
    change ("{{" +:+ body +:+ "}}" +:+ a +:+ r)
      with (String lbrace (String lbrace (body +:+ "}}" +:+ a +:+ r))) in *.
    cbn [sub_from]. rewrite Hm, H1.
    replace (body +:+ "}}" +:+ a +:+ r) with ((body +:+ "}}" +:+ a) +:+ r)
      by now rewrite !str_app_assoc.
    rewrite (sub_open_free _ _ _ (marker_re_starts_open mid)
               (body +:+ "}}" +:+ a))
      by (rewrite !open_free_app, Hbo, Hao; reflexivity).
    simpl. now rewrite !str_app_assoc.
Qed.

Lemma invocation_inside (name lead trail args : string) :
  invocation name lead trail args
  = "{{" +:+ inside name lead trail args +:+ "}}".
Proof. unfold invocation, inside. now rewrite !str_app_assoc. Qed.

Lemma construct_text_body (name : string) (c : construct) :
  construct_text name c = "{{" +:+ construct_body name c +:+ "}}".
Proof. destruct c; [apply invocation_inside | reflexivity]. Qed.

Lemma archived_construct_ok (E : env) :
  construct_ok flagged (Other (archived_body E)) = true
  /\ open_free (archived_body E) = true.
Proof.
  destruct (archived_marker_inside E) as (_ & Ho & Hc & Hl & Hs).
  cbn [construct_ok].
  change ("{{" +:+ archived_body E +:+ "}}") with (archived_marker E).
  now rewrite Ho, Hc, Hl, Hs.
Qed.

(** The inside of a marker or of a construct without brace. *)
Lemma construct_flat (c : construct) (after : string) :
  construct_ok flagged c = true -> rewritable (c, after) = true ->
  open_free (construct_body flagged c) = true
  /\ close_free (construct_body flagged c) = true.
Proof.
  intros Hc Hr. destruct c as [lead trail args|body].
  - apply marker_ok in Hc as (Hl & Ht & Hao & Hac & Hal).
    destruct (marker_body_free flagged lead trail args eq_refl Hl Ht Hac Hal)
      as [Hbc _].
    destruct (inline_space_free _ Hl) as (Hl1 & _).
    destruct (inline_space_free _ Ht) as (Ht1 & _).
    cbn [construct_body]. unfold inside.
    rewrite !open_free_app, Hl1, Ht1, Hao. auto.
  - apply other_ok in Hc as (Hbc & _). auto.
Qed.

Lemma items_ok_cons (name : string) (c : construct) (after : string)
    (items : list (construct * string)) :
  items_ok name ((c, after) :: items) = true ->
  construct_ok name c = true
  /\ open_free after = true /\ close_free after = true
  /\ match items with [] => true | _ :: _ => negb (one_line after) end = true
  /\ items_ok name items = true.
Proof.
  cbn [items_ok]. intros H.
  apply andb_true_iff in H as [H H5]. apply andb_true_iff in H as [H H4].
  apply andb_true_iff in H as [H H3]. apply andb_true_iff in H as [H1 H2].
  auto.
Qed.

Lemma items_ok_In (name : string) (c : construct) (after : string) :
  forall items : list (construct * string),
    items_ok name items = true -> In (c, after) items ->
    construct_ok name c = true.
Proof.
  induction items as [|[c' after'] items IH]; intros Hok Hin; [destruct Hin |].
  apply items_ok_cons in Hok as (Hc & _ & _ & _ & Hrest).
  destruct Hin as [[= -> ->]|Hin]; [assumption | now apply IH].
Qed.

Lemma swap_cases (E : env) (mid : string) (item : construct * string) :
  swap E mid item = item
  \/ swap E mid item = (Other (archived_body E), item.2).
Proof.
  unfold swap. destruct item as [[lead trail args|body] after]; cbn [fst snd];
    [destruct (pat_reads mid _) |]; auto.
Qed.

Lemma archive_cases (E : env) (item : construct * string) :
  archive E item = item \/ archive E item = (Other (archived_body E), item.2).
Proof.
  unfold archive. destruct item as [[lead trail args|body] after]; auto.
Qed.

Lemma archive_swap (E : env) (mid : string) (item : construct * string) :
  archive E (swap E mid item) = archive E item.
Proof.
  unfold swap. destruct item as [[lead trail args|body] after]; cbn [fst snd];
    [destruct (pat_reads mid _) |]; reflexivity.
Qed.

(** Putting the Archived marker in the place of constructs keeps the
    page well formed. *)
Lemma rewritten_ok (E : env) (f : construct * string -> construct * string) :
  (forall item,
     f item = item \/ f item = (Other (archived_body E), item.2)) ->
  forall items : list (construct * string),
    items_ok flagged items = true -> forallb rewritable items = true ->
    items_ok flagged (map f items) = true
    /\ forallb rewritable (map f items) = true.
Proof.
  intros Hf. induction items as [|[c after] items IH]; intros Hok Hrw; [auto |].
  apply items_ok_cons in Hok as (Hc & Hao & Hac & Hsep & Hrest).
  cbn [forallb] in Hrw. apply andb_true_iff in Hrw as [Hr Hrw].
  destruct (IH Hrest Hrw) as [IH1 IH2].
  destruct (archived_construct_ok E) as [Hk Hko].
  assert (Hsep' : match map f items with
                  | [] => true
                  | _ :: _ => negb (one_line after)
                  end = true) by now destruct items.
  cbn [map]. destruct (Hf (c, after)) as [-> | ->];
    cbn [items_ok forallb snd]; rewrite Hao, Hac, Hsep', IH1, IH2.
  - now rewrite Hc, Hr.
  - unfold rewritable at 1. cbn [fst]. now rewrite Hk, Hko.
Qed.

(** The pattern of a Flagged marker reads no construct that is not a
    Flagged invocation. *)
Lemma other_not_read (lead trail args body : string) :
  inline_space lead = true -> inline_space trail = true ->
  re_search (name_re flagged) ("{{" +:+ body +:+ "}}") = false ->
  pat_reads (inside flagged lead trail args) body = false.
Proof.
  intros Hl Ht Hs. destruct (pat_reads _ body) eqn:H; [|reflexivity].
  unfold inside in H.
  replace (lead +:+ flagged +:+ trail +:+ "|" +:+ args)
    with ((lead +:+ flagged +:+ trail +:+ "|") +:+ args) in H
    by now rewrite !str_app_assoc.
  apply pat_reads_prefix in H as (t' & ->).
  - pose proof (name_match flagged lead trail (t' +:+ "}}") eq_refl Hl Ht)
      as Hm.
    apply re_search_hit in Hm. rewrite !str_app_assoc in Hs.
    rewrite Hm in Hs. discriminate.
  - rewrite !str_mem_app.
    rewrite (class_excludes _ "."%char lead eq_refl Hl).
    rewrite (class_excludes _ "."%char trail eq_refl Ht). reflexivity.
Qed.

(** One substitution with the pattern of a marker rewrites the
    markers that the pattern reads and nothing else. *)
Lemma sub_items (E : env) (lead trail args : string) :
  construct_ok flagged (Marker lead trail args) = true ->
  forall items : list (construct * string),
    items_ok flagged items = true -> forallb rewritable items = true ->
    sub_from (marker_re (inside flagged lead trail args))
      (archived_marker E) 0 (page_items flagged items)
    = page_items flagged
        (map (swap E (inside flagged lead trail args)) items).
Proof.
  intros Hk. set (mid := inside flagged lead trail args).
  apply marker_ok in Hk as (Hl & Ht & _ & Hkc & Hkl).
  destruct (marker_body_free flagged lead trail args eq_refl Hl Ht Hkc Hkl)
    as [Hmc Hml].
  fold (inside flagged lead trail args) in Hmc, Hml. fold mid in Hmc, Hml.
  induction items as [|[c after] items IH]; intros Hok Hrw; [reflexivity |].
  apply items_ok_cons in Hok as (Hc & Hao & Hac & Hsep & Hrest).
  cbn [forallb] in Hrw. apply andb_true_iff in Hrw as [Hr Hrw].
  destruct (construct_flat c after Hc Hr) as [Hbo Hbc].
  destruct (next_line flagged after items Hsep) as (a & r & -> & Ha & Hstop).
  rewrite open_free_app, andb_true_iff in Hao. destruct Hao as [Hao Hro].
  rewrite close_free_app, andb_true_iff in Hac. destruct Hac as [Hac _].
  cbn [page_items map]. rewrite construct_text_body, !str_app_assoc.
  rewrite (sub_construct _ mid _ a _ Hmc Hml Hbo Hbc Hao Hac Hstop).
  rewrite (sub_open_free _ _ _ (marker_re_starts_open mid) r Hro).
  rewrite (IH Hrest Hrw).
  assert (Hhead :
    swap E mid (c, a +:+ r)
    = (if pat_reads mid (construct_body flagged c)
       then Other (archived_body E) else c, a +:+ r)).
  { unfold swap. cbn [fst snd].
    destruct c as [l t ar|body]; cbn [construct_body];
      [now destruct (pat_reads mid _) |].
    apply other_ok in Hc as (_ & _ & Hc).
    unfold mid. now rewrite (other_not_read lead trail args body Hl Ht Hc). }
  rewrite Hhead. cbn [page_items].
  destruct (pat_reads mid _).
  - change (construct_text flagged (Other (archived_body E)))
      with (archived_marker E).
    now rewrite !str_app_assoc.
  - now rewrite construct_text_body, !str_app_assoc.
Qed.

Lemma archive_no_marker (E : env) :
  forall items : list (construct * string),
    (forall lead trail args after,
       ~ In (Marker lead trail args, after) items) ->
    map (archive E) items = items.
Proof.
  induction items as [|[c after] items IH]; intros H; [reflexivity |].
  cbn [map]. rewrite IH
    by (intros l t a af Hin; apply (H l t a af); now right).
  destruct c as [lead trail args|body]; [|reflexivity].
  exfalso. apply (H lead trail args after). now left.
Qed.

Lemma fragments_archived (E : env) (items : list (construct * string)) :
  fragments (map (archive E) items) = [].
Proof.
  induction items as [|[[lead trail args|body] after] items IH];
    [reflexivity | exact IH | exact IH].
Qed.

(** The loop of [update_template] over marker texts that cover the
    markers of the page rewrites every marker. *)
Lemma rewrite_items (E : env) (before : string) :
  open_free before = true ->
  forall (ts : list string) (items : list (construct * string)),
    items_ok flagged items = true -> forallb rewritable items = true ->
    (forall lead trail args after,
       In (Marker lead trail args, after) items ->
       In (invocation flagged lead trail args) ts) ->
    (forall t, In t ts ->
       exists lead trail args,
         t = invocation flagged lead trail args
         /\ construct_ok flagged (Marker lead trail args) = true
         /\ str_forallb pattern_safe args = true) ->
    update_template_loop E ts (before +:+ page_items flagged items)
    = Ok (before +:+ page_items flagged (map (archive E) items)).
Proof.
  intros Hb. induction ts as [|t ts IH]; intros items Hok Hrw Hin Hts.
  - cbn [update_template_loop]. rewrite archive_no_marker; [reflexivity |].
    intros lead trail args after H. exact (Hin _ _ _ _ H).
  - destruct (Hts t (or_introl eq_refl))
      as (lead & trail & args & -> & Hk & Hs).
    destruct (marker_ok _ _ _ _ Hk) as (Hl & Ht & _).
    destruct (flagged_inside lead trail args Hl Ht Hs) as [Hms Hmh].
    fold (inside flagged lead trail args) in Hms, Hmh.
    set (mid := inside flagged lead trail args) in *.
    cbn [update_template_loop]. unfold re_sub_text.
    rewrite invocation_inside. fold mid.
    rewrite (compile_marker mid Hms Hmh).
    cbn [rbind]. unfold re_sub.
    rewrite (sub_open_free _ _ _ (marker_re_starts_open mid) before Hb).
    unfold mid at 1.
    rewrite (sub_items E lead trail args Hk items Hok Hrw). fold mid.
    destruct (rewritten_ok E (swap E mid) (swap_cases E mid) items Hok Hrw)
      as [Hok' Hrw'].
    rewrite (IH _ Hok' Hrw').
    + rewrite map_map. do 3 f_equal. apply map_ext.
      intros item. apply archive_swap.
    + intros l' t' a' after Hmem.
      apply in_map_iff in Hmem as (item & Hsw & Hitem).
      unfold swap in Hsw. destruct item as [[l t a|b] af];
        cbn [fst snd] in Hsw; [|discriminate].
      destruct (pat_reads mid (inside flagged l t a)) eqn:Hread;
        [discriminate |].
      injection Hsw as -> -> -> ->.
      destruct (Hin _ _ _ _ Hitem) as [Heq|Hin']; [|assumption].
      rewrite !invocation_inside in Heq. injection Heq as Heq.
      apply str_app_inv_tail in Heq. fold mid in Heq.
      rewrite <- Heq, pat_reads_refl in Hread. discriminate.
    + intros t' Ht'. apply Hts. now right.
Qed.

(** C8 (amended): on a page where every brace-delimited construct has
    a line of its own and holds no brace, and the arguments of the
    Flagged invocations are safe in a pattern, the rewrite puts the
    Archived marker in the place of every Flagged invocation and
    leaves the rest of the page as it was, and Flagged extraction on
    the rewritten text finds nothing. *)
Theorem rewrite_leaves_no_flagged_marker (E : env) (w : world)
    (before : string) (items : list (construct * string)) :
  open_free before = true ->
  items_ok flagged items = true ->
  forallb rewritable items = true ->
  update_template E (page_of flagged before items) w
  = (Ok (page_of flagged before (map (archive E) items)),
     logged w (Printed "Updating page's template..."))
  /\ grab_template_data flagged
       (page_of flagged before (map (archive E) items)) = []
  /\ construct_text flagged (Other (archived_body E)) = archived_marker E.
Proof.
  intros Hb Hok Hrw. split; [|split; [|reflexivity]].
  - rewrite update_template_eq. unfold logged, page_of. f_equal.
    unfold parse_template, re_findall.
    rewrite (find_items flagged eq_refl items before Hok Hb).
    apply (rewrite_items E before Hb); try assumption.
    + intros lead trail args after Hin. apply List.filter_In. split.
      * apply in_map_iff. now exists (Marker lead trail args, after).
      * destruct (marker_ok _ _ _ _ (items_ok_In _ _ _ _ Hok Hin))
          as (Hl & Ht & _).
        now apply marker_search.
    + intros t Ht. apply List.filter_In in Ht as [Ht Hs].
      apply in_map_iff in Ht as ([c after] & <- & Hin).
      pose proof (items_ok_In _ _ _ _ Hok Hin) as Hc.
      pose proof (proj1 (forallb_forall _ _) Hrw _ Hin) as Hr.
      destruct c as [lead trail args|body]; cbn [fst construct_text] in *.
      * now exists lead, trail, args.
      * apply other_ok in Hc as (_ & _ & Hc). rewrite Hs in Hc. discriminate.
  - unfold grab_template_data, re_findall, page_of.
    destruct (rewritten_ok E (archive E) (archive_cases E) items Hok Hrw)
      as [Hok' _].
    rewrite (find_items flagged eq_refl _ before Hok' Hb).
    rewrite (grab_items flagged eq_refl _ Hok').
    apply fragments_archived.
Qed.

(** ** What is left of a fragment once its label is stripped *)

Lemma str_rev_onto_app (s : string) :
  forall acc : string, str_rev_onto s acc = str_rev s +:+ acc.
Proof.
  unfold str_rev. induction s as [|c s IH]; intros acc; [reflexivity |].
  cbn [str_rev_onto]. rewrite (IH (String c acc)), (IH (String c "")).
  now rewrite str_app_assoc.
Qed.

Lemma str_rev_cons (c : ascii) (s : string) :
  str_rev (String c s) = str_rev s +:+ str1 c.
Proof. unfold str_rev at 1. cbn [str_rev_onto]. apply str_rev_onto_app. Qed.

Lemma str_rev_app (a b : string) : str_rev (a +:+ b) = str_rev b +:+ str_rev a.
Proof.
  induction a as [|c a IH].
  - simpl. now rewrite str_app_nil_r.
  - change (String c a +:+ b) with (String c (a +:+ b)).
    now rewrite !str_rev_cons, IH, str_app_assoc.
Qed.

Lemma str_rev_involutive (s : string) : str_rev (str_rev s) = s.
Proof.
  induction s as [|c s IH]; [reflexivity |].
  now rewrite str_rev_cons, str_rev_app, IH.
Qed.

Lemma str_forallb_rev (f : ascii -> bool) (s : string) :
  str_forallb f (str_rev s) = str_forallb f s.
Proof.
  induction s as [|c s IH]; [reflexivity |].
  rewrite str_rev_cons, str_forallb_app, IH. simpl.
  now rewrite andb_true_r, andb_comm.
Qed.

Lemma lstrip_label (chars d : string) :
  forall p : string,
    str_forallb (fun c => str_mem c chars) p = true ->
    py_lstrip chars (p +:+ d) = py_lstrip chars d.
Proof.
  induction p as [|c p IH]; [reflexivity |]. cbn [str_forallb].
  intros [Hc Hp]%andb_true_iff.
  change (String c p +:+ d) with (String c (p +:+ d)).
  cbn [py_lstrip]. rewrite Hc. now apply IH.
Qed.

Lemma lstrip_stops (chars d : string) :
  stops (fun c => str_mem c chars) d = true -> py_lstrip chars d = d.
Proof.
  destruct d as [|c d]; [reflexivity |]. simpl.
  intros H. apply negb_true_iff in H. now rewrite H.
Qed.

Lemma strip_label (chars p d q : string) :
  str_forallb (fun c => str_mem c chars) p = true ->
  str_forallb (fun c => str_mem c chars) q = true ->
  stops (fun c => str_mem c chars) d = true ->
  stops (fun c => str_mem c chars) (str_rev d) = true ->
  py_strip chars (p +:+ d +:+ q) = d.
Proof.
  intros Hp Hq Hd Hr. unfold py_strip. rewrite (lstrip_label _ _ p Hp).
  destruct d as [|c d].
  - change ("" +:+ q) with q.
    rewrite <- (str_app_nil_r q), (lstrip_label _ _ q Hq). reflexivity.
  - rewrite (lstrip_stops chars (String c d +:+ q)) by exact Hd.
    rewrite str_rev_app, lstrip_label
      by now rewrite str_forallb_rev.
    rewrite (lstrip_stops _ _ Hr). apply str_rev_involutive.
Qed.

(** ** Eligibility *)

Lemma old_page_loop_dated (E : env) (dates : list string) :
  forallb (dated E) dates = true ->
  old_page_loop E dates = Ok (existsb (old_enough E) dates).
Proof.
  induction dates as [|f dates IH]; [reflexivity |].
  cbn [forallb existsb old_page_loop]. intros [Hf Hd]%andb_true_iff.
  unfold dated, old_enough in *.
  destruct (parse_date E f) as [[t [off|]]|e]; try discriminate.
  cbn [rbind]. unfold dt_lt, minus_days, naive. cbn [tzinfo instant rbind].
  destruct (t <? now E - 30 * usec_per_day); [reflexivity | now apply IH].
Qed.

(** The three ways the scan goes on from a fragment. *)
Lemma old_page_loop_step (E : env) (f : string) (rest : list string) :
  (recent E f = true /\ old_page_loop E (f :: rest) = old_page_loop E rest)
  \/ (recent E f = false /\ dated E f = true /\ old_enough E f = true
      /\ old_page_loop E (f :: rest) = Ok true)
  \/ (recent E f = false /\ dated E f && old_enough E f = false
      /\ exists e, old_page_loop E (f :: rest) = Raise e).
Proof.
  cbn [old_page_loop]. unfold recent, dated, old_enough.
  destruct (parse_date E f) as [[t [off|]]|e]; cbn [rbind].
  - right. right. unfold dt_lt. cbn [tzinfo]. eauto.
  - unfold dt_lt, minus_days, naive. cbn [tzinfo instant rbind].
    destruct (t <? now E - 30 * usec_per_day); [right; left | left]; auto.
  - right. right. eauto.
Qed.

Lemma old_page_loop_true (E : env) :
  forall fs : list string,
    old_page_loop E fs = Ok true
    <-> exists young f rest,
          fs = young ++ f :: rest /\ forallb (recent E) young = true
          /\ dated E f = true /\ old_enough E f = true.
Proof.
  induction fs as [|f fs IH].
  - split; [discriminate |].
    intros (young & g & rest & Heq & _). now destruct young.
  - destruct (old_page_loop_step E f fs)
      as [[Hr ->]|[(Hr & Hd & Ho & ->)|(Hr & Hn & e & ->)]].
    + rewrite IH. split; intros (young & g & rest & Heq & Hy & Hd & Ho).
      * exists (f :: young), g, rest. cbn [forallb]. rewrite Heq, Hr. auto.
      * destruct young as [|y young]; simpl in Heq; injection Heq as -> Heq.
        -- unfold recent in Hr. now rewrite Hd, Ho in Hr.
        -- apply andb_true_iff in Hy as [_ Hy]. exists young, g, rest. auto.
    + split; [intros _ | reflexivity]. exists [], f, fs. auto.
    + split; [discriminate |].
      intros (young & g & rest & Heq & Hy & Hd & Ho).
      destruct young as [|y young]; simpl in Heq; injection Heq as -> Heq.
      * now rewrite Hd, Ho in Hn.
      * apply andb_true_iff in Hy as [Hy _]. congruence.
Qed.

Lemma old_page_loop_false (E : env) :
  forall fs : list string,
    old_page_loop E fs = Ok false <-> forallb (recent E) fs = true.
Proof.
  induction fs as [|f fs IH]; [now split |]. cbn [forallb].
  destruct (old_page_loop_step E f fs)
    as [[Hr ->]|[(Hr & Hd & Ho & ->)|(Hr & Hn & e & ->)]]; rewrite Hr.
  - exact IH.
  - split; discriminate.
  - split; discriminate.
Qed.

Lemma old_page_scan (E : env) (text : string) :
  old_page E text = old_page_loop E (grab_template_data flagged text).
Proof. unfold old_page. now destruct (grab_template_data flagged text). Qed.

Lemma parse_date_arg (E : env) (d : string) :
  clean_date d = true -> parse_date E (date_arg d) = parser_parse E d.
Proof.
  intros [Hd Hr]%andb_true_iff. unfold parse_date, date_arg.
  rewrite <- (str_app_nil_r d) at 1.
  now rewrite (strip_label "date=" "date=" d "" eq_refl eq_refl Hd Hr).
Qed.

Lemma recent_date_arg (E : env) (d : string) :
  clean_date d = true -> recent E (date_arg d) = reads_recent E d.
Proof.
  intros Hd. unfold recent, dated, old_enough, reads_recent.
  rewrite (parse_date_arg E d Hd).
  now destruct (parser_parse E d) as [[t [off|]]|e].
Qed.

Lemma old_date_arg (E : env) (d : string) :
  clean_date d = true ->
  dated E (date_arg d) && old_enough E (date_arg d) = reads_old E d.
Proof.
  intros Hd. unfold dated, old_enough, reads_old.
  rewrite (parse_date_arg E d Hd).
  now destruct (parser_parse E d) as [[t [off|]]|e].
Qed.

Lemma recent_date_args (E : env) (ds : list string) :
  forallb clean_date ds = true ->
  forallb (recent E) (map date_arg ds) = forallb (reads_recent E) ds.
Proof.
  induction ds as [|d ds IH]; [reflexivity |]. cbn [forallb map].
  intros [Hd Hs]%andb_true_iff. now rewrite (recent_date_arg E d Hd), IH.
Qed.

(** The scan of the arguments date=D in terms of the texts D. *)
Lemma old_marker_reached (E : env) (ds : list string) :
  forallb clean_date ds = true ->
  (exists young f rest,
     map date_arg ds = young ++ f :: rest
     /\ forallb (recent E) young = true
     /\ dated E f = true /\ old_enough E f = true)
  <-> exists young d rest,
        ds = young ++ d :: rest /\ forallb (reads_recent E) young = true
        /\ reads_old E d = true.
Proof.
  intros Hc. split.
  - intros (young & f & rest & Heq & Hy & Hd & Ho).
    apply map_eq_app in Heq as (ys & tl & -> & <- & Htl).
    apply map_eq_cons in Htl as (d & rs & -> & <- & _).
    rewrite forallb_app in Hc. apply andb_true_iff in Hc as [Hcy Hcd].
    cbn [forallb] in Hcd. apply andb_true_iff in Hcd as [Hcd _].
    exists ys, d, rs. rewrite <- (recent_date_args E ys Hcy).
    rewrite <- (old_date_arg E d Hcd), Hd, Ho. auto.
  - intros (young & d & rest & -> & Hy & Ho).
    rewrite forallb_app in Hc. apply andb_true_iff in Hc as [Hcy Hcd].
    cbn [forallb] in Hcd. apply andb_true_iff in Hcd as [Hcd _].
    exists (map date_arg young), (date_arg d), (map date_arg rest).
    rewrite map_app, (recent_date_args E young Hcy).
    rewrite <- (old_date_arg E d Hcd) in Ho.
    apply andb_true_iff in Ho as [Hd Ho]. auto.
Qed.

(** C1 (amended): the check scans the Flagged fragments in document
    order and gives each one, stripped at both ends of the characters
    d, a, t, e and =, to the date parser.  It answers that the page is
    eligible exactly when it reaches a fragment read as a date without
    time zone that is strictly earlier than thirty days before now,
    every fragment before it being read as such a date that is not
    that old; it answers that the page is not eligible exactly when
    every fragment is read and none is that old, as on a page without
    fragment.  On a page with one plain construct per line whose
    Flagged markers have the one argument date=D, D neither starting
    nor ending with a stripped character, the fragments are those
    arguments and the parser is given D itself. *)
Theorem eligible_iff_old_marker_reached (E : env) (text : string) :
  (old_page E text = Ok true
   <-> exists young f rest,
         grab_template_data flagged text = young ++ f :: rest
         /\ forallb (recent E) young = true
         /\ dated E f = true /\ old_enough E f = true)
  /\ (old_page E text = Ok false
      <-> forallb (recent E) (grab_template_data flagged text) = true)
  /\ forall (before : string) (items : list (construct * string))
        (ds : list string),
       text = page_of flagged before items ->
       open_free before = true -> one_per_line flagged items = true ->
       fragments items = map date_arg ds -> forallb clean_date ds = true ->
       grab_template_data flagged text = map date_arg ds
       /\ (old_page E text = Ok true
           <-> exists young d rest,
                 ds = young ++ d :: rest
                 /\ forallb (reads_recent E) young = true
                 /\ reads_old E d = true)
       /\ (old_page E text = Ok false
           <-> forallb (reads_recent E) ds = true).
Proof.
  rewrite old_page_scan. split; [apply old_page_loop_true |].
  split; [apply old_page_loop_false |].
  intros before items ds -> Hb Hok Hf Hc.
  rewrite (grab_one_per_line flagged before items eq_refl Hb Hok), Hf.
  split; [reflexivity |]. split.
  - rewrite old_page_loop_true. now apply old_marker_reached.
  - now rewrite old_page_loop_false, recent_date_args.
Qed.

Lemma old_page_loop_raises (E : env) (f : string) (rest : list string)
    (e : exn) :
  parse_date E f = Raise e ->
  forall young : list string,
    forallb (fun g => dated E g && negb (old_enough E g)) young = true ->
    old_page_loop E (young ++ f :: rest) = Raise e.
Proof.
  intros Hf. induction young as [|g young IH]; intros Hy.
  - simpl. now rewrite Hf.
  - cbn [forallb] in Hy. apply andb_true_iff in Hy as [Hg Hy].
    apply andb_true_iff in Hg as [Hg Hold].
    change ((g :: young) ++ f :: rest) with (g :: (young ++ f :: rest)).
    cbn [old_page_loop]. unfold dated, old_enough in *.
    destruct (parse_date E g) as [[t [off|]]|e']; try discriminate.
    cbn [rbind]. unfold dt_lt, minus_days, naive.
    cbn [tzinfo instant rbind] in *.
    apply negb_true_iff in Hold. rewrite Hold. now apply IH.
Qed.

Lemma bind_raise {A B : Type} (m : M A) (f : A -> M B) (w w' : world)
    (e : exn) :
  m w = (Raise e, w') -> bind m f w = (Raise e, w').
Proof. intros H. unfold bind. now rewrite H. Qed.

Lemma bind_ok {A B : Type} (m : M A) (f : A -> M B) (w w' : world) (a : A) :
  m w = (Ok a, w') -> bind m f w = f a w'.
Proof. intros H. unfold bind. now rewrite H. Qed.

(** C4 (amended): when the scan of a page's Flagged fragments reaches
    a date string the parser rejects before it reaches a date that is
    old enough, the eligibility evaluation raises the parser's error;
    the per-page step does not catch it and leaves the wiki as it
    was, and the loop over the batch stops at that page. *)
Theorem unparsable_date_stops_the_batch (E : env) (w : world)
    (page_dict : pyval) (title f : string) (young rest : list string)
    (e : exn) (others : list pyval) :
  py_getitem page_dict "title" = Ok (PStr title) ->
  grab_template_data flagged (default "" (pages w !! title))
  = young ++ f :: rest ->
  forallb (fun g => dated E g && negb (old_enough E g)) young = true ->
  parse_date E f = Raise e ->
  old_page E (default "" (pages w !! title)) = Raise e
  /\ update_page E page_dict w = (Raise e, w)
  /\ for_each (page_dict :: others) (per_page E) w
     = (Raise e,
        {| pages := pages w;
           output := output w ++ [PrintedVal "WORKING ON PAGE " page_dict] |}).
Proof.
  intros Ht Hg Hy Hf.
  assert (Hold : old_page E (default "" (pages w !! title)) = Raise e).
  { unfold old_page. rewrite Hg.
    rewrite (old_page_loop_raises E f rest e Hf young Hy).
    now destruct young. }
  assert (Hup : forall w', pages w' = pages w ->
            update_page E page_dict w' = (Raise e, w')).
  { intros w' Hw. unfold update_page.
    rewrite Ht. cbn [rbind as_str].
    unfold bind at 1, lift at 1. unfold bind at 1, page_text at 1.
    rewrite Hw. apply bind_raise. unfold lift. now rewrite Hold. }
  split; [assumption | split; [now apply Hup |]].
  cbn [for_each]. apply bind_raise. unfold per_page.
  unfold bind at 1, print_val, emit. now rewrite Hup.
Qed.

(** ** What a computation leaves unchanged *)

Section Keeps.

Variable I : world -> world -> Prop.
Hypothesis I_refl : forall w, I w w.
Hypothesis I_trans : forall a b c, I a b -> I b c -> I a c.

Lemma keeps_ret {A : Type} (a : A) : keeps I (ret a).
Proof. intros w. apply I_refl. Qed.

Lemma keeps_lift {A : Type} (r : result A) : keeps I (lift r).
Proof. intros w. apply I_refl. Qed.

Lemma keeps_bind {A B : Type} (m : M A) (f : A -> M B) :
  keeps I m -> (forall a, keeps I (f a)) -> keeps I (bind m f).
Proof.
  intros Hm Hf w. unfold bind. specialize (Hm w).
  destruct (m w) as [[a|e] w1]; simpl in *; [|assumption].
  exact (I_trans _ _ _ Hm (Hf a w1)).
Qed.

Lemma keeps_bind_lift {A B : Type} (r : result A) (f : A -> M B) :
  (forall a, r = Ok a -> keeps I (f a)) -> keeps I (bind (lift r) f).
Proof.
  intros Hf w. unfold bind, lift. destruct r as [a|e]; simpl.
  - now apply Hf.
  - apply I_refl.
Qed.

Lemma keeps_for_each_in {A : Type} (body : A -> M unit) (l : list A) :
  (forall a, In a l -> keeps I (body a)) -> keeps I (for_each l body).
Proof.
  induction l as [|a l IH]; intros Hb; simpl.
  - apply keeps_ret.
  - apply keeps_bind; [apply Hb; now left |].
    intros _. apply IH. intros b Hin. apply Hb. now right.
Qed.

Lemma keeps_for_each {A : Type} (body : A -> M unit) (l : list A) :
  (forall a, keeps I (body a)) -> keeps I (for_each l body).
Proof.
  intros Hb. induction l as [|a l IH]; simpl.
  - apply keeps_ret.
  - apply keeps_bind; [apply Hb | intros _; exact IH].
Qed.

Lemma keeps_page_exists (title : string) : keeps I (page_exists title).
Proof. intros w. apply I_refl. Qed.

Lemma keeps_page_text (title : string) : keeps I (page_text title).
Proof. intros w. apply I_refl. Qed.

Lemma keeps_page_get (title : string) : keeps I (page_get title).
Proof.
  intros w. unfold page_get. destruct (pages w !! title); apply I_refl.
Qed.

End Keeps.

(** One step of a proof that a computation of the script keeps a
    reflexive and transitive relation: split a bind or a loop, take a
    branch apart, or close the goal from the hints. *)
Ltac keeps_step Hrefl Htrans :=
  first
    [ apply (keeps_bind _ Htrans); [| intros ?]
    | apply (keeps_for_each _ Hrefl Htrans); intros ?
    | apply (keeps_ret _ Hrefl)
    | apply (keeps_lift _ Hrefl)
    | apply (keeps_page_exists _ Hrefl)
    | apply (keeps_page_text _ Hrefl)
    | apply (keeps_page_get _ Hrefl)
    | match goal with
      | |- keeps _ (if ?b then _ else _) => destruct b
      | |- keeps _ (match ?x with _ => _ end) => destruct x
      end ].

(** *** The log of requests and of pages worked on *)

Lemma requests_of_app (l1 l2 : list event) :
  requests_of (l1 ++ l2) = requests_of l1 ++ requests_of l2.
Proof. apply flat_map_app. Qed.


Section SameLog.

(** A reading of the log that printed lines, saves and moves do not
    show in. *)
Context {X : Type} (proj : list event -> list X).
Hypothesis proj_app : forall a b, proj (a ++ b) = proj a ++ proj b.
Hypothesis proj_printed : forall msg, proj [Printed msg] = [].
Hypothesis proj_saved : forall title text, proj [Saved title text] = [].
Hypothesis proj_moved :
  forall title new_title reason, proj [Moved title new_title reason] = [].

Lemma same_log_refl (w : world) : same_log proj w w.
Proof. reflexivity. Qed.

Lemma same_log_trans (a b c : world) :
  same_log proj a b -> same_log proj b c -> same_log proj a c.
Proof. unfold same_log. congruence. Qed.

Lemma same_log_emit (e : event) :
  proj [e] = [] -> keeps (same_log proj) (emit e).
Proof.
  intros He w. unfold same_log. simpl.
  now rewrite proj_app, He, List.app_nil_r.
Qed.

Lemma same_log_print (msg : string) : keeps (same_log proj) (print msg).
Proof. apply same_log_emit, proj_printed. Qed.

Lemma same_log_page_save (title text : string) :
  keeps (same_log proj) (page_save title text).
Proof.
  intros w. unfold same_log. simpl.
  now rewrite proj_app, proj_saved, List.app_nil_r.
Qed.

Lemma same_log_page_move (title new_title reason : string) :
  keeps (same_log proj) (page_move title new_title reason).
Proof.
  intros w. unfold page_move.
  destruct (pages w !! title), (pages w !! new_title);
    try apply same_log_refl.
  unfold same_log. simpl. now rewrite proj_app, proj_moved, List.app_nil_r.
Qed.

Ltac same_log_step :=
  first [ apply same_log_print | apply same_log_page_save
        | apply same_log_page_move
        | keeps_step same_log_refl same_log_trans ].

Lemma same_log_move_namespace (E : env) (title namespace : string) :
  keeps (same_log proj) (move_namespace E title namespace).
Proof.
  intros w. unfold move_namespace.
  match goal with |- context [?m w] =>
    assert (H : keeps (same_log proj) m) by (repeat same_log_step);
    specialize (H w); destruct (m w) as [[u|e] w']
  end; exact H.
Qed.

Lemma same_log_update_page (E : env) (page : pyval) :
  keeps (same_log proj) (update_page E page).
Proof.
  unfold update_page, update_template, update_category.
  repeat same_log_step; apply same_log_move_namespace.
Qed.

Lemma same_log_check_last_page (E : env) :
  keeps (same_log proj) (check_last_page E).
Proof. unfold check_last_page. repeat same_log_step. Qed.

End SameLog.

(** ** One batch per run *)

Lemma request_eq (E : env) (url : string) (params : list (string * pyval))
    (w : world) :
  request E url params w
  = (Ok (session_get E url params (pages w)),
     logged w (Requested url params)).
Proof. reflexivity. Qed.

Lemma getitem_in (v x : pyval) (key : string) :
  py_getitem v key = Ok x -> py_in key v = Ok true.
Proof.
  destruct v; try discriminate. simpl.
  destruct (dict_get key d) as [y|]. 2: discriminate.
  intros _. reflexivity.
Qed.


Lemma same_requests_per_page (E : env) (page : pyval) :
  keeps (same_log requests_of) (per_page E page).
Proof.
  unfold per_page. apply (keeps_bind _ (same_log_trans requests_of)).
  - now apply same_log_emit; [apply requests_of_app |].
  - intros _. now apply same_log_update_page; [apply requests_of_app | ..].
Qed.

Lemma modify_pages_requests (E : env) (url : string) (last_title : pyval)
    (w : world) :
  requests_of (output (modify_pages E url last_title w).2)
  = requests_of (output w) ++ [(url, get_params last_title)].
Proof.
  unfold modify_pages.
  rewrite (bind_ok _ _ _ _ _ (request_eq E url _ w)).
  match goal with |- context [?k (logged w ?e)] =>
    assert (Hk : keeps (same_log requests_of) k)
  end.
  { repeat first
      [ apply same_requests_per_page
      | apply (same_log_emit requests_of requests_of_app); reflexivity
      | keeps_step (same_log_refl requests_of) (same_log_trans requests_of) ]. }
  rewrite (Hk _). simpl. now rewrite requests_of_app.
Qed.


Lemma main_requests (E : env) (w : world) :
  requests_of (output (main E w).2)
  = requests_of (output w)
    ++ match (check_last_page E w).1 with
       | Ok last_title => [(get_api_url E, get_params last_title)]
       | Raise _ => []
       end.
Proof.
  unfold main. unfold bind at 1.
  pose proof (same_log_check_last_page requests_of requests_of_app
                (fun _ => eq_refl) (fun _ _ => eq_refl) E w) as Hc.
  destruct (check_last_page E w) as [[last_title|e] w1]; simpl in Hc |- *.
  - unfold bind at 1.
    assert (Hp : forall msg, print msg w1 = (Ok tt, logged w1 (Printed msg)))
      by reflexivity.
    assert (Hw2 : exists w2,
      (if truthy E last_title then print "last page found"
       else print "No last page found") w1 = (Ok tt, w2)
      /\ requests_of (output w2) = requests_of (output w1)).
    { destruct (truthy E last_title); rewrite Hp; eexists; split;
        try reflexivity; simpl; now rewrite requests_of_app, List.app_nil_r. }
    destruct Hw2 as (w2 & -> & Hw2). unfold bind.
    pose proof (modify_pages_requests E (get_api_url E) last_title w2) as Hm.
    destruct (modify_pages E (get_api_url E) last_title w2) as [[[]|e] w3];
      simpl in *.
    + now rewrite requests_of_app, Hm, Hw2, Hc, List.app_nil_r.
    + now rewrite Hm, Hw2, Hc.
  - now rewrite Hc, List.app_nil_r.
Qed.


(** ** The checkpoint page *)

Lemma same_checkpoint_refl (w : world) : same_checkpoint w w.
Proof. reflexivity. Qed.

Lemma same_checkpoint_trans (a b c : world) :
  same_checkpoint a b -> same_checkpoint b c -> same_checkpoint a c.
Proof. unfold same_checkpoint. congruence. Qed.

Lemma same_checkpoint_emit (e : event) : keeps same_checkpoint (emit e).
Proof. intros w. reflexivity. Qed.

Lemma same_checkpoint_page_save (title text : string) :
  title <> REV_PAGE -> keeps same_checkpoint (page_save title text).
Proof.
  intros Ht w. unfold same_checkpoint. simpl. now apply lookup_insert_ne.
Qed.

Lemma same_checkpoint_page_move (title new_title reason : string) :
  title <> REV_PAGE -> new_title <> REV_PAGE ->
  keeps same_checkpoint (page_move title new_title reason).
Proof.
  intros Ht Hn w. unfold page_move, same_checkpoint.
  destruct (pages w !! title), (pages w !! new_title); try reflexivity.
  simpl. now rewrite !lookup_insert_ne.
Qed.

Ltac same_checkpoint_step :=
  first [ apply same_checkpoint_emit
        | apply same_checkpoint_page_save; assumption
        | keeps_step same_checkpoint_refl same_checkpoint_trans ].

Lemma same_checkpoint_move_namespace (E : env) (title : string) :
  title <> REV_PAGE ->
  keeps same_checkpoint (move_namespace E title "Archive").
Proof.
  intros Ht w. unfold move_namespace.
  match goal with |- context [?m w] =>
    assert (H : keeps same_checkpoint m)
  end.
  { apply (keeps_bind _ same_checkpoint_trans);
      [apply same_checkpoint_emit | intros _].
    apply same_checkpoint_page_move; [assumption | discriminate]. }
  match goal with |- context [?m w] =>
    specialize (H w); destruct (m w) as [[u|e] w']
  end; exact H.
Qed.

Lemma same_checkpoint_update_page (E : env) (page : pyval) :
  titled REV_PAGE page = false -> keeps same_checkpoint (update_page E page).
Proof.
  intros Ht. unfold update_page, titled in *.
  apply (keeps_bind_lift _ same_checkpoint_refl). intros title Htitle.
  destruct (py_getitem page "title") as [[| | | |t| |]|e]; try discriminate.
  injection Htitle as <-.
  assert (Hne : t <> REV_PAGE) by now apply String.eqb_neq.
  unfold update_template, update_category, print.
  repeat same_checkpoint_step.
  now apply same_checkpoint_move_namespace.
Qed.

Lemma modify_pages_keeps_checkpoint (E : env) (url : string)
    (last_title : pyval) (w : world) :
  lists (session_get E url (get_params last_title) (pages w)) REV_PAGE
  = false ->
  pages (modify_pages E url last_title w).2 !! REV_PAGE
  = pages w !! REV_PAGE.
Proof.
  intros Hl. unfold modify_pages.
  rewrite (bind_ok _ _ _ _ _ (request_eq E url _ w)).
  set (response := session_get E url (get_params last_title) (pages w)) in *.
  match goal with |- context [?k (logged w ?e)] =>
    assert (Hk : keeps same_checkpoint k)
  end.
  { unfold lists, members_of in Hl.
    apply (keeps_bind_lift _ same_checkpoint_refl). intros b _.
    apply (keeps_bind _ same_checkpoint_trans).
    { destruct (negb b);
        [apply same_checkpoint_emit | apply keeps_ret, same_checkpoint_refl]. }
    intros _.
    apply (keeps_bind_lift _ same_checkpoint_refl). intros q Hq.
    rewrite Hq in Hl. cbn [rbind] in Hl.
    apply (keeps_bind_lift _ same_checkpoint_refl). intros b' _.
    apply (keeps_bind _ same_checkpoint_trans).
    { destruct (negb b');
        [apply same_checkpoint_emit | apply keeps_ret, same_checkpoint_refl]. }
    intros _.
    apply (keeps_bind_lift _ same_checkpoint_refl). intros members Hm.
    rewrite Hm in Hl.
    apply (keeps_for_each_in _ same_checkpoint_refl same_checkpoint_trans).
    intros page Hin. unfold per_page.
    apply (keeps_bind _ same_checkpoint_trans);
      [apply same_checkpoint_emit | intros _].
    apply same_checkpoint_update_page.
    destruct (titled REV_PAGE page) eqn:Ht; [|reflexivity].
    rewrite <- Hl. symmetry. apply existsb_exists. eauto. }
  exact (Hk (logged w _)).
Qed.

Lemma get_revisions_record (E : env) (title : string) (w : world)
    (q ps page revs rev user time : pyval) :
  py_getitem
    (session_get E (get_api_url E) (revision_params title) (pages w)) "query"
  = Ok q ->
  py_getitem q "pages" = Ok ps -> py_first ps = Ok page ->
  py_in "missing" page = Ok false ->
  py_getitem page "revisions" = Ok revs -> py_first revs = Ok rev ->
  py_getitem rev "user" = Ok user -> py_getitem rev "timestamp" = Ok time ->
  get_revisions E title w
  = (Ok (checkpoint user time title),
     logged w (Requested (get_api_url E) (revision_params title))).
Proof.
  intros Hq Hps Hpage Hmiss Hrevs Hrev Huser Htime. unfold get_revisions.
  cbv zeta. rewrite (bind_ok _ _ _ _ _ (request_eq E _ _ w)).
  unfold bind, lift, ret.
  rewrite (getitem_in _ _ _ Hq), Hq. cbn [rbind].
  rewrite (getitem_in _ _ _ Hps), Hps. cbn [rbind negb].
  rewrite Hpage, Hmiss, (getitem_in _ _ _ Hrevs), Hrevs. cbn [rbind negb].
  now rewrite Hrev, Huser, Htime.
Qed.

Lemma update_last_page_saves (E : env) (title : string) (w w0 : world)
    (user time : pyval) :
  get_revisions E title w = (Ok (checkpoint user time title), w0) ->
  update_last_page E title w
  = (Ok tt,
     {| pages :=
          <[REV_PAGE := py_repr (float_repr E) (checkpoint user time title)]>
            (pages w0);
        output :=
          output w0
          ++ [Saved REV_PAGE
                (py_repr (float_repr E) (checkpoint user time title))] |}).
Proof.
  intros H. unfold update_last_page. now rewrite (bind_ok _ _ _ _ _ H).
Qed.

(** C3 (amended): the save operation, given a page title, replaces the
    text of the checkpoint page by the record of that page's latest
    revision (user, timestamp, title).  A run never invokes it: none
    of the requests a run sends asks for revisions, and unless the
    category listing names the checkpoint page itself, processing the
    batch leaves the checkpoint page as it was. *)
Theorem checkpoint_written_only_by_save (E : env) (title : string)
    (w : world) (q ps page revs rev user time : pyval) :
  py_getitem
    (session_get E (get_api_url E) (revision_params title) (pages w)) "query"
  = Ok q ->
  py_getitem q "pages" = Ok ps -> py_first ps = Ok page ->
  py_in "missing" page = Ok false ->
  py_getitem page "revisions" = Ok revs -> py_first revs = Ok rev ->
  py_getitem rev "user" = Ok user -> py_getitem rev "timestamp" = Ok time ->
  (let record := py_repr (float_repr E) (checkpoint user time title) in
   update_last_page E title w
   = (Ok tt,
      {| pages := <[REV_PAGE := record]> (pages w);
         output :=
           output w
           ++ [Requested (get_api_url E) (revision_params title);
               Saved REV_PAGE record] |}))
  /\ (forall w0, exists new,
        requests_of (output (main E w0).2) = requests_of (output w0) ++ new
        /\ Forall (fun r => dict_get "prop" r.2 = None) new)
  /\ (forall url last_title w0,
        lists (session_get E url (get_params last_title) (pages w0)) REV_PAGE
        = false ->
        pages (modify_pages E url last_title w0).2 !! REV_PAGE
        = pages w0 !! REV_PAGE).
Proof.
  intros Hq Hps Hpage Hmiss Hrevs Hrev Huser Htime.
  split; [|split].
  - cbv zeta.
    rewrite (update_last_page_saves E title w _ user time
               (get_revisions_record E title w q ps page revs rev user time
                  Hq Hps Hpage Hmiss Hrevs Hrev Huser Htime)).
    simpl. now rewrite <- List.app_assoc.
  - intros w0. rewrite main_requests. eexists. split; [reflexivity |].
    destruct (check_last_page E w0).1; repeat constructor.
  - intros url last_title w0. apply modify_pages_keeps_checkpoint.
Qed.

(** ** The checkpoint record as text *)

Lemma replace_char_cons (a c : ascii) (new s : string) :
  str_replace (str1 a) new (String c s)
  = (if Ascii.eqb a c then new else str1 c) +:+ str_replace (str1 a) new s.
Proof.
  unfold str_replace, re_sub. cbn [sub_from]. unfold match_at. simpl rmatch.
  destruct (Ascii.eqb a c); [|reflexivity].
  replace (String.length (String c s) - String.length s)%nat with 1%nat
    by (simpl; lia).
  reflexivity.
Qed.

Lemma replace_char_app (a : ascii) (new y : string) :
  forall x : string,
    str_replace (str1 a) new (x +:+ y)
    = str_replace (str1 a) new x +:+ str_replace (str1 a) new y.
Proof.
  induction x as [|c x IH]; [reflexivity |].
  change (String c x +:+ y) with (String c (x +:+ y)).
  now rewrite !replace_char_cons, IH, str_app_assoc.
Qed.

Lemma replace_char_absent (a : ascii) (new : string) :
  forall s : string,
    str_mem a s = false -> str_replace (str1 a) new s = s.
Proof.
  induction s as [|c s IH]; [reflexivity |]. simpl.
  intros [Hc Hs]%orb_false_iff. rewrite replace_char_cons, Hc, (IH Hs).
  reflexivity.
Qed.

Lemma plain_char_repr (c : ascii) :
  plain_char c = true -> repr_char squote c = str1 c.
Proof.
  destruct c as [[] [] [] [] [] [] [] []]; vm_compute;
    solve [reflexivity | discriminate].
Qed.

Lemma plain_char_json (c : ascii) :
  plain_char c = true ->
  Ascii.eqb c dquote = false /\ Ascii.eqb c backslash = false
  /\ (code c <? 32)%N = false.
Proof.
  destruct c as [[] [] [] [] [] [] [] []]; vm_compute;
    solve [auto | discriminate].
Qed.

Lemma repr_chars_plain (s : string) :
  str_forallb plain_char s = true -> repr_chars squote s = s.
Proof.
  induction s as [|c s IH]; [reflexivity |]. cbn [str_forallb repr_chars].
  intros [Hc Hs]%andb_true_iff. now rewrite (plain_char_repr c Hc), (IH Hs).
Qed.

Lemma py_repr_str_plain (s : string) :
  str_forallb plain_char s = true ->
  py_repr_str s = String squote (s +:+ str1 squote).
Proof.
  intros H. unfold py_repr_str.
  rewrite (class_excludes plain_char squote s eq_refl H).
  cbn [andb]. now rewrite repr_chars_plain.
Qed.

Lemma checkpoint_text (float_repr : string -> string)
    (user time title : string) :
  str_forallb plain_char user = true ->
  str_forallb plain_char time = true ->
  str_forallb plain_char title = true ->
  str_replace (str1 squote) (str1 dquote)
    (py_repr float_repr (checkpoint (PStr user) (PStr time) title))
  = record_json user time title.
Proof.
  intros Hu Ht Hti. unfold checkpoint. cbn [py_repr].
  rewrite (py_repr_str_plain user Hu), (py_repr_str_plain time Ht),
    (py_repr_str_plain title Hti).
  change (py_repr_str "user") with "'user'".
  change (py_repr_str "time") with "'time'".
  change (py_repr_str "title") with "'title'".
  rewrite !str_app_assoc.
  repeat first
    [ rewrite replace_char_app
    | rewrite replace_char_cons ].
  rewrite (replace_char_absent squote _ user
             (class_excludes plain_char squote _ eq_refl Hu)).
  rewrite (replace_char_absent squote _ time
             (class_excludes plain_char squote _ eq_refl Ht)).
  rewrite (replace_char_absent squote _ title
             (class_excludes plain_char squote _ eq_refl Hti)).
  unfold record_json. cbv zeta. simpl. now rewrite !str_app_assoc.
Qed.

Lemma scan_string_plain (rest : string) :
  forall s : string,
    str_forallb plain_char s = true ->
    scan_string (s +:+ String dquote rest) = Some (s, rest).
Proof.
  induction s as [|c s IH]; [reflexivity |]. cbn [str_forallb].
  intros [Hc Hs]%andb_true_iff.
  destruct (plain_char_json c Hc) as (Hq & Hb & Hctl).
  change (String c s +:+ String dquote rest)
    with (String c (s +:+ String dquote rest)).
  cbn [scan_string]. now rewrite Hq, Hb, Hctl, (IH Hs).
Qed.

Lemma json_loads_record (user time title : string) :
  str_forallb plain_char user = true ->
  str_forallb plain_char time = true ->
  str_forallb plain_char title = true ->
  json_loads (record_json user time title)
  = Ok (checkpoint (PStr user) (PStr time) title).
Proof.
  intros Hu Ht Hti. unfold json_loads, record_json. cbv zeta.
  simpl.
  rewrite (scan_string_plain _ user Hu). simpl.
  rewrite (scan_string_plain _ time Ht). simpl.
  rewrite (scan_string_plain _ title Hti). simpl.
  reflexivity.
Qed.

(** ** Loading the checkpoint *)

Lemma page_exists_some (title text : string) (w : world) :
  pages w !! title = Some text -> page_exists title w = (Ok true, w).
Proof. intros H. unfold page_exists. now rewrite H. Qed.

Lemma page_get_some (title text : string) (w : world) :
  pages w !! title = Some text -> page_get title w = (Ok text, w).
Proof. intros H. unfold page_get. now rewrite H. Qed.

Lemma bind_lift {A B : Type} (r : result A) (f : A -> M B) (w : world) :
  bind (lift r) f w
  = match r with Ok a => f a w | Raise e => (Raise e, w) end.
Proof. unfold bind, lift. now destruct r. Qed.

Lemma check_last_page_text (E : env) (w : world) (text : string) :
  pages w !! REV_PAGE = Some text ->
  String.eqb text "" = false ->
  check_last_page E w
  = match json_loads (str_replace (str1 squote) (str1 dquote) text) with
    | Ok record =>
        match py_getitem record "title" with
        | Ok title =>
            if truthy E title then (Ok title, w)
            else (Ok (PStr ""),
                  logged w (Printed ("No valid revision page found"
                                     +:+ str1 newline)))
        | Raise e => (Raise e, w)
        end
    | Raise e => (Raise e, w)
    end.
Proof.
  intros Hp Hne. unfold check_last_page.
  rewrite (bind_ok _ _ _ _ _ (page_exists_some _ _ _ Hp)). cbn [negb].
  rewrite (bind_ok _ _ _ _ _ (page_get_some _ _ _ Hp)). rewrite Hne.
  rewrite (bind_ok _ _ _ _ _ (page_get_some _ _ _ Hp)).
  rewrite bind_lift.
  destruct (json_loads _) as [record|e]; [|reflexivity].
  rewrite bind_lift.
  destruct (py_getitem record "title") as [title|e]; [|reflexivity].
  now destruct (truthy E title).
Qed.

Lemma check_last_page_loaded (E : env) (w : world) (text : string)
    (record title : pyval) :
  pages w !! REV_PAGE = Some text ->
  String.eqb text "" = false ->
  json_loads (str_replace (str1 squote) (str1 dquote) text) = Ok record ->
  py_getitem record "title" = Ok title ->
  truthy E title = true ->
  check_last_page E w = (Ok title, w).
Proof.
  intros Hp Hne Hj Ht Htruthy.
  now rewrite (check_last_page_text E w text Hp Hne), Hj, Ht, Htruthy.
Qed.

Lemma check_last_page_missing (E : env) (w : world) :
  pages w !! REV_PAGE = None ->
  check_last_page E w
  = (Ok (PStr ""),
     {| pages := <[REV_PAGE := ""]> (pages w);
        output :=
          output w
          ++ [Printed ("Revision page " +:+ str1 dquote +:+ REV_PAGE
                       +:+ str1 dquote +:+ " not found...  Adding");
              Saved REV_PAGE ""] |}).
Proof.
  intros Hp.
  unfold check_last_page.
  assert (He : page_exists REV_PAGE w = (Ok false, w))
    by (unfold page_exists; now rewrite Hp).
  rewrite (bind_ok _ _ _ _ _ He). cbn [negb].
  unfold bind, print, emit, page_save, ret. simpl.
  now rewrite <- List.app_assoc.
Qed.

Lemma check_last_page_empty (E : env) (w : world) :
  pages w !! REV_PAGE = Some "" ->
  check_last_page E w
  = (Ok (PStr ""),
     logged w (Printed ("No valid revision on this page found"
                        +:+ str1 newline))).
Proof.
  intros Hp.
  unfold check_last_page.
  rewrite (bind_ok _ _ _ _ _ (page_exists_some _ _ _ Hp)). cbn [negb].
  now rewrite (bind_ok _ _ _ _ _ (page_get_some _ _ _ Hp)).
Qed.

(** C5 (amended): for a checkpoint record whose user, time and title
    are texts of plain characters (no quote, no backslash, nothing
    unprintable) and whose title is not empty, loading after saving
    returns the title of the record. *)
Theorem load_after_save_returns_title (E : env) (w w0 : world)
    (user time title : string) :
  get_revisions E title w
  = (Ok (checkpoint (PStr user) (PStr time) title), w0) ->
  str_forallb plain_char user = true ->
  str_forallb plain_char time = true ->
  str_forallb plain_char title = true ->
  String.eqb title "" = false ->
  exists w1,
    update_last_page E title w = (Ok tt, w1)
    /\ pages w1 !! REV_PAGE
       = Some (py_repr (float_repr E)
                 (checkpoint (PStr user) (PStr time) title))
    /\ check_last_page E w1 = (Ok (PStr title), w1).
Proof.
  intros Hg Hu Ht Hti Hne.
  rewrite (update_last_page_saves E title w w0 _ _ Hg).
  eexists. split; [reflexivity |].
  assert (Hp : forall m : gmap string string, forall x : string,
            <[REV_PAGE := x]> m !! REV_PAGE = Some x)
    by (intros; apply lookup_insert_eq).
  split; [apply Hp |].
  eapply check_last_page_loaded.
  - apply Hp.
  - reflexivity.
  - rewrite checkpoint_text by assumption. now apply json_loads_record.
  - reflexivity.
  - simpl. now rewrite Hne.
Qed.

(** ** The theorems at concrete pages, and where the claims fail *)

Module Runs.

Import Demo Cases.

(** The recent marker is passed over, the old one decides, and the
    marker below it, which the parser rejects, is never read. *)
Lemma eligible_iff_old_marker_reached_witness :
  let ds := ["February 20, 2023"; "January 1, 2023"; "soon"] in
  open_free "Intro. " = true
  /\ one_per_line flagged dated_items = true
  /\ fragments dated_items = map date_arg ds
  /\ forallb clean_date ds = true
  /\ reads_recent march "February 20, 2023" = true
  /\ reads_old march "January 1, 2023" = true
  /\ parser_parse march "soon" = Raise ParserError
  /\ old_page march (page_of flagged "Intro. " dated_items) = Ok true.
Proof.
  cbv zeta. do 7 (split; [vm_compute; reflexivity |]).
  destruct (eligible_iff_old_marker_reached march
              (page_of flagged "Intro. " dated_items)) as (_ & _ & H).
  destruct (H "Intro. " dated_items
              ["February 20, 2023"; "January 1, 2023"; "soon"]
              eq_refl eq_refl eq_refl eq_refl eq_refl) as (_ & Ht & _).
  apply Ht. exists ["February 20, 2023"], "January 1, 2023", ["soon"].
  repeat split; vm_compute; reflexivity.
Defined.

(** C1 fails where a marker the parser rejects stands before one that
    is old enough: the page holds a well-formed marker whose date is
    read and is older than thirty days, and the check does not answer
    that the page is eligible; it raises. *)
Lemma old_marker_behind_unreadable_one :
  let text := bad_marker +:+ nl +:+ old_marker in
  grab_template_data flagged text = ["date=soon"; "date=January 1, 2023"]
  /\ dated march "date=January 1, 2023" = true
  /\ old_enough march "date=January 1, 2023" = true
  /\ old_page march text = Raise ParserError
  /\ old_page march text <> Ok true.
Proof. vm_compute. repeat split; discriminate. Qed.



Lemma checkpoint_written_only_by_save_witness :
  let url := get_api_url march in
  let rev :=
    PDict [("user", PStr "Admin");
           ("timestamp", PStr "2023-03-01T10:00:00Z")] in
  let page := PDict [("title", PStr "Bar"); ("revisions", PList [rev])] in
  let q := PDict [("pages", PList [page])] in
  let record :=
    "{'user': 'Admin', 'time': '2023-03-01T10:00:00Z', 'title': 'Bar'}" in
  py_getitem (session_get march url (revision_params "Bar") (pages resumed))
    "query" = Ok q
  /\ py_in "missing" page = Ok false
  /\ update_last_page march "Bar" resumed
     = (Ok tt,
        {| pages := <[REV_PAGE := record]> (pages resumed);
           output :=
             [Requested url (revision_params "Bar");
              Saved REV_PAGE record] |}).
Proof.
  cbv zeta. split; [vm_compute; reflexivity | split; [reflexivity |]].
  pose (rev := PDict [("user", PStr "Admin");
                      ("timestamp", PStr "2023-03-01T10:00:00Z")]).
  pose (page := PDict [("title", PStr "Bar"); ("revisions", PList [rev])]).
  destruct (checkpoint_written_only_by_save march "Bar" resumed
              (PDict [("pages", PList [page])]) (PList [page]) page
              (PList [rev]) rev (PStr "Admin") (PStr "2023-03-01T10:00:00Z")
              eq_refl eq_refl eq_refl eq_refl eq_refl eq_refl eq_refl eq_refl)
    as (Hsave & _).
  exact Hsave.
Defined.

(** C3 fails on any run: Foo and Bar are processed and archived, and
    the checkpoint page still holds the record that was there. *)
Lemma run_leaves_checkpoint_unwritten :
  let run := main march resumed in
  run.1 = Ok tt
  /\ worked_on (output run.2) = [member "Foo"; member "Bar"]
  /\ pages run.2 !! "Archive:Bar"
     = Some ("Text. " +:+ archived_marker march)
  /\ pages resumed !! REV_PAGE = Some stored_record
  /\ pages run.2 !! REV_PAGE = Some stored_record
  /\ existsb (fun e => match e with
                       | Saved title _ => String.eqb title REV_PAGE
                       | _ => false
                       end) (output run.2) = false.
Proof. vm_compute. repeat split. Qed.

Lemma unparsable_date_stops_the_batch_witness :
  py_getitem (member "Foo") "title" = Ok (PStr "Foo")
  /\ grab_template_data flagged (default "" (pages unreadable !! "Foo"))
     = [] ++ "date=soon" :: []
  /\ parse_date march "date=soon" = Raise ParserError
  /\ update_page march (member "Foo") unreadable
     = (Raise ParserError, unreadable)
  /\ for_each [member "Foo"; member "Bar"] (per_page march) unreadable
     = (Raise ParserError,
        logged unreadable (PrintedVal "WORKING ON PAGE " (member "Foo"))).
Proof.
  destruct (unparsable_date_stops_the_batch march unreadable (member "Foo")
              "Foo" "date=soon" [] [] ParserError [member "Bar"]
              eq_refl eq_refl eq_refl eq_refl) as (_ & Hu & Hf).
  repeat split; assumption.
Defined.

(** C4 fails on a page whose marker carries a date the parser rejects:
    the evaluation raises instead of answering that the page is not
    eligible, the run ends with that error, and Bar, which comes next
    and is old enough, is left as it was. *)
Lemma unreadable_date_is_fatal :
  let run := main march unreadable in
  old_page march ("Intro. " +:+ bad_marker) = Raise ParserError
  /\ old_page march ("Intro. " +:+ bad_marker) <> Ok false
  /\ run.1 = Raise ParserError
  /\ worked_on (output run.2) = [member "Foo"]
  /\ old_page march bar_text = Ok true
  /\ pages run.2 !! "Bar" = Some bar_text.
Proof. vm_compute. repeat split; discriminate. Qed.

Lemma load_after_save_returns_title_witness :
  let w := world_of [("Main Page", "Welcome.")] in
  let time := "2023-03-01T10:00:00Z" in
  get_revisions march "Main Page" w
  = (Ok (checkpoint (PStr "Admin") (PStr time) "Main Page"),
     logged w (Requested (get_api_url march) (revision_params "Main Page")))
  /\ str_forallb plain_char "Admin" = true
  /\ str_forallb plain_char time = true
  /\ str_forallb plain_char "Main Page" = true
  /\ String.eqb "Main Page" "" = false
  /\ exists w1,
       update_last_page march "Main Page" w = (Ok tt, w1)
       /\ pages w1 !! REV_PAGE
          = Some (py_repr (float_repr march)
                    (checkpoint (PStr "Admin") (PStr time) "Main Page"))
       /\ check_last_page march w1 = (Ok (PStr "Main Page"), w1).
Proof.
  cbv zeta. do 5 (split; [reflexivity |]).
  exact (load_after_save_returns_title march
           (world_of [("Main Page", "Welcome.")]) _
           "Admin" "2023-03-01T10:00:00Z" "Main Page"
           eq_refl eq_refl eq_refl eq_refl eq_refl).
Defined.

(** C5 fails on every record: what loading returns after saving is
    the title of the record, a text, not the record. *)
Lemma load_returns_title_not_record :
  let w := world_of [("Main Page", "Welcome.")] in
  let record :=
    checkpoint (PStr "Admin") (PStr "2023-03-01T10:00:00Z") "Main Page" in
  (get_revisions march "Main Page" w).1 = Ok record
  /\ (bind (update_last_page march "Main Page")
        (fun _ => check_last_page march) w).1
     = Ok (PStr "Main Page")
  /\ PStr "Main Page" <> record.
Proof. vm_compute. repeat split. discriminate. Qed.

(** A title with an apostrophe: the record the save operation writes
    is one the load operation cannot decode. *)
Example apostrophe_breaks_the_round_trip :
  let w := world_of [("Bob's page", "Text.")] in
  (bind (update_last_page march "Bob's page")
     (fun _ => check_last_page march) w).1
  = Raise JSONDecodeError.
Proof. vm_compute. reflexivity. Qed.

(** C6: Foo is eligible and Archive:Foo exists.  The move is refused,
    the handler's exception name is unbound, and the run ends with
    [NameError]: Foo keeps its updated text at its place, and Bar, the
    next member, is never worked on. *)
Theorem taken_destination_aborts_run :
  let run := main march taken in
  old_page march foo_text = Ok true
  /\ run.1 = Raise (NameError "ArticleExistsConflictError")
  /\ pages run.2 !! "Foo"
     = Some ("Intro. " +:+ archived_marker march +:+ nl
             +:+ "[[Category:Articles Archived]]")
  /\ pages run.2 !! "Archive:Foo" = Some "kept"
  /\ worked_on (output run.2) = [member "Foo"]
  /\ old_page march bar_text = Ok true
  /\ pages run.2 !! "Bar" = Some bar_text.
Proof. vm_compute. repeat split. Qed.

Lemma extraction_one_construct_per_line_witness :
  ordinary_name flagged = true
  /\ open_free "Intro. " = true
  /\ one_per_line flagged tidy_items = true
  /\ grab_template_data flagged (page_of flagged "Intro. " tidy_items)
     = ["date=January 1, 2023"; "date=May 5, 2023|by=Ann"].
Proof.
  do 3 (split; [reflexivity |]).
  exact (extraction_one_construct_per_line flagged "Intro. " tidy_items
           eq_refl eq_refl eq_refl).
Defined.

(** C7 fails on two invocations that share a line: the extractor
    returns one fragment made of both, not one fragment each. *)
Lemma markers_on_one_line_merge :
  shared_line
  = "{{Archive recommendation|date=January 1, 2023}} "
    +:+ "{{Archive recommendation|date=May 5, 2023}}"
  /\ grab_template_data flagged shared_line
     = ["date=January 1, 2023 date=May 5, 2023"]
  /\ grab_template_data flagged shared_line
     <> ["date=January 1, 2023"; "date=May 5, 2023"].
Proof. vm_compute. repeat split. discriminate. Qed.

Lemma rewrite_leaves_no_flagged_marker_witness :
  let rewritten :=
    page_of flagged "Intro. " (map (archive march) flagged_twice) in
  open_free "Intro. " = true
  /\ items_ok flagged flagged_twice = true
  /\ forallb rewritable flagged_twice = true
  /\ rewritten
     = "Intro. {{Archived|date=March 01, 2023}}" +:+ nl
       +:+ "See also: {{Infobox|kind=note}}" +:+ nl
       +:+ "{{Archived|date=March 01, 2023}}" +:+ nl
       +:+ "and {{Archived|date=March 01, 2023}} (end)"
  /\ update_template march (page_of flagged "Intro. " flagged_twice) taken
     = (Ok rewritten, logged taken (Printed "Updating page's template..."))
  /\ grab_template_data flagged rewritten = []
  /\ construct_text flagged (Other (archived_body march))
     = archived_marker march.
Proof.
  cbv zeta. do 4 (split; [reflexivity |]).
  exact (rewrite_leaves_no_flagged_marker march taken "Intro. " flagged_twice
           eq_refl eq_refl eq_refl).
Defined.

(** C8 fails on a page where a marker stands on a line of its own and
    again behind another marker: the first rewrite changes both
    copies, the pattern of the longer match then finds nothing, and a
    Flagged invocation is left in the rewritten text. *)
Lemma repeated_marker_survives_rewrite :
  let rewritten :=
    archived_marker march +:+ nl +:+ "See "
    +:+ invocation flagged "" "" "date=March 3, 2023" +:+ " and "
    +:+ archived_marker march in
  (update_template march repeated taken).1 = Ok rewritten
  /\ grab_template_data flagged rewritten
     = ["date=March 3, 2023 and {{Archived|date=March 01, 2023"]
  /\ grab_template_data flagged rewritten <> [].
Proof. vm_compute. repeat split. discriminate. Qed.

(** C9: a checkpoint page whose text is not a record.  The load
    operation raises the decoder's error on text that is not JSON, on
    the record its own save operation writes for a title with an
    apostrophe, and a key error on a record without title. *)
Theorem unreadable_checkpoint_aborts_load :
  (check_last_page march (world_of [(REV_PAGE, "last page: Foo")])).1
  = Raise JSONDecodeError
  /\ (check_last_page march
        (world_of
           [(REV_PAGE,
             "{'user': 'Admin', 'time': '2023-03-01T10:00:00Z', 'title': "
             +:+ str1 dquote +:+ "Bob's page" +:+ str1 dquote +:+ "}")])).1
     = Raise JSONDecodeError
  /\ (check_last_page march (world_of [(REV_PAGE, "{}")])).1
     = Raise (KeyError "title")
  /\ (main march (world_of [(REV_PAGE, "last page: Foo")])).1
     = Raise JSONDecodeError.
Proof. vm_compute. repeat split. Qed.

(** The marker is broken by a line feed below a construct that has
    a line of its own: that construct is matched, the marker is not. *)
Lemma marker_needs_closing_pair_on_its_line_witness :
  ordinary_name flagged = true
  /\ re_findall template_re broken = ["{{Infobox|kind=note}}"]
  /\ has_closed_marker flagged broken = false
  /\ grab_template_data flagged broken = []
  /\ old_page march broken = Ok false.
Proof.
  do 3 (split; [vm_compute; reflexivity |]).
  destruct (marker_needs_closing_pair_on_its_line march flagged broken
              eq_refl) as (_ & _ & Hg & Ho).
  split; [apply Hg | apply Ho]; vm_compute; reflexivity.
Defined.

(** C10 fails on a marker that closes on the next line and holds a
    construct that closes on the first: the opening line is matched up
    to that closing pair, the marker is returned as a fragment, and
    the page, which holds no other marker, is not evaluated as not
    eligible; the check raises. *)
Lemma spanning_marker_with_nested_construct_is_returned :
  nested
  = "{{Archive recommendation|date=January 1, 2023|by={{u|Ann}}" +:+ nl
    +:+ "}}"
  /\ grab_template_data flagged nested = ["date=January 1, 2023|by={{u|Ann"]
  /\ grab_template_data flagged nested <> []
  /\ old_page march nested = Raise ParserError
  /\ old_page march nested <> Ok false.
Proof. vm_compute. repeat split; discriminate. Qed.

End Runs.

(** * Further properties of the script *)

(** ** Markers the extractor does not see *)

Lemma name_re_pipe (name m : string) :
  matches (name_re name) m -> str_mem pipe m = true.
Proof.
  unfold name_re. intros H.
  inversion H as [| | | |? ? s1 m1 _ H1]; subst.
  inversion H1 as [| | | |? ? s2 m2 _ H2]; subst.
  inversion H2 as [| | | |? ? s3 m3 _ H3]; subst.
  inversion H3 as [| | | |? ? s4 m4 _ H4]; subst.
  inversion H4; subst.
  rewrite !str_mem_app. simpl. now rewrite !orb_true_r.
Qed.

Lemma search_needs_pipe (name t : string) :
  str_mem pipe t = false -> re_search (name_re name) t = false.
Proof.
  intros Hp. destruct (re_search (name_re name) t) eqn:Hs; [|reflexivity].
  destruct (re_search_sound _ _ Hs) as (u & m & w & -> & Hm).
  rewrite !str_mem_app, (name_re_pipe _ _ Hm) in Hp.
  now rewrite orb_true_r in Hp.
Qed.

Lemma findall_without_pipe (text t : string) :
  str_mem pipe text = false ->
  In t (re_findall template_re text) -> str_mem pipe t = false.
Proof.
  intros Hp Hin. destruct (findall_sound _ _ _ _ Hin) as (u & w & -> & _).
  rewrite !str_mem_app in Hp.
  apply orb_false_iff in Hp as [_ Hp]. now apply orb_false_iff in Hp as [Hp _].
Qed.

Lemma grab_loop_filter (name : string) (templates : list string) :
  grab_loop name templates
  = map (grab_template_info name)
      (List.filter (fun t => re_search (name_re name) t) templates).
Proof.
  induction templates as [|t templates IH]; [reflexivity |].
  cbn [grab_loop List.filter].
  destruct (re_search (name_re name) t); cbn [map]; now rewrite IH.
Qed.

(** The fragments [grab_template_data] returns are the
    [grab_template_info] of the templates [parse_template] returns,
    one for one and in the same order. *)
Theorem fragments_of_selected_templates (text : string) :
  grab_template_data flagged text
  = map (grab_template_info flagged) (parse_template flagged text)
  /\ length (grab_template_data flagged text)
     = length (parse_template flagged text).
Proof.
  unfold grab_template_data, parse_template.
  rewrite grab_loop_filter. split; [reflexivity | apply length_map].
Qed.

(** A page text without pipe holds no marker for the script: a
    Flagged invocation written without arguments is neither extracted
    nor selected for the rewrite, and the page is not eligible. *)
Theorem marker_without_pipe_not_found (E : env) (text : string) :
  str_mem pipe text = false ->
  grab_template_data flagged text = []
  /\ parse_template flagged text = []
  /\ old_page E text = Ok false.
Proof.
  intros Hp.
  assert (Hsel : parse_template flagged text = []).
  { unfold parse_template.
    assert (H : forall l : list string,
              (forall t, In t l -> str_mem pipe t = false) ->
              List.filter (fun t => re_search (name_re flagged) t) l = []).
    { induction l as [|t l IH]; intros Hl; [reflexivity |].
      cbn [List.filter].
      rewrite (search_needs_pipe flagged t (Hl t (or_introl eq_refl))).
      apply IH. intros t' Ht'. apply Hl. now right. }
    apply H. intros t. now apply findall_without_pipe. }
  assert (Hg : grab_template_data flagged text = []).
  { unfold grab_template_data. rewrite grab_loop_filter.
    unfold parse_template in Hsel. now rewrite Hsel. }
  repeat split; try assumption. unfold old_page. now rewrite Hg.
Qed.

(** ** What [parse_date] hands to the date parser *)

(** [parse_date] removes from both ends of the fragment every
    character of the set d, a, t, e, = and gives the date parser what
    is left: the label "date=", and with it any such letter the date
    itself starts or ends with. *)
Theorem parse_date_strips_characters (E : env) (p d q : string) :
  str_forallb date_label_char p = true ->
  str_forallb date_label_char q = true ->
  stops date_label_char d = true ->
  stops date_label_char (str_rev d) = true ->
  parse_date E (p +:+ d +:+ q) = parser_parse E d.
Proof.
  intros Hp Hq Hd Hr. unfold parse_date.
  now rewrite (strip_label "date=" p d q Hp Hq Hd Hr).
Qed.

(** ** The checkpoint of a page without revision *)

Lemma saved_page (title text : string) (m : gmap string string) :
  <[title := text]> m !! title = Some text.
Proof. apply lookup_insert_eq. Qed.

(** Saving an empty revision leaves an empty checkpoint page, which
    the load operation reads as no checkpoint. *)
Lemma update_last_page_empty (E : env) (title : string) (w w0 : world) :
  get_revisions E title w = (Ok (PStr ""), w0) ->
  let w1 := {| pages := <[REV_PAGE := ""]> (pages w0);
               output := output w0 ++ [Saved REV_PAGE ""] |} in
  update_last_page E title w = (Ok tt, w1)
  /\ check_last_page E w1
     = (Ok (PStr ""),
        logged w1 (Printed ("No valid revision on this page found"
                            +:+ str1 newline))).
Proof.
  intros Hg w1. split.
  - unfold update_last_page. now rewrite (bind_ok _ _ _ _ _ Hg).
  - apply check_last_page_empty. apply saved_page.
Qed.

Lemma get_revisions_without_revision (E : env) (title : string) (w : world)
    (q ps page : pyval) :
  py_getitem
    (session_get E (get_api_url E) (revision_params title) (pages w)) "query"
  = Ok q ->
  py_getitem q "pages" = Ok ps -> py_first ps = Ok page ->
  py_in "missing" page = Ok true
  \/ py_in "missing" page = Ok false /\ py_in "revisions" page = Ok false ->
  get_revisions E title w
  = (Ok (PStr ""),
     {| pages := pages w;
        output :=
          output w
          ++ [Requested (get_api_url E) (revision_params title);
              Printed ("No revision information found for page " +:+ title
                       +:+ str1 newline)] |}).
Proof.
  intros Hq Hps Hpage Hcase. unfold get_revisions.
  cbv zeta. rewrite (bind_ok _ _ _ _ _ (request_eq E _ _ w)).
  unfold bind, lift, ret.
  rewrite (getitem_in _ _ _ Hq), Hq. cbn [rbind].
  rewrite (getitem_in _ _ _ Hps), Hps. cbn [rbind negb].
  rewrite Hpage.
  destruct Hcase as [Hm|[Hm Hr]]; rewrite Hm; [|rewrite Hr];
    cbn [negb]; unfold print, emit, logged; simpl;
    now rewrite <- List.app_assoc.
Qed.

Lemma get_revisions_invalid (E : env) (title : string) (w : world) :
  (let data :=
     session_get E (get_api_url E) (revision_params title) (pages w) in
   py_in "query" data = Ok false
   \/ exists q, py_getitem data "query" = Ok q /\ py_in "pages" q = Ok false) ->
  get_revisions E title w
  = (Ok (PStr ""),
     {| pages := pages w;
        output :=
          output w
          ++ [Requested (get_api_url E) (revision_params title);
              Printed "No valid page found..."] |}).
Proof.
  cbv zeta. intros Hcase. unfold get_revisions.
  cbv zeta. rewrite (bind_ok _ _ _ _ _ (request_eq E _ _ w)).
  unfold bind, lift, ret.
  destruct Hcase as [Hq|(q & Hq & Hp)].
  - rewrite Hq. cbn [negb]. unfold print, emit, logged. simpl.
    now rewrite <- List.app_assoc.
  - rewrite (getitem_in _ _ _ Hq), Hq. cbn [rbind]. rewrite Hp.
    cbn [negb]. unfold print, emit, logged. simpl.
    now rewrite <- List.app_assoc.
Qed.

(** When the wiki reports the page as missing, or reports it without
    revisions, the save operation prints a diagnostic and stores an
    empty text on the checkpoint page, whatever record was there; the
    next load then finds no checkpoint. *)
Theorem save_for_page_without_revision_erases_checkpoint (E : env)
    (title : string) (w : world) (q ps page : pyval) :
  py_getitem
    (session_get E (get_api_url E) (revision_params title) (pages w)) "query"
  = Ok q ->
  py_getitem q "pages" = Ok ps -> py_first ps = Ok page ->
  py_in "missing" page = Ok true
  \/ py_in "missing" page = Ok false /\ py_in "revisions" page = Ok false ->
  let w1 :=
    {| pages := <[REV_PAGE := ""]> (pages w);
       output :=
         output w
         ++ [Requested (get_api_url E) (revision_params title);
             Printed ("No revision information found for page " +:+ title
                      +:+ str1 newline);
             Saved REV_PAGE ""] |} in
  update_last_page E title w = (Ok tt, w1)
  /\ check_last_page E w1
     = (Ok (PStr ""),
        logged w1 (Printed ("No valid revision on this page found"
                            +:+ str1 newline))).
Proof.
  intros Hq Hps Hpage Hcase.
  pose proof (update_last_page_empty E title w _
                (get_revisions_without_revision E title w q ps page
                   Hq Hps Hpage Hcase)) as H.
  cbv zeta in *. simpl in H. rewrite <- List.app_assoc in H. exact H.
Qed.

(** When the answer to the revisions query has no "query" entry, or
    one without "pages", the save operation prints a diagnostic and
    stores an empty text on the checkpoint page; the next load then
    finds no checkpoint. *)
Theorem save_after_invalid_answer_erases_checkpoint (E : env)
    (title : string) (w : world) :
  (let data :=
     session_get E (get_api_url E) (revision_params title) (pages w) in
   py_in "query" data = Ok false
   \/ exists q, py_getitem data "query" = Ok q /\ py_in "pages" q = Ok false) ->
  let w1 :=
    {| pages := <[REV_PAGE := ""]> (pages w);
       output :=
         output w
         ++ [Requested (get_api_url E) (revision_params title);
             Printed "No valid page found...";
             Saved REV_PAGE ""] |} in
  update_last_page E title w = (Ok tt, w1)
  /\ check_last_page E w1
     = (Ok (PStr ""),
        logged w1 (Printed ("No valid revision on this page found"
                            +:+ str1 newline))).
Proof.
  intros Hcase.
  pose proof (update_last_page_empty E title w _
                (get_revisions_invalid E title w Hcase)) as H.
  cbv zeta in *. simpl in H. rewrite <- List.app_assoc in H. exact H.
Qed.

(** ** Loading on a wiki without checkpoint page *)

(** The load operation creates the missing checkpoint page, empty,
    and returns the empty title; loading again returns the empty
    title without writing anything. *)
Theorem load_creates_checkpoint_page_once (E : env) (w : world) :
  pages w !! REV_PAGE = None ->
  exists w1 w2,
    check_last_page E w = (Ok (PStr ""), w1)
    /\ pages w1 = <[REV_PAGE := ""]> (pages w)
    /\ check_last_page E w1 = (Ok (PStr ""), w2)
    /\ pages w2 = pages w1
    /\ output w2
       = output w1
         ++ [Printed ("No valid revision on this page found"
                      +:+ str1 newline)].
Proof.
  intros Hp. rewrite (check_last_page_missing E w Hp).
  eexists. eexists. split; [reflexivity |]. split; [reflexivity |].
  rewrite check_last_page_empty by apply saved_page.
  repeat split.
Qed.

(** ** Dates with a time zone *)

Lemma old_page_loop_zoned (E : env) (f : string) (rest : list string)
    (d : datetime) (off : Z) :
  parse_date E f = Ok d -> tzinfo d = Some off ->
  forall young : list string,
    forallb (fun g => dated E g && negb (old_enough E g)) young = true ->
    old_page_loop E (young ++ f :: rest) = Raise TypeError.
Proof.
  intros Hf Hz. induction young as [|g young IH]; intros Hy.
  - simpl. rewrite Hf. cbn [rbind]. unfold dt_lt. now rewrite Hz.
  - cbn [forallb] in Hy. apply andb_true_iff in Hy as [Hg Hy].
    apply andb_true_iff in Hg as [Hg Hold].
    change ((g :: young) ++ f :: rest) with (g :: (young ++ f :: rest)).
    cbn [old_page_loop]. unfold dated, old_enough in *.
    destruct (parse_date E g) as [[t [off'|]]|e']; try discriminate.
    cbn [rbind]. unfold dt_lt, minus_days, naive.
    cbn [tzinfo instant rbind] in *.
    apply negb_true_iff in Hold. rewrite Hold. now apply IH.
Qed.

(** When the scan of a page's Flagged fragments reaches a date the
    parser reads with a time zone before it reaches a date that is
    old enough, comparing it with the clock reading, which has none,
    raises a type error: the page is not evaluated, and the per-page
    step raises without writing. *)
Theorem date_with_time_zone_raises_type_error (E : env) (w : world)
    (page_dict : pyval) (title f : string) (young rest : list string)
    (d : datetime) (off : Z) :
  py_getitem page_dict "title" = Ok (PStr title) ->
  grab_template_data flagged (default "" (pages w !! title))
  = young ++ f :: rest ->
  forallb (fun g => dated E g && negb (old_enough E g)) young = true ->
  parse_date E f = Ok d -> tzinfo d = Some off ->
  old_page E (default "" (pages w !! title)) = Raise TypeError
  /\ update_page E page_dict w = (Raise TypeError, w).
Proof.
  intros Ht Hg Hy Hf Hz.
  assert (Hold : old_page E (default "" (pages w !! title)) = Raise TypeError).
  { unfold old_page. rewrite Hg.
    rewrite (old_page_loop_zoned E f rest d off Hf Hz young Hy).
    now destruct young. }
  split; [assumption |].
  unfold update_page. rewrite Ht. cbn [rbind as_str].
  unfold bind at 1, lift at 1. unfold bind at 1, page_text at 1.
  apply bind_raise. unfold lift. now rewrite Hold.
Qed.

(** ** Pages the per-page step leaves alone *)

Lemma young_not_old (E : env) (dates : list string) :
  forallb (fun g => dated E g && negb (old_enough E g)) dates = true ->
  forallb (dated E) dates = true /\ existsb (old_enough E) dates = false.
Proof.
  induction dates as [|g dates IH]; [auto |]. cbn [forallb existsb].
  intros [Hg Hd]%andb_true_iff. apply andb_true_iff in Hg as [Hg Hold].
  apply negb_true_iff in Hold. destruct (IH Hd) as [H1 H2].
  now rewrite Hg, H1, Hold, H2.
Qed.

(** A category member none of whose Flagged fragments is old enough,
    all of them carrying a date the parser reads (a page without
    marker and a page that does not exist among them), is not
    written: the per-page step only prints that it needs no archival. *)
Theorem young_page_is_left_alone (E : env) (w : world) (page_dict : pyval)
    (title : string) :
  py_getitem page_dict "title" = Ok (PStr title) ->
  forallb (fun g => dated E g && negb (old_enough E g))
    (grab_template_data flagged (default "" (pages w !! title))) = true ->
  update_page E page_dict w
  = (Ok tt,
     logged w (Printed ("Page " +:+ title
                        +:+ " does not need to be archived..."))).
Proof.
  intros Ht Hy. destruct (young_not_old E _ Hy) as [Hd Hno].
  assert (Hold : old_page E (default "" (pages w !! title)) = Ok false).
  { unfold old_page.
    destruct (grab_template_data flagged _) as [|f dates] eqn:Hg;
      [reflexivity |].
    now rewrite (old_page_loop_dated E _ Hd), Hno. }
  unfold update_page. rewrite Ht. cbn [rbind as_str].
  unfold bind at 1, lift at 1. unfold bind at 1, page_text at 1.
  unfold bind at 1, lift at 1. now rewrite Hold.
Qed.

(** ** Archiving an eligible page *)

Lemma update_page_eligible (E : env) (w : world) (page_dict : pyval)
    (title text text' : string) :
  py_getitem page_dict "title" = Ok (PStr title) ->
  pages w !! title = Some text ->
  old_page E text = Ok true ->
  update_template_loop E (parse_template flagged text) text = Ok text' ->
  update_page E page_dict w
  = move_namespace E title "Archive"
      {| pages :=
           <[title := str_replace "Articles flagged to be archived"
                        "Articles Archived" text']> (pages w);
         output :=
           output w
           ++ [Printed "Updating page's template...";
               Printed "Changing category...";
               Saved title
                 (str_replace "Articles flagged to be archived"
                    "Articles Archived" text')] |}.
Proof.
  intros Ht Hp Hold Hloop. unfold update_page.
  rewrite Ht. cbn [rbind as_str].
  unfold bind at 1, lift at 1. unfold bind at 1, page_text at 1.
  rewrite Hp. change (default "" (Some text)) with text.
  unfold bind at 1, lift at 1. rewrite Hold.
  unfold update_template, update_category, bind, print, emit, lift,
    page_save. rewrite Hloop. cbn [pages output].
  now rewrite <- !List.app_assoc.
Qed.

(** For an existing category member that is eligible, whose markers
    the rewrite can process and whose title is free in the Archive
    namespace, the per-page step saves the page with the rewritten
    markers and the new category, then moves it: the text ends under
    the Archive title and a redirect stays at the old one. *)
Theorem eligible_page_is_archived (E : env) (w : world) (page_dict : pyval)
    (title text text' : string) :
  py_getitem page_dict "title" = Ok (PStr title) ->
  pages w !! title = Some text ->
  old_page E text = Ok true ->
  update_template_loop E (parse_template flagged text) text = Ok text' ->
  pages w !! ("Archive:" +:+ title_without_ns E title) = None ->
  let final :=
    str_replace "Articles flagged to be archived" "Articles Archived" text' in
  let dest := "Archive:" +:+ title_without_ns E title in
  update_page E page_dict w
  = (Ok tt,
     {| pages :=
          <[dest := final]>
            (<[title := "#REDIRECT [[" +:+ dest +:+ "]]"]> (pages w));
        output :=
          output w
          ++ [Printed "Updating page's template...";
              Printed "Changing category...";
              Saved title final;
              Printed "Moving namespace...";
              Moved title dest
                ("Move namespace from " +:+ namespace_name E title
                 +:+ " to Archive")] |}).
Proof.
  intros Ht Hp Hold Hloop Hfree final dest.
  rewrite (update_page_eligible E w page_dict title text text'
             Ht Hp Hold Hloop).
  subst final dest.
  assert (Hne : title <> "Archive:" +:+ title_without_ns E title).
  { intros Heq. rewrite <- Heq in Hfree. congruence. }
  unfold move_namespace, bind, print, emit, page_move. cbn [pages output].
  change ("Archive" +:+ ":" +:+ title_without_ns E title)
    with ("Archive:" +:+ title_without_ns E title).
  rewrite lookup_insert_eq, lookup_insert_ne, Hfree by assumption.
  rewrite insert_insert_eq. cbn [pages output].
  now rewrite <- !List.app_assoc.
Qed.

(** ** A refused move *)

Lemma move_refused (title new_title reason : string) (w : world) :
  pages w !! title = None \/ is_Some (pages w !! new_title) ->
  exists e, page_move title new_title reason w = (Raise e, w).
Proof.
  intros H. unfold page_move.
  destruct (pages w !! title) as [text|].
  - destruct H as [H|[x H]]; [discriminate |]. rewrite H. eauto.
  - eauto.
Qed.

Lemma move_namespace_refused (E : env) (title namespace : string)
    (w : world) :
  pages w !! title = None
  \/ is_Some (pages w !! (namespace +:+ ":" +:+ title_without_ns E title)) ->
  move_namespace E title namespace w
  = (Raise (NameError "ArticleExistsConflictError"),
     logged w (Printed "Moving namespace...")).
Proof.
  intros H. unfold move_namespace, bind, print, emit. cbn [pages output].
  match goal with |- context [page_move ?t ?n ?r ?w'] =>
    destruct (move_refused t n r w' H) as (e & ->)
  end.
  reflexivity.
Qed.

(** [move_namespace] has two outcomes.  When the page exists and the
    destination is free it moves the page and leaves a redirect.
    Otherwise the move is refused and it raises a name error after
    its first message: the handler's message is never printed and
    the pages stay as they are. *)
Theorem move_namespace_moves_or_raises_name_error (E : env)
    (title namespace : string) (w : world) :
  let dest := namespace +:+ ":" +:+ title_without_ns E title in
  (exists text,
     pages w !! title = Some text /\ pages w !! dest = None
     /\ move_namespace E title namespace w
        = (Ok tt,
           {| pages :=
                <[dest := text]>
                  (<[title := "#REDIRECT [[" +:+ dest +:+ "]]"]> (pages w));
              output :=
                output w
                ++ [Printed "Moving namespace...";
                    Moved title dest
                      ("Move namespace from " +:+ namespace_name E title
                       +:+ " to " +:+ namespace)] |}))
  \/ ((pages w !! title = None \/ is_Some (pages w !! dest))
      /\ move_namespace E title namespace w
         = (Raise (NameError "ArticleExistsConflictError"),
            logged w (Printed "Moving namespace..."))).
Proof.
  intros dest.
  destruct (pages w !! title) as [text|] eqn:Hp.
  - destruct (pages w !! dest) as [other|] eqn:Hd.
    + right. split; [right; eauto |].
      apply move_namespace_refused. right. fold dest. rewrite Hd. eauto.
    + left. exists text. repeat split.
      unfold move_namespace, bind, print, emit, page_move.
      cbn [pages output]. fold dest. rewrite Hp, Hd. cbn [pages output].
      now rewrite <- !List.app_assoc.
  - right. split; [now left |].
    apply move_namespace_refused. now left.
Qed.

(** For an existing category member that is eligible but whose title
    is taken in the Archive namespace (or that is itself in that
    namespace), the per-page step saves the page with the rewritten
    markers and the new category and then raises a name error: the
    page keeps its title with the archived text. *)
Theorem taken_destination_leaves_page_half_archived (E : env) (w : world)
    (page_dict : pyval) (title text text' : string) :
  py_getitem page_dict "title" = Ok (PStr title) ->
  pages w !! title = Some text ->
  old_page E text = Ok true ->
  update_template_loop E (parse_template flagged text) text = Ok text' ->
  "Archive:" +:+ title_without_ns E title = title
  \/ is_Some (pages w !! ("Archive:" +:+ title_without_ns E title)) ->
  let final :=
    str_replace "Articles flagged to be archived" "Articles Archived" text' in
  update_page E page_dict w
  = (Raise (NameError "ArticleExistsConflictError"),
     {| pages := <[title := final]> (pages w);
        output :=
          output w
          ++ [Printed "Updating page's template...";
              Printed "Changing category...";
              Saved title final;
              Printed "Moving namespace..."] |}).
Proof.
  intros Ht Hp Hold Hloop Htaken final.
  rewrite (update_page_eligible E w page_dict title text text'
             Ht Hp Hold Hloop).
  fold final. rewrite move_namespace_refused.
  - unfold logged. cbn [pages output]. now rewrite <- !List.app_assoc.
  - right. cbn [pages].
    change ("Archive" +:+ ":" +:+ title_without_ns E title)
      with ("Archive:" +:+ title_without_ns E title).
    destruct Htaken as [->|[x Hx]]; [rewrite lookup_insert_eq; eauto |].
    destruct (decide (title = "Archive:" +:+ title_without_ns E title))
      as [<-|Hne]; [rewrite lookup_insert_eq; eauto |].
    rewrite lookup_insert_ne by assumption. eauto.
Qed.

(** ** A category listing of the wrong shape *)

(** When the answer to the category query is a dictionary without
    "query", [modify_pages] prints the answer as an invalid object
    and then raises a key error on the very entry it found missing:
    no page is worked on and none is written. *)
Theorem listing_without_query_raises_key_error (E : env) (url : string)
    (last_title : pyval) (w : world) (d : list (string * pyval)) :
  session_get E url (get_params last_title) (pages w) = PDict d ->
  dict_get "query" d = None ->
  modify_pages E url last_title w
  = (Raise (KeyError "query"),
     {| pages := pages w;
        output :=
          output w
          ++ [Requested url (get_params last_title);
              PrintedVal "************INVALID JSON OBJECT************"
                (PDict d)] |}).
Proof.
  intros Ha Hq. unfold modify_pages.
  rewrite (bind_ok _ _ _ _ _ (request_eq E url _ w)).
  rewrite Ha. unfold bind, lift, ret, print_val, emit, logged.
  cbn [py_in py_getitem]. rewrite Hq. simpl.
  now rewrite <- List.app_assoc.
Qed.

(** When the answer has a "query" dictionary without
    "categorymembers", [modify_pages] prints that no member was found
    and then raises a key error on that entry: no page is worked on
    and none is written. *)
Theorem listing_without_members_raises_key_error (E : env) (url : string)
    (last_title : pyval) (w : world) (q : list (string * pyval)) :
  py_getitem (session_get E url (get_params last_title) (pages w)) "query"
  = Ok (PDict q) ->
  dict_get "categorymembers" q = None ->
  modify_pages E url last_title w
  = (Raise (KeyError "categorymembers"),
     {| pages := pages w;
        output :=
          output w
          ++ [Requested url (get_params last_title);
              PrintedVal
                "************NO MEMBER FOUND IN CATEGORY************"
                (PDict q)] |}).
Proof.
  intros Ha Hq. unfold modify_pages.
  rewrite (bind_ok _ _ _ _ _ (request_eq E url _ w)).
  unfold bind, lift, ret, print_val, emit, logged.
  rewrite (getitem_in _ _ _ Ha), Ha.
  cbn [py_in py_getitem negb pages output]. rewrite Hq. simpl.
  now rewrite <- List.app_assoc.
Qed.

(** ** The saves and moves of a run *)

Section Appends.

Variable P : event -> bool.

Lemma appends_refl (w : world) : appends P w w.
Proof. exists []. now rewrite List.app_nil_r. Qed.

Lemma appends_trans (a b c : world) :
  appends P a b -> appends P b c -> appends P a c.
Proof.
  intros (n1 & H1 & F1) (n2 & H2 & F2). exists (n1 ++ n2).
  rewrite H2, H1, <- List.app_assoc, forallb_app, F1, F2. auto.
Qed.

Lemma appends_emit (e : event) : P e = true -> keeps (appends P) (emit e).
Proof. intros He w. exists [e]. simpl. now rewrite He. Qed.

Lemma appends_page_save (title text : string) :
  P (Saved title text) = true -> keeps (appends P) (page_save title text).
Proof. intros He w. exists [Saved title text]. simpl. now rewrite He. Qed.

Lemma appends_page_move (title new_title reason : string) :
  P (Moved title new_title reason) = true ->
  keeps (appends P) (page_move title new_title reason).
Proof.
  intros He w. unfold page_move.
  destruct (pages w !! title), (pages w !! new_title);
    try apply appends_refl.
  exists [Moved title new_title reason]. simpl. now rewrite He.
Qed.

End Appends.

Lemma appends_impl (P Q : event -> bool) (a b : world) :
  (forall e, P e = true -> Q e = true) -> appends P a b -> appends Q a b.
Proof.
  intros HPQ (new & H & F). exists new. split; [assumption |].
  rewrite forallb_forall in *. auto.
Qed.

Lemma existsb_eqb_in (t : string) (l : list string) :
  In t l -> existsb (String.eqb t) l = true.
Proof.
  intros H. apply existsb_exists. exists t. now rewrite String.eqb_refl.
Qed.

Ltac appends_step P :=
  first [ apply appends_emit; reflexivity
        | apply appends_page_save; assumption
        | keeps_step (appends_refl P) (appends_trans P) ].

Lemma appends_move_namespace (E : env) (titles : list string)
    (title : string) :
  In title titles ->
  keeps (appends (member_write E titles)) (move_namespace E title "Archive").
Proof.
  intros Hin w. unfold move_namespace.
  match goal with |- context [?m w] =>
    assert (H : keeps (appends (member_write E titles)) m)
  end.
  { apply (keeps_bind _ (appends_trans _));
      [apply appends_emit; reflexivity | intros _].
    apply appends_page_move. cbn [member_write].
    rewrite (existsb_eqb_in _ _ Hin). apply String.eqb_refl. }
  match goal with |- context [?m w] =>
    specialize (H w); destruct (m w) as [[u|e] w']
  end; exact H.
Qed.

Lemma appends_update_page (E : env) (titles : list string) (page : pyval) :
  (forall t, py_getitem page "title" = Ok (PStr t) -> In t titles) ->
  keeps (appends (member_write E titles)) (update_page E page).
Proof.
  intros Ht. unfold update_page.
  apply (keeps_bind_lift _ (appends_refl _)). intros title Htitle.
  destruct (py_getitem page "title") as [[| | | |m| |]|e]; try discriminate.
  injection Htitle as <-. specialize (Ht m eq_refl).
  assert (Hs : forall text,
            member_write E titles (Saved m text) = true)
    by (intros text; exact (existsb_eqb_in _ _ Ht)).
  unfold update_template, update_category, print.
  repeat first [ apply appends_page_save; apply Hs
               | appends_step (member_write E titles) ].
  now apply appends_move_namespace.
Qed.

Lemma member_title_in (response : pyval) (members : list pyval) (page : pyval)
    (t : string) :
  members_of response = Ok members -> In page members ->
  py_getitem page "title" = Ok (PStr t) -> In t (member_titles response).
Proof.
  intros Hm Hin Ht. unfold member_titles. rewrite Hm.
  apply in_flat_map. exists page. split; [assumption |]. rewrite Ht. now left.
Qed.

Lemma appends_modify_pages (E : env) (url : string) (last_title : pyval)
    (w : world) :
  appends
    (member_write E
       (member_titles (session_get E url (get_params last_title) (pages w))))
    w (modify_pages E url last_title w).2.
Proof.
  unfold modify_pages.
  rewrite (bind_ok _ _ _ _ _ (request_eq E url _ w)).
  set (response := session_get E url (get_params last_title) (pages w)).
  set (P := member_write E (member_titles response)).
  apply (appends_trans P _ (logged w (Requested url (get_params last_title)))).
  { exists [Requested url (get_params last_title)]. auto. }
  match goal with |- context [?k (logged w ?e)] =>
    assert (Hk : keeps (appends P) k)
  end.
  { apply (keeps_bind_lift _ (appends_refl P)). intros b _.
    apply (keeps_bind _ (appends_trans P)).
    { destruct (negb b);
        [apply appends_emit; reflexivity | apply keeps_ret, appends_refl]. }
    intros _.
    apply (keeps_bind_lift _ (appends_refl P)). intros q Hq.
    apply (keeps_bind_lift _ (appends_refl P)). intros b' _.
    apply (keeps_bind _ (appends_trans P)).
    { destruct (negb b');
        [apply appends_emit; reflexivity | apply keeps_ret, appends_refl]. }
    intros _.
    apply (keeps_bind_lift _ (appends_refl P)). intros members Hm.
    apply (keeps_for_each_in _ (appends_refl P) (appends_trans P)).
    intros page Hin. unfold per_page.
    apply (keeps_bind _ (appends_trans P));
      [apply appends_emit; reflexivity | intros _].
    apply appends_update_page. intros t Ht.
    apply (member_title_in response members page t); try assumption.
    unfold members_of. now rewrite Hq. }
  exact (Hk (logged w _)).
Qed.

Lemma appends_check_last_page (E : env) (titles : list string) :
  keeps (appends (fun e => checkpoint_creation e || member_write E titles e))
    (check_last_page E).
Proof.
  unfold check_last_page, print.
  repeat first [ apply appends_page_save; reflexivity
               | appends_step
                   (fun e => checkpoint_creation e
                             || member_write E titles e) ].
Qed.

(** The script saves and moves only the members of the listing it
    receives.  Every event that working through a batch adds to the
    log is a request, a printed line, a save of a listed member or a
    move of a listed member to its title in the Archive namespace,
    whether the batch ends or a page raises. *)
Theorem batch_saves_and_moves_only_members (E : env) (url : string)
    (last_title : pyval) (w : world) :
  exists new,
    output (modify_pages E url last_title w).2 = output w ++ new
    /\ forallb
         (member_write E
            (member_titles
               (session_get E url (get_params last_title) (pages w))))
         new = true.
Proof. exact (appends_modify_pages E url last_title w). Qed.

(** In a whole run the script saves the empty checkpoint page when it
    has to create it, and otherwise saves and moves only the members
    of the category listing it receives, each move being to the
    member's title in the Archive namespace. *)
Theorem run_saves_and_moves_only_members (E : env) (w : world) :
  exists new,
    output (main E w).2 = output w ++ new
    /\ forallb
         (fun e => checkpoint_creation e
                   || member_write E (listing_titles E w) e) new = true.
Proof.
  set (P := fun e => checkpoint_creation e
                     || member_write E (listing_titles E w) e).
  change (appends P w (main E w).2).
  pose proof (appends_check_last_page E (listing_titles E w) w) as H0.
  fold P in H0. unfold main. cbv zeta. unfold bind at 1.
  destruct (check_last_page E w) as [[last_title|e] w1] eqn:Hc;
    [|exact H0].
  cbn [snd] in H0. apply (appends_trans P _ _ _ H0).
  assert (Hpr : exists msg,
            (if truthy E last_title
             then print "last page found" else print "No last page found") w1
            = (Ok tt, logged w1 (Printed msg)))
    by (destruct (truthy E last_title); eauto).
  destruct Hpr as (msg & Hpr). rewrite (bind_ok _ _ _ _ _ Hpr).
  apply (appends_trans P _ (logged w1 (Printed msg))).
  { exists [Printed msg]. auto. }
  pose proof (appends_modify_pages E (get_api_url E) last_title
                (logged w1 (Printed msg))) as Hm.
  apply (appends_impl _ P) in Hm.
  - unfold bind at 1.
    destruct (modify_pages E (get_api_url E) last_title
                (logged w1 (Printed msg))) as [[u|e] w2]; [|exact Hm].
    cbn [snd] in Hm. apply (appends_trans P _ _ _ Hm).
    exists [Printed (str1 newline +:+ "No pages left to be tagged")]. auto.
  - intros e He. unfold P, listing_titles. rewrite Hc.
    cbn [pages logged] in He. rewrite He. apply orb_true_r.
Qed.

(** ** Replacing the category *)

Lemma prefix_miss (s : string) :
  forall p : string, str_prefix p s = false -> match_at (lit p) s = None.
Proof.
  unfold match_at. induction s as [|b s IH]; intros [|a p] H;
    try discriminate; [reflexivity |].
  simpl in *. destruct (Ascii.eqb a b); [now apply IH | reflexivity].
Qed.

(** [replace] leaves a text without occurrence as it is. *)
Lemma replace_absent (old new : string) :
  forall s : string, is_infix old s = false -> str_replace old new s = s.
Proof.
  unfold str_replace, re_sub. induction s as [|c s IH]; intros H.
  - simpl in H. rewrite orb_false_r in H.
    cbn [sub_from]. now rewrite (prefix_miss _ _ H).
  - cbn [is_infix] in H. apply orb_false_iff in H as [Hp Hs].
    cbn [sub_from]. rewrite (prefix_miss _ _ Hp). f_equal. now apply IH.
Qed.

Lemma prefix_split (r : string) :
  forall v p : string,
    str_prefix p (v +:+ r) = true ->
    str_prefix p v = true
    \/ exists x, p = v +:+ x /\ str_prefix x r = true.
Proof.
  induction v as [|c v IH]; intros p H.
  - right. now exists p.
  - destruct p as [|a p]; [now left |].
    change (String c v +:+ r) with (String c (v +:+ r)) in H.
    cbn [str_prefix] in *. apply andb_true_iff in H as [Ha H].
    apply Ascii.eqb_eq in Ha. subst c.
    destruct (IH p H) as [Hl|(x & -> & Hx)].
    + left. now rewrite Ascii.eqb_refl.
    + right. now exists x.
Qed.

Lemma prefix_of_app (b : string) :
  forall x p : string,
    str_prefix x (p +:+ b) = true ->
    (String.length x <= String.length p)%nat -> str_prefix x p = true.
Proof.
  induction x as [|c x IH]; intros p H Hlen; [reflexivity |].
  destruct p as [|a p]; [simpl in Hlen; lia |].
  change (String a p +:+ b) with (String a (p +:+ b)) in H.
  cbn [str_prefix] in *. apply andb_true_iff in H as [Ha H].
  rewrite Ha. apply IH; [assumption | simpl in Hlen; lia].
Qed.

Lemma tails_suffix (x : string) :
  forall v : string, v <> "" -> In x (tails (v +:+ x)).
Proof.
  induction v as [|c v IH]; intros Hv; [congruence |].
  change (String c v +:+ x) with (String c (v +:+ x)). cbn [tails].
  destruct v as [|d v]; [now left |]. right. now apply IH.
Qed.

Lemma prefix_infix (p v : string) :
  forall u : string, str_prefix p v = true -> is_infix p (u +:+ v) = true.
Proof.
  induction u as [|c u IH]; intros H.
  - destruct v; simpl in *; now rewrite H.
  - change (String c u +:+ v) with (String c (u +:+ v)). cbn [is_infix].
    rewrite (IH H). apply orb_true_r.
Qed.

(** Ahead of an occurrence of a pattern that cannot overlap itself,
    in a text that holds none, no occurrence starts. *)
Lemma no_early_match (p b : string) :
  border_free p = true ->
  forall u v : string,
    is_infix p (u +:+ v) = false -> v <> "" ->
    match_at (lit p) (v +:+ p +:+ b) = None.
Proof.
  intros Hb u v Ha Hv. apply prefix_miss.
  destruct (str_prefix p (v +:+ p +:+ b)) eqn:H; [|reflexivity].
  destruct (prefix_split _ v p H) as [Hl|(x & Hpx & Hx)].
  - now rewrite (prefix_infix p v u Hl) in Ha.
  - destruct x as [|c x].
    + rewrite str_app_nil_r in Hpx. subst v.
      assert (Hpp : str_prefix p p = true)
        by (clear; induction p as [|c p IH]; simpl;
            [reflexivity | now rewrite Ascii.eqb_refl]).
      now rewrite (prefix_infix p p u Hpp) in Ha.
    + assert (Hlen : (String.length (String c x) <= String.length p)%nat)
        by (rewrite Hpx, str_length_app; lia).
      pose proof (prefix_of_app b _ p Hx Hlen) as Hpre.
      unfold border_free in Hb.
      pose proof (proj1 (forallb_forall _ _) Hb (String c x)) as Hbx.
      rewrite Hpx in Hbx at 1. specialize (Hbx (tails_suffix _ v Hv)).
      cbv beta iota in Hbx. now rewrite Hpre in Hbx.
Qed.

(** [replace] puts the new text in the place of the first occurrence
    and goes on behind it. *)
Lemma replace_first (old new b : string) :
  border_free old = true -> old <> "" ->
  forall a : string,
    is_infix old a = false ->
    str_replace old new (a +:+ old +:+ b)
    = a +:+ new +:+ str_replace old new b.
Proof.
  intros Hb Hne a Ha. unfold str_replace, re_sub.
  assert (H : forall u v : string, a = u +:+ v ->
            sub_from (lit old) new 0 (v +:+ old +:+ b)
            = v +:+ new +:+ sub_from (lit old) new 0 b).
  { intros u v. revert u. induction v as [|c v IH]; intros u Huv.
    - destruct old as [|c m]; [congruence |].
      change ("" +:+ String c m +:+ b) with (String c m +:+ b).
      apply sub_step. exact (rmatch_lit Some b (String c m)).
    - rewrite Huv in Ha.
      pose proof (no_early_match old b Hb u (String c v) Ha) as Hm.
      change (String c v +:+ old +:+ b) with (String c (v +:+ old +:+ b))
        in *.
      cbn [sub_from]. rewrite Hm by discriminate.
      change (String c v +:+ new +:+ sub_from (lit old) new 0 b)
        with (String c (v +:+ new +:+ sub_from (lit old) new 0 b)).
      f_equal. apply (IH (u +:+ str1 c)).
      rewrite Huv, str_app_assoc. reflexivity. }
  exact (H "" a eq_refl).
Qed.

(** Where the page text does not name the flagged category,
    [update_category] saves the text as it is; where it does, the
    first occurrence gives way to the archived category, the text
    ahead of it stays, and the replacement goes on behind it. *)
Theorem category_is_replaced (title a b : string) (w : world) :
  is_infix "Articles flagged to be archived" a = false ->
  let old := "Articles flagged to be archived" in
  let new := "Articles Archived" in
  let saved text :=
    {| pages := <[title := text]> (pages w);
       output :=
         output w ++ [Printed "Changing category..."; Saved title text] |} in
  update_category title a old new w = (Ok tt, saved a)
  /\ update_category title (a +:+ old +:+ b) old new w
     = (Ok tt, saved (a +:+ new +:+ str_replace old new b)).
Proof.
  intros Ha old new saved.
  assert (Hs : forall text,
            update_category title text old new w
            = (Ok tt, saved (str_replace old new text))).
  { intros text. unfold update_category, bind, print, emit, page_save, saved.
    cbn [pages output]. now rewrite <- List.app_assoc. }
  split; rewrite Hs.
  - now rewrite (replace_absent old new a Ha).
  - now rewrite (replace_first old new b eq_refl ltac:(discriminate) a Ha).
Qed.

(** ** The further properties on concrete pages *)

Module Samples.

Import Demo Cases.

Lemma marker_without_pipe_not_found_witness :
  let text := "Intro. {{Archive recommendation}} and {{Infobox}}" in
  str_mem pipe text = false
  /\ grab_template_data flagged text = []
  /\ parse_template flagged text = []
  /\ old_page march text = Ok false.
Proof.
  cbv zeta. split; [reflexivity |].
  exact (marker_without_pipe_not_found march
           "Intro. {{Archive recommendation}} and {{Infobox}}" eq_refl).
Defined.

(** The label is stripped; so are the first letter of "april" and
    the last letter of "August". *)
Lemma parse_date_strips_characters_witness :
  parse_date march "date=January 1, 2023"
  = parser_parse march "January 1, 2023"
  /\ parse_date march "date=april 5, 2023" = parser_parse march "pril 5, 2023"
  /\ parse_date march "date=5 August" = parser_parse march "5 Augus".
Proof.
  split; [|split].
  - exact (parse_date_strips_characters march "date=" "January 1, 2023" ""
             eq_refl eq_refl eq_refl eq_refl).
  - exact (parse_date_strips_characters march "date=a" "pril 5, 2023" ""
             eq_refl eq_refl eq_refl eq_refl).
  - exact (parse_date_strips_characters march "date=" "5 Augus" "t"
             eq_refl eq_refl eq_refl eq_refl).
Defined.

Lemma save_for_page_without_revision_erases_checkpoint_witness :
  pages resumed !! REV_PAGE = Some stored_record
  /\ (update_last_page march "Gone" resumed).1 = Ok tt
  /\ pages (update_last_page march "Gone" resumed).2 !! REV_PAGE = Some ""
  /\ (check_last_page march (update_last_page march "Gone" resumed).2).1
     = Ok (PStr "").
Proof.
  split; [reflexivity |].
  pose (page := PDict [("title", PStr "Gone"); ("missing", PBool true)]).
  destruct (save_for_page_without_revision_erases_checkpoint march "Gone"
              resumed (PDict [("pages", PList [page])]) (PList [page]) page
              eq_refl eq_refl eq_refl (or_introl eq_refl)) as [Hs Hl].
  rewrite Hs. cbn [fst snd]. rewrite Hl.
  split; [reflexivity |]. split; [apply lookup_insert_eq | reflexivity].
Defined.

Lemma save_after_invalid_answer_erases_checkpoint_witness :
  let E := answering march (PDict [("error", PStr "badtoken")]) in
  pages resumed !! REV_PAGE = Some stored_record
  /\ (update_last_page E "Foo" resumed).1 = Ok tt
  /\ pages (update_last_page E "Foo" resumed).2 !! REV_PAGE = Some ""
  /\ (check_last_page E (update_last_page E "Foo" resumed).2).1
     = Ok (PStr "").
Proof.
  cbv zeta. split; [reflexivity |].
  destruct (save_after_invalid_answer_erases_checkpoint
              (answering march (PDict [("error", PStr "badtoken")]))
              "Foo" resumed (or_introl eq_refl)) as [Hs Hl].
  rewrite Hs. cbn [fst snd]. rewrite Hl.
  split; [reflexivity |]. split; [apply lookup_insert_eq | reflexivity].
Defined.

Lemma load_creates_checkpoint_page_once_witness :
  pages fresh !! REV_PAGE = None
  /\ exists w1 w2,
       check_last_page march fresh = (Ok (PStr ""), w1)
       /\ pages w1 = <[REV_PAGE := ""]> (pages fresh)
       /\ check_last_page march w1 = (Ok (PStr ""), w2)
       /\ pages w2 = pages w1
       /\ output w2
          = output w1
            ++ [Printed ("No valid revision on this page found"
                         +:+ str1 newline)].
Proof.
  split; [reflexivity |].
  exact (load_creates_checkpoint_page_once march fresh eq_refl).
Defined.

Lemma date_with_time_zone_raises_type_error_witness :
  grab_template_data flagged foo_text = ["date=January 1, 2023"]
  /\ parse_date zoned "date=January 1, 2023"
     = Ok {| instant := (ymd2ord 2023 1 1 - 1) * usec_per_day;
             tzinfo := Some 0 |}
  /\ old_page zoned foo_text = Raise TypeError
  /\ update_page zoned (member "Foo") fresh = (Raise TypeError, fresh).
Proof.
  do 2 (split; [reflexivity |]).
  exact (date_with_time_zone_raises_type_error zoned fresh (member "Foo")
           "Foo" "date=January 1, 2023" [] []
           {| instant := (ymd2ord 2023 1 1 - 1) * usec_per_day;
              tzinfo := Some 0 |} 0
           eq_refl eq_refl eq_refl eq_refl eq_refl).
Defined.

(** On 15 January the marker of 1 January is fourteen days old; a
    member without page has no marker. *)
Lemma young_page_is_left_alone_witness :
  update_page january (member "Foo") fresh
  = (Ok tt,
     logged fresh (Printed "Page Foo does not need to be archived..."))
  /\ update_page march (member "Gone") fresh
     = (Ok tt,
        logged fresh (Printed "Page Gone does not need to be archived...")).
Proof.
  split.
  - exact (young_page_is_left_alone january fresh (member "Foo") "Foo"
             eq_refl eq_refl).
  - exact (young_page_is_left_alone march fresh (member "Gone") "Gone"
             eq_refl eq_refl).
Defined.

Lemma eligible_page_is_archived_witness :
  let final :=
    "Intro. " +:+ archived_marker march +:+ nl
    +:+ "[[Category:Articles Archived]]" in
  old_page march foo_text = Ok true
  /\ pages fresh !! "Archive:Foo" = None
  /\ update_page march (member "Foo") fresh
     = (Ok tt,
        {| pages :=
             <["Archive:Foo" := final]>
               (<["Foo" := "#REDIRECT [[Archive:Foo]]"]> (pages fresh));
           output :=
             [Printed "Updating page's template...";
              Printed "Changing category...";
              Saved "Foo" final;
              Printed "Moving namespace...";
              Moved "Foo" "Archive:Foo" "Move namespace from  to Archive"] |}).
Proof.
  cbv zeta. do 2 (split; [reflexivity |]).
  exact (eligible_page_is_archived march fresh (member "Foo") "Foo" foo_text
           ("Intro. " +:+ archived_marker march +:+ nl +:+ category_tag)
           eq_refl eq_refl eq_refl eq_refl eq_refl).
Defined.

Lemma taken_destination_leaves_page_half_archived_witness :
  let final :=
    "Intro. " +:+ archived_marker march +:+ nl
    +:+ "[[Category:Articles Archived]]" in
  pages taken !! "Archive:Foo" = Some "kept"
  /\ update_page march (member "Foo") taken
     = (Raise (NameError "ArticleExistsConflictError"),
        {| pages := <["Foo" := final]> (pages taken);
           output :=
             [Printed "Updating page's template...";
              Printed "Changing category...";
              Saved "Foo" final;
              Printed "Moving namespace..."] |}).
Proof.
  cbv zeta. split; [reflexivity |].
  exact (taken_destination_leaves_page_half_archived march taken
           (member "Foo") "Foo" foo_text
           ("Intro. " +:+ archived_marker march +:+ nl +:+ category_tag)
           eq_refl eq_refl eq_refl eq_refl
           (or_intror (ex_intro _ "kept" eq_refl))).
Defined.

Lemma listing_without_query_raises_key_error_witness :
  let answer := PDict [("error", PStr "badtoken")] in
  modify_pages (answering march answer) "url" (PStr "") fresh
  = (Raise (KeyError "query"),
     {| pages := pages fresh;
        output :=
          [Requested "url" (get_params (PStr ""));
           PrintedVal "************INVALID JSON OBJECT************"
             answer] |}).
Proof.
  exact (listing_without_query_raises_key_error
           (answering march (PDict [("error", PStr "badtoken")]))
           "url" (PStr "") fresh [("error", PStr "badtoken")]
           eq_refl eq_refl).
Defined.

Lemma listing_without_members_raises_key_error_witness :
  let answer := PDict [("query", PDict [("pages", PList [])])] in
  modify_pages (answering march answer) "url" (PStr "") fresh
  = (Raise (KeyError "categorymembers"),
     {| pages := pages fresh;
        output :=
          [Requested "url" (get_params (PStr ""));
           PrintedVal "************NO MEMBER FOUND IN CATEGORY************"
             (PDict [("pages", PList [])])] |}).
Proof.
  exact (listing_without_members_raises_key_error
           (answering march (PDict [("query", PDict [("pages", PList [])])]))
           "url" (PStr "") fresh [("pages", PList [])] eq_refl eq_refl).
Defined.

Lemma category_is_replaced_witness :
  let w := fresh in
  is_infix "Articles flagged to be archived" "Text. [[Category:" = false
  /\ update_category "Foo"
       ("Text. [[Category:Articles flagged to be archived]] [[Category:"
        +:+ "Articles flagged to be archived]]")
       "Articles flagged to be archived" "Articles Archived" w
     = (Ok tt,
        {| pages :=
             <["Foo" := "Text. [[Category:Articles Archived]] [[Category:"
                        +:+ "Articles Archived]]"]> (pages w);
           output :=
             [Printed "Changing category...";
              Saved "Foo"
                ("Text. [[Category:Articles Archived]] [[Category:"
                 +:+ "Articles Archived]]")] |}).
Proof.
  cbv zeta. split; [reflexivity |].
  exact (proj2 (category_is_replaced "Foo" "Text. [[Category:"
                  ("]] [[Category:Articles flagged to be archived]]") fresh
                  eq_refl)).
Defined.

End Samples.
